(** * webagent: the task orchestration loop

    A shallow embedding of the orchestration core of the repository:

    - [llm/client.py]: [LLMClient.generate_response], the interpreter that
      turns one raw reply of the model backend into an [LLMResponse];
    - [agent/main_agent.py]: [AgentState], [ToolExecutor] and
      [MainAgent.run];
    - [browser_tools/navigation.py], [interaction.py], [screenshot.py] and
      [human_handoff.py]: the capabilities and their module-level browser
      handles;
    - [browser_core/chrome_driver.py]: the driver methods those use.

    Python values are modelled as the code has them: a [str] is a sequence
    of Unicode code points, a [dict] keeps its insertion order, a function
    with effects threads the world it acts on. *)

From Stdlib Require Import String Ascii DecimalString.
From Stdlib Require Import List NArith ZArith Bool Lia Wf_nat.
Import ListNotations.

(* ================================================================== *)
(** * Python strings *)
(* ================================================================== *)

Module Py.

(** A Python [str] is a sequence of code points; [len], slicing and
    [find] count code points, not bytes. *)
Abbreviation codepoint := N.
Abbreviation str := (list N).

Definition len (s : str) : Z := Z.of_nat (List.length s).

(** ** Literals

    String literals of the source are written as they are there; the
    bytes of the literal are decoded from UTF-8. *)

Definition cont (b : N) : N := N.land b 63.

Fixpoint utf8_decode (bs : list N) : str :=
  match bs with
  | [] => []
  | b0 :: r0 =>
      if (b0 <? 128)%N then b0 :: utf8_decode r0
      else match r0 with
      | [] => [b0]
      | b1 :: r1 =>
          if (b0 <? 224)%N then
            (N.shiftl (N.land b0 31) 6 + cont b1)%N :: utf8_decode r1
          else match r1 with
          | [] => [b0; b1]
          | b2 :: r2 =>
              if (b0 <? 240)%N then
                (N.shiftl (N.land b0 15) 12 + N.shiftl (cont b1) 6
                 + cont b2)%N :: utf8_decode r2
              else match r2 with
              | [] => [b0; b1; b2]
              | b3 :: r3 =>
                  (N.shiftl (N.land b0 7) 18 + N.shiftl (cont b1) 12
                   + N.shiftl (cont b2) 6 + cont b3)%N :: utf8_decode r3
              end
          end
      end
  end.

Definition lit (s : string) : str :=
  utf8_decode (map N_of_ascii (list_ascii_of_string s)).
Arguments lit s%_string.

(** A literal of the source that contains double quotes is written with
    single quotes in their place. *)
Definition lit_dq (s : string) : str :=
  map (fun c => if (c =? 39)%N then 34%N else c) (lit s).
Arguments lit_dq s%_string.

(** ** Comparison *)

Fixpoint eqb (a b : str) : bool :=
  match a, b with
  | [], [] => true
  | x :: a', y :: b' => (x =? y)%N && eqb a' b'
  | _, _ => false
  end.

(** ** [sub in s], [s.find(sub)], [s.startswith(sub)] *)

Fixpoint startswith (sub s : str) : bool :=
  match sub, s with
  | [], _ => true
  | _ :: _, [] => false
  | x :: sub', y :: s' => (x =? y)%N && startswith sub' s'
  end.

(** The index of the first occurrence of [sub] in [s], counted from
    [i]. *)
Fixpoint find_from (sub s : str) (i : nat) : option nat :=
  if startswith sub s then Some i
  else match s with
       | [] => None
       | _ :: s' => find_from sub s' (S i)
       end.

(** [s.find(sub)]: the lowest index where [sub] occurs, [-1] when it
    does not. *)
Definition find (sub s : str) : Z :=
  match find_from sub s 0 with
  | Some i => Z.of_nat i
  | None => (-1)%Z
  end.

(** [sub in s]. *)
Definition contains (sub s : str) : bool :=
  match find_from sub s 0 with
  | Some _ => true
  | None => false
  end.

(** ** Slicing

    [s[lo:hi]] with the bounds Python gives to out-of-range and
    negative indices. *)
Definition clamp (n i : Z) : Z :=
  if (i <? 0)%Z then Z.max 0 (i + n) else Z.min i n.

Definition slice (s : str) (lo hi : Z) : str :=
  let l := clamp (len s) lo in
  let h := clamp (len s) hi in
  firstn (Z.to_nat (h - l)) (skipn (Z.to_nat l) s).

(** [s[:hi]] and [s[lo:]]. *)
Definition slice_to (s : str) (hi : Z) : str := slice s 0 hi.
Definition slice_from (s : str) (lo : Z) : str := slice s lo (len s).

(** ** [s.strip()]

    The characters [str.isspace] accepts: the ones Unicode gives the
    bidirectional type WS, B or S, or the category Zs. *)
Definition isspace (c : codepoint) : bool :=
  ((9 <=? c) && (c <=? 13) || (28 <=? c) && (c <=? 32)
   || (c =? 133) || (c =? 160) || (c =? 5760)
   || (8192 <=? c) && (c <=? 8202)
   || (c =? 8232) || (c =? 8233) || (c =? 8239) || (c =? 8287)
   || (c =? 12288))%N.

Fixpoint lstrip (s : str) : str :=
  match s with
  | [] => []
  | c :: s' => if isspace c then lstrip s' else s
  end.

Definition rstrip (s : str) : str := rev (lstrip (rev s)).

Definition strip (s : str) : str := rstrip (lstrip s).

(** ** [s.lower()]

    The source lowers a string only to compare it with an ASCII word
    ([done], [abort], [help], [css], [down], [up]); no character outside
    ASCII lowers to a letter of those words, so lowering the ASCII
    capitals decides every such comparison as Python does. *)
Definition lower_char (c : codepoint) : codepoint :=
  if ((65 <=? c) && (c <=? 90))%N then (c + 32)%N else c.

Definition lower (s : str) : str := map lower_char s.

(** ** [str(n)] of an [int] *)
Definition str_of_int (z : Z) : str :=
  lit (NilEmpty.string_of_int (Z.to_int z)).

(** [c * n] for a one-character string. *)
Definition times (s : str) (n : nat) : str := concat (repeat s n).

(** [x or y] on strings: the first when it is not empty. *)
Definition or_else (x y : str) : str :=
  match x with [] => y | _ :: _ => x end.

End Py.

Abbreviation str := Py.str.
Abbreviation py := Py.lit.

(* ================================================================== *)
(** * Python values and [json.loads] *)
(* ================================================================== *)

Module Json.

(** A [float] as [json.loads] reads it: the digits of the literal. *)
Inductive float_lit : Type :=
| FNaN
| FInfinity (negative : bool)
| FDecimal (negative : bool) (int_digits frac_digits : list N) (exponent : Z).

(** The values the decoder builds, which are also the values the
    capabilities return.  A [dict] keeps its keys in insertion order. *)
#[warnings="-register-all"]
Inductive value : Type :=
| PyNone
| PyBool (b : bool)
| PyInt (z : Z)
| PyFloat (f : float_lit)
| PyStr (s : str)
| PyList (l : list value)
| PyDict (d : list (str * value)).

Definition dict := list (str * value).

(** [d.get(k)]. *)
Fixpoint dict_get (k : str) (d : dict) : option value :=
  match d with
  | [] => None
  | (k', v) :: d' => if Py.eqb k k' then Some v else dict_get k d'
  end.

(** [d[k] = v]: an existing key keeps its place. *)
Fixpoint dict_set (k : str) (v : value) (d : dict) : dict :=
  match d with
  | [] => [(k, v)]
  | (k', v') :: d' =>
      if Py.eqb k k' then (k, v) :: d' else (k', v') :: dict_set k v d'
  end.

(** [k in d]. *)
Definition dict_mem (k : str) (d : dict) : bool :=
  match dict_get k d with Some _ => true | None => false end.

(** The value of the decimal digits [ds] (most significant first). *)
Definition digits_value (ds : list N) : Z :=
  fold_left (fun acc d => (10 * acc + Z.of_N (d - 48))%Z) ds 0%Z.

(** Whether the float a literal denotes is [0.0] or [-0.0]: its digits
    are all zero, or its value rounds to zero (it is at most [2^-1075],
    half of the smallest subnormal). *)
Definition float_is_zero (f : float_lit) : bool :=
  match f with
  | FNaN | FInfinity _ => false
  | FDecimal _ ip fp ex =>
      let m := digits_value (ip ++ fp) in
      let e := (ex - Z.of_nat (List.length fp))%Z in
      ((m =? 0) || ((e <? 0) && (m * 2 ^ 1075 <=? 10 ^ (- e))))%Z
  end.

(** Truth value of an object, as [not v] and [if v:] test it. *)
Definition truthy (v : value) : bool :=
  match v with
  | PyNone => false
  | PyBool b => b
  | PyInt z => negb (z =? 0)%Z
  | PyFloat f => negb (float_is_zero f)
  | PyStr s => match s with [] => false | _ => true end
  | PyList l => match l with [] => false | _ => true end
  | PyDict d => match d with [] => false | _ => true end
  end.

(** Whether an object can be a dictionary key: lists and dictionaries
    cannot. *)
Definition hashable (v : value) : bool :=
  match v with
  | PyList _ | PyDict _ => false
  | _ => true
  end.

(** ** The decoder

    [json.loads] of the standard library on a [str], with its default
    options (strict strings, the constants [NaN], [Infinity] and
    [-Infinity] accepted).  [None] is a [JSONDecodeError].  The limits of
    the interpreter (recursion depth, length of an integer literal) are
    not part of the model. *)

Definition is_ws (c : N) : bool :=
  ((c =? 32) || (c =? 9) || (c =? 10) || (c =? 13))%N.

Fixpoint skip_ws (s : str) : str :=
  match s with
  | c :: s' => if is_ws c then skip_ws s' else s
  | [] => []
  end.

Definition is_digit (c : N) : bool := ((48 <=? c) && (c <=? 57))%N.

Fixpoint span_digits (s : str) : list N * str :=
  match s with
  | c :: s' =>
      if is_digit c then let '(ds, r) := span_digits s' in (c :: ds, r)
      else ([], s)
  | [] => ([], [])
  end.

Definition hex_value (c : N) : option N :=
  if is_digit c then Some (c - 48)%N
  else if ((97 <=? c) && (c <=? 102))%N then Some (c - 87)%N
  else if ((65 <=? c) && (c <=? 70))%N then Some (c - 55)%N
  else None.

Definition hex4 (a b c d : N) : option N :=
  match hex_value a, hex_value b, hex_value c, hex_value d with
  | Some x, Some y, Some z, Some w =>
      Some (x * 4096 + y * 256 + z * 16 + w)%N
  | _, _, _, _ => None
  end.

(** The character after a backslash: quote, backslash, slash, and the
    letters b, f, n, r, t. *)
Definition simple_escape (c : N) : option N :=
  if (c =? 34)%N then Some 34%N
  else if (c =? 92)%N then Some 92%N
  else if (c =? 47)%N then Some 47%N
  else if (c =? 98)%N then Some 8%N
  else if (c =? 102)%N then Some 12%N
  else if (c =? 110)%N then Some 10%N
  else if (c =? 114)%N then Some 13%N
  else if (c =? 116)%N then Some 9%N
  else None.

Definition is_high_surrogate (c : N) : bool :=
  ((55296 <=? c) && (c <=? 56319))%N.
Definition is_low_surrogate (c : N) : bool :=
  ((56320 <=? c) && (c <=? 57343))%N.

(** The body of a string, after its opening quote: the decoded
    characters (in reverse in [acc]) and what follows the closing
    quote. *)
Fixpoint scan_string (s : str) (acc : str) : option (str * str) :=
  match s with
  | [] => None
  | c :: r =>
      if (c =? 34)%N then Some (rev acc, r)
      else if (c <? 32)%N then None
      else if (c =? 92)%N then
        match r with
        | [] => None
        | e :: r1 =>
            if (e =? 117)%N then
              match r1 with
              | h1 :: h2 :: h3 :: h4 :: r2 =>
                  match hex4 h1 h2 h3 h4 with
                  | None => None
                  | Some u1 =>
                      if is_high_surrogate u1 then
                        match r2 with
                        | b :: u :: r3 =>
                            if ((b =? 92) && (u =? 117))%N then
                              match r3 with
                              | g1 :: g2 :: g3 :: g4 :: r4 =>
                                  match hex4 g1 g2 g3 g4 with
                                  | None => None
                                  | Some u2 =>
                                      if is_low_surrogate u2 then
                                        scan_string r4
                                          ((65536 + (u1 - 55296) * 1024
                                            + (u2 - 56320))%N :: acc)
                                      else scan_string r2 (u1 :: acc)
                                  end
                              | _ => None
                              end
                            else scan_string r2 (u1 :: acc)
                        | _ => scan_string r2 (u1 :: acc)
                        end
                      else scan_string r2 (u1 :: acc)
                  end
              | _ => None
              end
            else
              match simple_escape e with
              | Some x => scan_string r1 (x :: acc)
              | None => None
              end
        end
      else scan_string r (c :: acc)
  end.

(** A number, as the decoder's pattern reads it: an optional minus, an
    integer part without leading zero, an optional fraction (a dot and
    at least one digit), an optional exponent ([e] or [E], an optional
    sign, at least one digit). *)
Definition scan_int_part (s : str) : option (list N * str) :=
  match s with
  | c :: r =>
      if (c =? 48)%N then Some ([48%N], r)
      else if is_digit c then Some (span_digits s)
      else None
  | [] => None
  end.

Definition scan_frac (s : str) : option (list N) * str :=
  match s with
  | c :: r =>
      if (c =? 46)%N then
        match span_digits r with
        | ([], _) => (None, s)
        | (ds, r') => (Some ds, r')
        end
      else (None, s)
  | [] => (None, s)
  end.

Definition scan_sign (s : str) : bool * str :=
  match s with
  | c :: r =>
      if (c =? 45)%N then (true, r)
      else if (c =? 43)%N then (false, r)
      else (false, s)
  | [] => (false, s)
  end.

Definition scan_exp (s : str) : option Z * str :=
  match s with
  | e :: r =>
      if ((e =? 101) || (e =? 69))%N then
        let '(neg, r1) := scan_sign r in
        match span_digits r1 with
        | ([], _) => (None, s)
        | (ds, r2) =>
            (Some (if neg then (- digits_value ds)%Z else digits_value ds),
             r2)
        end
      else (None, s)
  | [] => (None, s)
  end.

Definition scan_minus (s : str) : bool * str :=
  match s with
  | c :: r => if (c =? 45)%N then (true, r) else (false, s)
  | [] => (false, s)
  end.

Definition scan_number (s : str) : option (value * str) :=
  let '(neg, s1) := scan_minus s in
  match scan_int_part s1 with
  | None => None
  | Some (ip, s2) =>
      let '(frac, s3) := scan_frac s2 in
      let '(ex, s4) := scan_exp s3 in
      match frac, ex with
      | None, None =>
          let n := digits_value ip in
          Some (PyInt (if neg then (- n)%Z else n), s4)
      | _, _ =>
          Some (PyFloat (FDecimal neg ip
                           (match frac with Some ds => ds | None => [] end)
                           (match ex with Some z => z | None => 0%Z end)),
                s4)
      end
  end.

Definition scan_constant (s : str) : option (value * str) :=
  if Py.startswith (py "null") s then Some (PyNone, skipn 4 s)
  else if Py.startswith (py "true") s then Some (PyBool true, skipn 4 s)
  else if Py.startswith (py "false") s then Some (PyBool false, skipn 5 s)
  else match scan_number s with
  | Some r => Some r
  | None =>
      if Py.startswith (py "NaN") s then Some (PyFloat FNaN, skipn 3 s)
      else if Py.startswith (py "Infinity") s
      then Some (PyFloat (FInfinity false), skipn 8 s)
      else if Py.startswith (py "-Infinity") s
      then Some (PyFloat (FInfinity true), skipn 9 s)
      else None
  end.

(** The characters of the grammar. *)
Definition quote : N := 34.
Definition comma : N := 44.
Definition colon : N := 58.
Definition open_bracket : N := 91.
Definition close_bracket : N := 93.
Definition open_brace : N := 123.
Definition close_brace : N := 125.

(** Whether [s] starts with the character [c], and what follows it. *)
Definition after (c : N) (s : str) : option str :=
  match s with
  | x :: r => if (x =? c)%N then Some r else None
  | [] => None
  end.

(** One value at the head of [s] and the text after it.  [fuel] bounds
    the depth of the calls; more than twice the length of [s] is never
    used up (lemma [fuel_enough]). *)
Fixpoint parse_value (fuel : nat) (s : str) {struct fuel}
  : option (value * str) :=
  match fuel with
  | O => None
  | S f =>
      match after quote s with
      | Some r =>
          match scan_string r [] with
          | Some (k, r') => Some (PyStr k, r')
          | None => None
          end
      | None =>
      match after open_brace s with
      | Some r =>
          match after close_brace (skip_ws r) with
          | Some r' => Some (PyDict [], r')
          | None => parse_members f (skip_ws r) []
          end
      | None =>
      match after open_bracket s with
      | Some r =>
          match after close_bracket (skip_ws r) with
          | Some r' => Some (PyList [], r')
          | None => parse_elements f (skip_ws r) []
          end
      | None => scan_constant s
      end end end
  end

with parse_elements (fuel : nat) (s : str) (acc : list value) {struct fuel}
  : option (value * str) :=
  match fuel with
  | O => None
  | S f =>
      match parse_value f s with
      | None => None
      | Some (v, r) =>
          match after close_bracket (skip_ws r) with
          | Some r' => Some (PyList (rev (v :: acc)), r')
          | None =>
              match after comma (skip_ws r) with
              | Some r' => parse_elements f (skip_ws r') (v :: acc)
              | None => None
              end
          end
      end
  end

with parse_members (fuel : nat) (s : str) (acc : dict) {struct fuel}
  : option (value * str) :=
  match fuel with
  | O => None
  | S f =>
      match after quote s with
      | None => None
      | Some r =>
          match scan_string r [] with
          | None => None
          | Some (k, r1) =>
              match after colon (skip_ws r1) with
              | None => None
              | Some r2 =>
                  match parse_value f (skip_ws r2) with
                  | None => None
                  | Some (v, r3) =>
                      let acc' := dict_set k v acc in
                      match after close_brace (skip_ws r3) with
                      | Some r4 => Some (PyDict acc', r4)
                      | None =>
                          match after comma (skip_ws r3) with
                          | Some r4 => parse_members f (skip_ws r4) acc'
                          | None => None
                          end
                      end
                  end
              end
          end
      end
  end.

(** [json.loads(s)]: one value, with only whitespace around it. *)
Definition loads (s : str) : option value :=
  match parse_value (2 * List.length s + 2) (skip_ws s) with
  | Some (v, r) =>
      match skip_ws r with
      | [] => Some v
      | _ :: _ => None
      end
  | None => None
  end.

End Json.

Export Json.

(* ================================================================== *)
(** * What the sources take from their environment *)
(* ================================================================== *)

(** Constants and library functions the sources use and do not define.
    Every definition below is parametric in them. *)
Record Platform : Type := {
  (** [config/prompts.py] *)
  SYSTEM_PROMPT : str;
  TOOL_CALL_FORMAT : str;
  (** [Settings.DATA_DIR] *)
  DATA_DIR : str;
  (** [os.path.join] of two components *)
  path_join : str -> str -> str;
  (** [str.isalnum] of one character *)
  isalnum : N -> bool;
  (** [str(v)] of a float, a list or a dictionary *)
  repr_other : value -> str;
  (** the check pydantic runs on a non-[None] value of a field declared
      [Optional[Dict[str, Any]]]: the dictionary it stores, or the text
      of the [ValidationError] it raises *)
  dict_validator : value -> dict + str;
  (** a dictionary with string keys is stored as it is *)
  dict_validator_dict : forall d, dict_validator (PyDict d) = inl d;
  (** the [str] of the [TypeError] raised when the function of that name
      is called with the keyword arguments [v] and [v] does not fit its
      parameters *)
  bad_call : str -> value -> str;
  (** the [str] of the [TypeError] that [await v] raises on an object
      that cannot be awaited *)
  await_error : value -> str;
  (** [str(v)] raises for an [int] beyond the interpreter's limit on
      digits, and for a list or a dictionary that holds one: the [str]
      of that [ValueError], [None] when [str(v)] returns *)
  str_error : value -> option str;
  (** the [str] of a string is the string *)
  str_error_str : forall s, str_error (PyStr s) = None
}.

(** [str(v)] when it returns, which is also how an f-string shows
    [v]. *)
Definition py_str (p : Platform) (v : value) : str :=
  match v with
  | PyNone => py "None"
  | PyBool true => py "True"
  | PyBool false => py "False"
  | PyInt z => Py.str_of_int z
  | PyStr s => s
  | PyFloat _ | PyList _ | PyDict _ => repr_other p v
  end.

(** An [Optional[str]] as a value. *)
Definition of_opt (o : option str) : value :=
  match o with
  | Some s => PyStr s
  | None => PyNone
  end.

(** How an f-string shows an [Optional[str]]. *)
Definition show_opt (o : option str) : str :=
  match o with
  | Some s => s
  | None => py "None"
  end.

(* ================================================================== *)
(** * The world: browser session, console, model backend *)
(* ================================================================== *)

Inductive By : Type := CSS_SELECTOR | XPATH.

(** The requests [ChromeDriver] makes of its Selenium session. *)
Inductive SeleniumCall : Type :=
| SGet (url : str)
| SBack
| SForward
| SClick (by_ : By) (selector : str)
| SSendKeys (by_ : By) (selector text : str)
| SExecuteScript (script : str)
| SCurrentUrl
| SSaveScreenshot (file_path : str).

(** What the session answers: a text (for a query) and a flag (for
    [save_screenshot]). *)
Record Reply : Type := { reply_text : str; reply_flag : bool }.

(** One chat message, [{"role": ..., "content": ...}]. *)
Record Message : Type := { msg_role : str; msg_content : str }.

Definition message (role content : str) : Message :=
  {| msg_role := role; msg_content := content |}.

(** What one call of the chat-completions endpoint comes to: the text of
    the first choice, or the [str] of the exception raised on the way
    (a transport error, a status other than 200, a reply without a
    string under [choices[0].message.content]). *)
Inductive ApiOutcome : Type :=
| ApiContent (text : str)
| ApiError (message : str).

Record World : Type := {
  (** the session requests made so far, oldest first *)
  session_log : list SeleniumCall;
  (** the answer to the last request of a history; [None] when Selenium
      raises *)
  session : list SeleniumCall -> option Reply;
  (** [datetime.now().strftime("%Y%m%d_%H%M%S")] at a history *)
  clock : list SeleniumCall -> str;
  (** [os.makedirs(path, exist_ok=True)]: the [str] of the [OSError] it
      raises, if it does *)
  makedirs_error : str -> option str;
  (** the lines the operator has yet to type, and what was printed *)
  stdin : list str;
  stdout : list str;
  (** the model backend and the requests sent to it, oldest first *)
  llm : list Message -> ApiOutcome;
  llm_log : list (list Message)
}.

Definition with_session_log (w : World) (l : list SeleniumCall) : World :=
  {| session_log := l; session := session w; clock := clock w;
     makedirs_error := makedirs_error w; stdin := stdin w;
     stdout := stdout w; llm := llm w; llm_log := llm_log w |}.

Definition with_stdin (w : World) (i : list str) : World :=
  {| session_log := session_log w; session := session w; clock := clock w;
     makedirs_error := makedirs_error w; stdin := i;
     stdout := stdout w; llm := llm w; llm_log := llm_log w |}.

Definition with_stdout (w : World) (o : list str) : World :=
  {| session_log := session_log w; session := session w; clock := clock w;
     makedirs_error := makedirs_error w; stdin := stdin w;
     stdout := o; llm := llm w; llm_log := llm_log w |}.

Definition with_llm_log (w : World) (l : list (list Message)) : World :=
  {| session_log := session_log w; session := session w; clock := clock w;
     makedirs_error := makedirs_error w; stdin := stdin w;
     stdout := stdout w; llm := llm w; llm_log := l |}.

(** Computations that act on the world. *)
Definition IO (A : Type) : Type := World -> A * World.

Definition ret {A : Type} (a : A) : IO A := fun w => (a, w).

Definition bind {A B : Type} (c : IO A) (k : A -> IO B) : IO B :=
  fun w => let '(a, w') := c w in k a w'.

Declare Scope io_scope.
Delimit Scope io_scope with io.
Notation "x <- c ;; k" := (bind c (fun x => k))
  (at level 61, c at next level, right associativity) : io_scope.
Notation "c ;;; k" := (bind c (fun _ => k))
  (at level 61, right associativity) : io_scope.
Local Open Scope io_scope.

(** One request to the session. *)
Definition selenium (c : SeleniumCall) : IO (option Reply) :=
  fun w =>
    let h := session_log w ++ [c] in
    (session w h, with_session_log w h).

(** [print(s)]. *)
Definition print (s : str) : IO unit :=
  fun w => (tt, with_stdout w (stdout w ++ [s])).

(* ================================================================== *)
(** * [browser_core/chrome_driver.py] *)
(* ================================================================== *)

Module ChromeDriver.

(** Every method wraps its Selenium request in [try]/[except Exception]
    and answers [False] (or [None]) when the request raises. *)

Definition succeeded (r : option Reply) : bool :=
  match r with Some _ => true | None => false end.

Definition navigate (url : str) : IO bool :=
  r <- selenium (SGet url) ;; ret (succeeded r).

Definition go_back : IO bool :=
  r <- selenium SBack ;; ret (succeeded r).

Definition go_forward : IO bool :=
  r <- selenium SForward ;; ret (succeeded r).

(** Waits until the element can be clicked, then clicks it. *)
Definition click_element (selector : str) (by_ : By) : IO bool :=
  r <- selenium (SClick by_ selector) ;; ret (succeeded r).

(** Waits for the element, clears it, sends the keys. *)
Definition type_text (selector text : str) (by_ : By) : IO bool :=
  r <- selenium (SSendKeys by_ selector text) ;; ret (succeeded r).

(** [if pixels:] on an [Optional[int]]. *)
Definition some_pixels (pixels : option Z) : option Z :=
  match pixels with
  | Some z => if (z =? 0)%Z then None else Some z
  | None => None
  end.

Definition scroll (direction : str) (pixels : option Z) : IO bool :=
  if Py.eqb direction (py "down") then
    r <- selenium (SExecuteScript
           match some_pixels pixels with
           | Some z => py "window.scrollBy(0, " ++ Py.str_of_int z ++ py ");"
           | None => py "window.scrollTo(0, document.body.scrollHeight);"
           end) ;;
    ret (succeeded r)
  else if Py.eqb direction (py "up") then
    r <- selenium (SExecuteScript
           match some_pixels pixels with
           | Some z => py "window.scrollBy(0, -" ++ Py.str_of_int z ++ py ");"
           | None => py "window.scrollTo(0, 0);"
           end) ;;
    ret (succeeded r)
  else ret true.

Definition get_current_url : IO (option str) :=
  r <- selenium SCurrentUrl ;; ret (option_map reply_text r).

Definition take_screenshot (file_path : str) : IO bool :=
  r <- selenium (SSaveScreenshot file_path) ;;
  ret (match r with Some x => reply_flag x | None => false end).

End ChromeDriver.

(* ================================================================== *)
(** * [browser_tools]: the capabilities *)
(* ================================================================== *)

(** A [ChromeDriver] instance.  [MainAgent.__init__] builds one, which
    owns the one session of the world. *)
Inductive Browser : Type := chrome_driver.

(** The module-level [browser] variables, one per module, [None] until
    the module's [set_browser_instance] is called. *)
Record Modules : Type := {
  navigation_browser : option Browser;
  interaction_browser : option Browser;
  screenshot_browser : option Browser;
  human_handoff_browser : option Browser
}.

Definition modules_at_import : Modules :=
  {| navigation_browser := None; interaction_browser := None;
     screenshot_browser := None; human_handoff_browser := None |}.

Definition nl : str := [10%N].

(** The message of every capability whose module has no browser. *)
Definition not_initialized : str := py "浏览器实例未初始化".

Module navigation.

Definition set_browser_instance (driver_instance : Browser) (m : Modules)
  : Modules :=
  {| navigation_browser := Some driver_instance;
     interaction_browser := interaction_browser m;
     screenshot_browser := screenshot_browser m;
     human_handoff_browser := human_handoff_browser m |}.

(** In the three functions the handler of [try] is never entered: the
    driver methods contain their own failures. *)

Definition go_to_url (m : Modules) (url : str) : IO dict :=
  match navigation_browser m with
  | None =>
      ret [(py "success", PyBool false);
           (py "message", PyStr not_initialized);
           (py "current_url", PyNone)]
  | Some _ =>
      success <- ChromeDriver.navigate url ;;
      current_url <- ChromeDriver.get_current_url ;;
      ret [(py "success", PyBool success);
           (py "current_url", of_opt current_url);
           (py "message",
            PyStr (if success then py "已导航到 " ++ url
                   else py "导航到 " ++ url ++ py " 失败"))]
  end.

Definition go_back (m : Modules) : IO dict :=
  match navigation_browser m with
  | None =>
      ret [(py "success", PyBool false);
           (py "message", PyStr not_initialized);
           (py "current_url", PyNone)]
  | Some _ =>
      previous_url <- ChromeDriver.get_current_url ;;
      success <- ChromeDriver.go_back ;;
      current_url <- ChromeDriver.get_current_url ;;
      ret [(py "success", PyBool success);
           (py "current_url", of_opt current_url);
           (py "message",
            PyStr (if success
                   then py "已从 " ++ show_opt previous_url ++ py " 后退到 "
                        ++ show_opt current_url
                   else py "后退操作失败"))]
  end.

Definition go_forward (m : Modules) : IO dict :=
  match navigation_browser m with
  | None =>
      ret [(py "success", PyBool false);
           (py "message", PyStr not_initialized);
           (py "current_url", PyNone)]
  | Some _ =>
      previous_url <- ChromeDriver.get_current_url ;;
      success <- ChromeDriver.go_forward ;;
      current_url <- ChromeDriver.get_current_url ;;
      ret [(py "success", PyBool success);
           (py "current_url", of_opt current_url);
           (py "message",
            PyStr (if success
                   then py "已从 " ++ show_opt previous_url ++ py " 前进到 "
                        ++ show_opt current_url
                   else py "前进操作失败"))]
  end.

End navigation.

Module interaction.

Definition set_browser_instance (driver_instance : Browser) (m : Modules)
  : Modules :=
  {| navigation_browser := navigation_browser m;
     interaction_browser := Some driver_instance;
     screenshot_browser := screenshot_browser m;
     human_handoff_browser := human_handoff_browser m |}.

Definition by_of (selector_type : str) : By :=
  if Py.eqb (Py.lower selector_type) (py "css") then CSS_SELECTOR else XPATH.

(** As in [navigation], no handler of [try] is ever entered. *)

Definition click_element (m : Modules) (selector selector_type : str)
  : IO dict :=
  match interaction_browser m with
  | None =>
      ret [(py "success", PyBool false);
           (py "message", PyStr not_initialized);
           (py "current_url", PyNone)]
  | Some _ =>
      success <- ChromeDriver.click_element selector (by_of selector_type) ;;
      current_url <- ChromeDriver.get_current_url ;;
      ret [(py "success", PyBool success);
           (py "current_url", of_opt current_url);
           (py "message",
            PyStr (if success
                   then py "已点击选择器 " ++ selector ++ py " 的元素"
                   else py "无法点击选择器 " ++ selector ++ py " 的元素"))]
  end.

Definition type_text (m : Modules) (selector text selector_type : str)
  : IO dict :=
  match interaction_browser m with
  | None =>
      ret [(py "success", PyBool false);
           (py "message", PyStr not_initialized);
           (py "current_url", PyNone)]
  | Some _ =>
      success <-
        ChromeDriver.type_text selector text (by_of selector_type) ;;
      current_url <- ChromeDriver.get_current_url ;;
      ret [(py "success", PyBool success);
           (py "current_url", of_opt current_url);
           (py "message",
            PyStr (if success
                   then py "已在选择器 " ++ selector ++ py " 的元素中输入文本"
                   else py "无法在选择器 " ++ selector
                        ++ py " 的元素中输入文本"))]
  end.

Definition scroll_page (m : Modules) (direction : str) (pixels : option Z)
  : IO dict :=
  match interaction_browser m with
  | None =>
      ret [(py "success", PyBool false);
           (py "message", PyStr not_initialized);
           (py "current_url", PyNone)]
  | Some _ =>
      let d := Py.lower direction in
      if negb (Py.eqb d (py "down") || Py.eqb d (py "up")) then
        current_url <- ChromeDriver.get_current_url ;;
        ret [(py "success", PyBool false);
             (py "current_url", of_opt current_url);
             (py "message",
              PyStr (py "无效的滚动方向: " ++ direction
                     ++ py "，必须是 'down' 或 'up'"))]
      else
        success <- ChromeDriver.scroll d pixels ;;
        current_url <- ChromeDriver.get_current_url ;;
        let message :=
          match ChromeDriver.some_pixels pixels with
          | Some z =>
              if success
              then py "已向" ++ direction ++ py "滚动 " ++ Py.str_of_int z
                   ++ py " 像素"
              else py "无法向" ++ direction ++ py "滚动 " ++ Py.str_of_int z
                   ++ py " 像素"
          | None =>
              let pos :=
                if Py.eqb d (py "down") then py "底部" else py "顶部" in
              if success then py "已滚动到页面" ++ pos
              else py "无法滚动到页面" ++ pos
          end in
        ret [(py "success", PyBool success);
             (py "current_url", of_opt current_url);
             (py "message", PyStr message)]
  end.

End interaction.

Module screenshot.

Definition set_browser_instance (driver_instance : Browser) (m : Modules)
  : Modules :=
  {| navigation_browser := navigation_browser m;
     interaction_browser := interaction_browser m;
     screenshot_browser := Some driver_instance;
     human_handoff_browser := human_handoff_browser m |}.

(** [c.isalnum() or c in " _-"]. *)
Definition safe_char (p : Platform) (c : N) : bool :=
  (isalnum p c || (c =? 32) || (c =? 95) || (c =? 45))%N.

Definition take_screenshot (p : Platform) (m : Modules) (description : str)
  : IO dict :=
  match screenshot_browser m with
  | None =>
      ret [(py "success", PyBool false);
           (py "message", PyStr not_initialized);
           (py "screenshot_path", PyNone);
           (py "current_url", PyNone)]
  | Some _ =>
      fun w =>
        let screenshot_dir := path_join p (DATA_DIR p) (py "screenshots") in
        match makedirs_error w screenshot_dir with
        | Some e =>
            (* except Exception as e *)
            (current_url <- ChromeDriver.get_current_url ;;
             ret [(py "success", PyBool false);
                  (py "current_url", of_opt current_url);
                  (py "screenshot_path", PyNone);
                  (py "message", PyStr (py "截图失败: " ++ e))]) w
        | None =>
            let timestamp := clock w (session_log w) in
            let filename :=
              match description with
              | _ :: _ =>
                  let safe_desc :=
                    Py.strip (filter (safe_char p) description) in
                  py "screenshot_" ++ timestamp ++ py "_" ++ safe_desc
                  ++ py ".png"
              | [] => py "screenshot_" ++ timestamp ++ py ".png"
              end in
            let file_path := path_join p screenshot_dir filename in
            (success <- ChromeDriver.take_screenshot file_path ;;
             current_url <- ChromeDriver.get_current_url ;;
             let message :=
               if success then
                 py "已保存截图至 " ++ file_path
                 ++ match description with
                    | _ :: _ => py "，描述: " ++ description
                    | [] => []
                    end
               else py "截图保存失败" in
             ret [(py "success", PyBool success);
                  (py "current_url", of_opt current_url);
                  (py "screenshot_path",
                   if success then PyStr file_path else PyNone);
                  (py "message", PyStr message)]) w
        end
  end.

End screenshot.

Module human_handoff.

Definition set_browser_instance (driver_instance : Browser) (m : Modules)
  : Modules :=
  {| navigation_browser := navigation_browser m;
     interaction_browser := interaction_browser m;
     screenshot_browser := screenshot_browser m;
     human_handoff_browser := Some driver_instance |}.

Definition prompt : str := py "请输入指令 (done/abort/help): ".

Definition help_text : list str :=
  [nl ++ py "帮助信息:";
   py "- 完成所需操作后输入 'done' 继续自动化";
   py "- 输入 'abort' 终止当前任务";
   py "- 操作期间可以自由浏览、登录或进行任何必要的交互";
   py "- 确保在输入 'done' 前已导航到希望自动化继续的页面" ++ nl].

(** [user_input.lower() not in ["done", "abort"]], negated. *)
Definition is_decision (user_input : str) : bool :=
  Py.eqb (Py.lower user_input) (py "done")
  || Py.eqb (Py.lower user_input) (py "abort").

(** The [while] loop that waits for the operator.  [input] shows the
    prompt and reads one line; at the end of the input it raises
    [EOFError], which is the [None] here.  The result is the decision,
    the lines not yet read, and the console output. *)
Fixpoint await_operator (lines out : list str)
  : option str * list str * list str :=
  match lines with
  | [] => (None, [], out ++ [prompt])
  | line :: rest =>
      let user_input := Py.strip line in
      let out1 := out ++ [prompt] in
      let out2 :=
        if Py.eqb (Py.lower user_input) (py "help")
        then out1 ++ help_text else out1 in
      if is_decision user_input then (Some user_input, rest, out2)
      else await_operator rest out2
  end.

Definition wait_for_operator : IO (option str) :=
  fun w =>
    let '(decision, rest, out) := await_operator (stdin w) (stdout w) in
    (decision, with_stdout (with_stdin w rest) out).

(** [d[k]]: the value, or the [str] of the [KeyError]. *)
Definition subscript (d : dict) (k : str) : str + value :=
  match dict_get k d with
  | Some v => inr v
  | None => inl (py "'" ++ k ++ py "'")
  end.

(** The body of the [try]: [inl] carries the [str] of an exception it
    raises. *)
Definition attempt (p : Platform) (m : Modules) (reason : str)
  : IO (str + dict) :=
  current_url <- ChromeDriver.get_current_url ;;
  screenshot_result <-
    screenshot.take_screenshot p m (py "human_handoff_before_" ++ reason) ;;
  print (nl ++ Py.times (py "=") 80) ;;;
  print (py "⚠️ 需要人工介入 ⚠️") ;;;
  print (py "原因: " ++ reason) ;;;
  print (py "当前页面: " ++ show_opt current_url) ;;;
  match subscript screenshot_result (py "success") with
  | inl e => ret (inl e)
  | inr saved =>
      shown <-
        (if truthy saved then
           match subscript screenshot_result (py "screenshot_path") with
           | inl e => ret (Some e)
           | inr path =>
               print (py "当前页面截图已保存至: " ++ py_str p path) ;;;
               ret None
           end
         else ret None) ;;
      match shown with
      | Some e => ret (inl e)
      | None =>
          print (nl ++ py "请在浏览器中完成必要操作，完成后按以下说明继续:") ;;;
          print (py "- 输入 'done' 并按回车继续自动化流程") ;;;
          print (py "- 输入 'abort' 并按回车终止任务") ;;;
          print (py "- 输入 'help' 并按回车查看帮助") ;;;
          print (Py.times (py "=") 80 ++ nl) ;;;
          decision <- wait_for_operator ;;
          match decision with
          | None => ret (inl (py "EOF when reading a line"))
          | Some user_input =>
              if Py.eqb (Py.lower user_input) (py "abort") then
                print (nl ++ py "任务已被用户终止。") ;;;
                url <- ChromeDriver.get_current_url ;;
                ret (inr [(py "success", PyBool false);
                          (py "aborted", PyBool true);
                          (py "current_url", of_opt url);
                          (py "message", PyStr (py "任务已被用户终止"))])
              else
                new_url <- ChromeDriver.get_current_url ;;
                screenshot.take_screenshot p m
                  (py "human_handoff_after_" ++ reason) ;;;
                print (nl ++ py "已恢复自动化流程，当前页面: "
                       ++ show_opt new_url) ;;;
                print (Py.times (py "=") 80 ++ nl) ;;;
                ret (inr [(py "success", PyBool true);
                          (py "aborted", PyBool false);
                          (py "previous_url", of_opt current_url);
                          (py "current_url", of_opt new_url);
                          (py "message",
                           PyStr (py "人工介入完成，已从 "
                                  ++ show_opt current_url ++ py " 导航到 "
                                  ++ show_opt new_url))])
          end
      end
  end.

Definition request_human_intervention (p : Platform) (m : Modules)
  (reason : str) : IO dict :=
  match human_handoff_browser m with
  | None =>
      ret [(py "success", PyBool false);
           (py "message", PyStr not_initialized);
           (py "current_url", PyNone)]
  | Some _ =>
      r <- attempt p m reason ;;
      match r with
      | inr result => ret result
      | inl e =>
          (* except Exception as e *)
          current_url <- ChromeDriver.get_current_url ;;
          ret [(py "success", PyBool false);
               (py "current_url", of_opt current_url);
               (py "message", PyStr (py "人工介入失败: " ++ e))]
      end
  end.

End human_handoff.

(* ================================================================== *)
(** * [llm/client.py] *)
(* ================================================================== *)

Module client.

Record ToolDefinition : Type := {
  name : str;
  description : str;
  parameters : list (str * str)
}.

Record LLMResponse : Type := {
  content : option str;
  tool_call : option dict;
  is_finished : bool
}.

Record LLMClient : Type := { tools : list ToolDefinition }.

Definition register_tools (self : LLMClient) (ts : list ToolDefinition)
  : LLMClient := {| tools := ts |}.

Definition _format_tools_for_prompt (self : LLMClient) : str :=
  match tools self with
  | [] => py "没有可用工具"
  | _ :: _ =>
      fold_left
        (fun tools_str tool =>
           fold_left
             (fun acc param =>
                acc ++ py "    " ++ fst param ++ py ": " ++ snd param ++ nl)
             (parameters tool)
             (tools_str ++ py "- " ++ name tool ++ py ": "
              ++ description tool ++ nl ++ py "  参数：" ++ nl))
        (tools self)
        (py "可用工具列表：" ++ nl)
  end.

Definition open_marker : str := py "<tool_call>".
Definition close_marker : str := py "</tool_call>".
Definition completion_phrase : str := py "任务已完成".

(** The response built in the handler of the outer [try]. *)
Definition error_response (e : str) : LLMResponse :=
  {| content := Some (py "调用LLM时发生错误: " ++ e);
     tool_call := None;
     is_finished := false |}.

(** [LLMResponse(content=..., tool_call=..., is_finished=...)]: pydantic
    checks the fields; the [inl] is the [str] of its [ValidationError].
    [tool_call] is the object [json.loads] gave, [PyNone] for none. *)
Definition make_response (p : Platform) (text : str) (call : value)
  (finished : bool) : str + LLMResponse :=
  match call with
  | PyNone =>
      inr {| content := Some text; tool_call := None;
             is_finished := finished |}
  | v =>
      match dict_validator p v with
      | inl d =>
          inr {| content := Some text; tool_call := Some d;
                 is_finished := finished |}
      | inr e => inl e
      end
  end.

(** The part of [generate_response] that reads the reply (from
    [tool_call = None] to the [return] of the [try]). *)
Definition parse_reply (p : Platform) (reply : str) (is_final : bool)
  : LLMResponse :=
  let '(text, call) :=
    if Py.contains open_marker reply && Py.contains close_marker reply
    then
      let start := (Py.find open_marker reply + Py.len open_marker)%Z in
      let end_ := Py.find close_marker reply in
      let tool_call_str := Py.strip (Py.slice reply start end_) in
      match Json.loads tool_call_str with
      | Some v =>
          (Py.strip
             (Py.slice_to reply (start - Py.len open_marker)
              ++ Py.slice_from reply (end_ + Py.len close_marker)),
           v)
      | None => (reply, PyNone)
      end
    else (reply, PyNone) in
  let finished :=
    is_final || (Py.contains completion_phrase text && negb (truthy call)) in
  match make_response p text call finished with
  | inr r => r
  | inl e => error_response e
  end.

(** The messages of one request. *)
Definition build_messages (p : Platform) (self : LLMClient)
  (user_task : str) (context : list Message) (is_final : bool)
  : list Message :=
  let system_message :=
    match tools self with
    | _ :: _ =>
        if negb is_final
        then SYSTEM_PROMPT p ++ nl ++ nl ++ _format_tools_for_prompt self
             ++ nl ++ nl ++ TOOL_CALL_FORMAT p
        else SYSTEM_PROMPT p
    | [] => SYSTEM_PROMPT p
    end in
  [message (py "system") system_message;
   message (py "user") (py "任务：" ++ user_task)]
  ++ context
  ++ (if is_final
      then [message (py "user")
              (py "请根据以上信息，整理最终结果，确保格式清晰、内容完整。")]
      else []).

Definition generate_response (p : Platform) (self : LLMClient)
  (user_task : str) (context : list Message) (is_final : bool)
  : IO LLMResponse :=
  fun w =>
    let messages := build_messages p self user_task context is_final in
    (match llm w messages with
     | ApiContent reply => parse_reply p reply is_final
     | ApiError e => error_response e
     end,
     with_llm_log w (llm_log w ++ [messages])).

End client.

(* ================================================================== *)
(** * [agent/main_agent.py] *)
(* ================================================================== *)

Module agent.

Record AgentState : Type := {
  task : str;
  context : list Message;
  current_url : option str;
  is_human_in_control : bool;
  last_action : option str;
  last_result : option str
}.

(** [AgentState(task=task)], with [__post_init__]. *)
Definition new_state (task_ : str) : AgentState :=
  {| task := task_; context := []; current_url := Some [];
     is_human_in_control := false; last_action := None;
     last_result := None |}.

(** [self.state.context.append(m)]. *)
Definition append (st : AgentState) (m : Message) : AgentState :=
  {| task := task st; context := context st ++ [m];
     current_url := current_url st;
     is_human_in_control := is_human_in_control st;
     last_action := last_action st; last_result := last_result st |}.

Definition set_is_human_in_control (st : AgentState) (b : bool)
  : AgentState :=
  {| task := task st; context := context st;
     current_url := current_url st; is_human_in_control := b;
     last_action := last_action st; last_result := last_result st |}.

(** ** [ToolExecutor] *)

(** What awaiting the call of a registered callable comes to: the
    object the awaited call returns; the [str] of an exception that is
    an instance of [Exception], the ones [except Exception] catches; or
    the [str] of one that is not ([asyncio.CancelledError],
    [KeyboardInterrupt], [SystemExit]), which that handler lets
    through. *)
Inductive ToolOutcome : Type :=
| ToolReturn (result : value)
| ToolRaise (e : str)
| ToolInterrupt (e : str).

(** A plain function registered as a tool, as the functions of
    [browser_tools] are: [execute] calls it, with its effects, then
    awaits the dictionary it returned, which raises [TypeError]. *)
Definition plain (p : Platform) (f : IO dict) : IO ToolOutcome :=
  bind f (fun d => ret (ToolRaise (await_error p (PyDict d)))).

(** An entry of [self.tools].  [func] is given the object that [execute]
    unpacks into keyword arguments; an object that does not fit the
    function's parameters is among the exceptions [func] may raise. *)
Record Tool : Type := {
  func : value -> IO ToolOutcome;
  description : str;
  parameters : list (str * str)
}.

Record ToolExecutor : Type := { tools : list (str * Tool) }.

Fixpoint lookup (k : str) (ts : list (str * Tool)) : option Tool :=
  match ts with
  | [] => None
  | (k', t) :: ts' => if Py.eqb k k' then Some t else lookup k ts'
  end.

Fixpoint store (k : str) (t : Tool) (ts : list (str * Tool))
  : list (str * Tool) :=
  match ts with
  | [] => [(k, t)]
  | (k', t') :: ts' =>
      if Py.eqb k k' then (k, t) :: ts' else (k', t') :: store k t ts'
  end.

Definition register_tool (self : ToolExecutor) (name : str)
  (f : value -> IO ToolOutcome) (description_ : str)
  (parameters_ : list (str * str)) : ToolExecutor :=
  {| tools := store name
       {| func := f; description := description_;
          parameters := parameters_ |}
       (tools self) |}.

Definition get_tool_definitions (self : ToolExecutor)
  : list client.ToolDefinition :=
  map (fun '(name, tool) =>
         {| client.name := name;
            client.description := description tool;
            client.parameters := parameters tool |})
      (tools self).

(** The exceptions that leave [execute] or [run]: the [TypeError] of
    the test [tool_name not in self.tools], which hashes the name, on a
    list or a dictionary; the [TypeError] of [await v] on an object that
    cannot be awaited; an exception of a tool that [except Exception]
    does not catch. *)
Inductive Fault : Type :=
| Unhashable (tool_name : value)
| NotAwaitable (v : value)
| Interrupted (e : str).

Definition truncation_marker : str := py "..." ++ nl ++ py "[结果已截断]".

(** The truncation of a long result: [result[:2000]] and the marker for
    a string of more than 2000 characters, the object itself
    otherwise. *)
Definition shown_result (result : value) : value :=
  match result with
  | PyStr s =>
      if (Py.len s >? 2000)%Z
      then PyStr (Py.slice_to s 2000 ++ truncation_marker)
      else result
  | _ => result
  end.

(** [self.tools] has strings for keys: no other object equals one. *)
Definition registered (self : ToolExecutor) (tool_name : value)
  : option Tool :=
  match tool_name with
  | PyStr s => lookup s (tools self)
  | _ => None
  end.

(** [execute].  The name and the arguments are objects [json.loads]
    decoded, whose [str] returns; the [str] of a result may raise, and
    the f-string that shows the result is inside the [try]. *)
Definition execute (p : Platform) (self : ToolExecutor)
  (tool_name parameters_ : value) : IO (Fault + str) :=
  if negb (hashable tool_name) then ret (inl (Unhashable tool_name))
  else
    match registered self tool_name with
    | None =>
        ret (inr (py "错误：未知工具 '" ++ py_str p tool_name ++ py "'"))
    | Some tool =>
        outcome <- func tool parameters_ ;;
        match outcome with
        | ToolReturn result =>
            match str_error p (shown_result result) with
            | None =>
                ret (inr (py "工具 '" ++ py_str p tool_name
                          ++ py "' 执行成功: "
                          ++ py_str p (shown_result result)))
            | Some e =>
                (* the f-string of the [return] raises: except Exception *)
                ret (inr (py "工具 '" ++ py_str p tool_name
                          ++ py "' 执行失败: " ++ e))
            end
        | ToolRaise e =>
            (* except Exception as e *)
            ret (inr (py "工具 '" ++ py_str p tool_name
                      ++ py "' 执行失败: " ++ e))
        | ToolInterrupt e => ret (inl (Interrupted e))
        end
    end.

(** ** [MainAgent] *)

Record MainAgent : Type := {
  state : AgentState;
  llm_client : client.LLMClient;
  tool_executor : ToolExecutor;
  max_iterations : nat
}.

(** [MainAgent(task)]. *)
Definition new_agent (task_ : str) : MainAgent :=
  {| state := new_state task_;
     llm_client := {| client.tools := [] |};
     tool_executor := {| tools := [] |};
     max_iterations := 50 |}.

(** [_get_current_observation] awaits what
    [self.browser.get_current_url()] returns.  That method is a plain
    function of [chrome_driver.py]: it is called, the session is asked
    for the URL, and awaiting the string (or [None]) it returned raises
    [TypeError].  The statements after it (the title, for which
    [ChromeDriver] has no method, the assignment of [current_url], the
    summary) are not reached, and nothing in [run] catches the
    exception. *)
Definition _get_current_observation (st : AgentState)
  : IO (Fault + str * AgentState) :=
  url <- ChromeDriver.get_current_url ;;
  ret (inl (NotAwaitable (of_opt url))).

(** [c or d] on an optional string. *)
Definition content_or (c : option str) (d : str) : str :=
  match c with
  | Some s => Py.or_else s d
  | None => d
  end.

(** [d.get(k, default)]. *)
Definition get_or (d : dict) (k : str) (default : value) : value :=
  match dict_get k d with
  | Some v => v
  | None => default
  end.

Definition handoff_name : str := py "request_human_intervention".

Definition completed_notice : str := py "任务已完成，但未返回具体结果。".

Definition exhausted_notice (self : MainAgent) : str :=
  py "已达到最大迭代次数 ("
  ++ Py.str_of_int (Z.of_nat (max_iterations self))
  ++ py ")，任务可能未完成。".

Definition reprompt : Message :=
  message (py "user") (py "请提供具体的工具调用指令来继续完成任务。").

(** The [return] statement that ended a run. *)
Inductive Exit : Type :=
| Completed   (* inside the loop, after a finished reply *)
| Exhausted.  (* after the loop *)

Inductive Outcome : Type :=
| Returned (by_ : Exit) (result : str)
| Raised (f : Fault).

(** What one pass through the body of the [for] loop leads to. *)
Inductive Step : Type :=
| Next (st : AgentState)
| Stop (st : AgentState) (o : Outcome).

(** The request for the final answer, and the text returned. *)
Definition final_answer (p : Platform) (self : MainAgent)
  (st : AgentState) (default : str) : IO str :=
  final_response <-
    client.generate_response p (llm_client self) (task st) (context st)
      true ;;
  ret (content_or (client.content final_response) default).

(** The tool call of a reply ([if llm_response.tool_call:] and its
    [else]). *)
Definition dispatch (p : Platform) (self : MainAgent) (st : AgentState)
  (tool_call : option dict) : IO Step :=
  match tool_call with
  | Some ((_ :: _) as call) =>
      let tool_name := get_or call (py "name") PyNone in
      let parameters_ := get_or call (py "parameters") (PyDict []) in
      r <- execute p (tool_executor self) tool_name parameters_ ;;
      match r with
      | inl f => ret (Stop st (Raised f))
      | inr tool_result =>
          let st1 :=
            append st
              (message (py "system") (py "工具调用结果: " ++ tool_result)) in
          ret (Next
                 match tool_name with
                 | PyStr s =>
                     if Py.eqb s handoff_name
                     then set_is_human_in_control st1 false
                     else st1
                 | _ => st1
                 end)
      end
  | _ => ret (Next (append st reprompt))
  end.

(** [if llm_response.content:] and the entry it appends. *)
Definition record_reply (st : AgentState) (r : client.LLMResponse)
  : AgentState :=
  match client.content r with
  | Some ((_ :: _) as text) => append st (message (py "assistant") text)
  | _ => st
  end.

(** The loop body from the reply on (lines 213 to 253): the reply is
    recorded, a finished reply ends the run with the final answer, any
    other is looked at for a tool call. *)
Definition handle_response (p : Platform) (self : MainAgent)
  (st : AgentState) (llm_response : client.LLMResponse) : IO Step :=
  let st2 := record_reply st llm_response in
  if client.is_finished llm_response then
    result <- final_answer p self st2 completed_notice ;;
    ret (Stop st2 (Returned Completed result))
  else dispatch p self st2 (client.tool_call llm_response).

(** The body of the [for] loop of [run].  The exception of the
    observation leaves [run] with the state as it was. *)
Definition iteration (p : Platform) (self : MainAgent) (st : AgentState)
  : IO Step :=
  o <- _get_current_observation st ;;
  match o with
  | inl f => ret (Stop st (Raised f))
  | inr (observation, st0) =>
      let st1 :=
        append st0 (message (py "system") (py "观察: " ++ observation)) in
      llm_response <-
        client.generate_response p (llm_client self) (task st1)
          (context st1) false ;;
      handle_response p self st1 llm_response
  end.

(** [n] passes of the loop, then the statements after it. *)
Fixpoint loop (p : Platform) (self : MainAgent) (n : nat) (st : AgentState)
  : IO (Outcome * AgentState) :=
  match n with
  | O =>
      result <- final_answer p self st (exhausted_notice self) ;;
      ret (Returned Exhausted result, st)
  | S n' =>
      s <- iteration p self st ;;
      match s with
      | Next st' => loop p self n' st'
      | Stop st' o => ret (o, st')
      end
  end.

Definition run (p : Platform) (self : MainAgent)
  : IO (Outcome * AgentState) :=
  loop p self (max_iterations self) (state self).

End agent.

(* ================================================================== *)
(** * Data for examples *)
(* ================================================================== *)

Module sample.

Import agent.

Definition ascii_alnum (c : N) : bool :=
  ((48 <=? c) && (c <=? 57) || (65 <=? c) && (c <=? 90)
   || (97 <=? c) && (c <=? 122))%N.

Definition strict_dict (v : value) : dict + str :=
  match v with
  | PyDict d => inl d
  | _ => inr (py "tool_call: value is not a valid dict")
  end.

(** [type(v).__name__]. *)
Definition type_name (v : value) : str :=
  match v with
  | PyNone => py "NoneType"
  | PyBool _ => py "bool"
  | PyInt _ => py "int"
  | PyFloat _ => py "float"
  | PyStr _ => py "str"
  | PyList _ => py "list"
  | PyDict _ => py "dict"
  end.

(** The least [int] of 4301 digits. *)
Definition digit_bound : Z := Eval vm_compute in (10 ^ 4300)%Z.

(** An [int] of more than 4300 digits, or an object that holds one. *)
Fixpoint over_limit (v : value) : bool :=
  match v with
  | PyInt z => (digit_bound <=? Z.abs z)%Z
  | PyList l => existsb over_limit l
  | PyDict d => existsb (fun kv => over_limit (snd kv)) d
  | _ => false
  end.

Definition digit_limit (v : value) : option str :=
  match v with
  | PyStr _ => None
  | _ =>
      if over_limit v
      then Some (py "Exceeds the limit (4300 digits) for integer string conversion; use sys.set_int_max_str_digits() to increase the limit")
      else None
  end.

(** A platform to run the definitions on: POSIX paths, ASCII file
    names, a validator that accepts dictionaries only, the messages and
    the limit on digits of CPython 3.11. *)
Definition platform : Platform :=
  {| SYSTEM_PROMPT := py "SYSTEM";
     TOOL_CALL_FORMAT := py "FORMAT";
     DATA_DIR := py "data";
     path_join := fun a b => a ++ py "/" ++ b;
     isalnum := ascii_alnum;
     repr_other := fun _ => py "<object>";
     dict_validator := strict_dict;
     dict_validator_dict := fun d => eq_refl;
     bad_call := fun f _ => f ++ py "() got unexpected arguments";
     await_error :=
       fun v => py "object " ++ type_name v
                ++ py " can't be used in 'await' expression";
     str_error := digit_limit;
     str_error_str := fun s => eq_refl |}.

(** A session that answers every request, at one page. *)
Definition page : Reply :=
  {| reply_text := py "https://example.com/login"; reply_flag := true |}.

(** A world whose backend is [backend] and whose operator types
    [lines]. *)
Definition world (backend : list Message -> ApiOutcome)
  (lines : list str) : World :=
  {| session_log := []; session := fun _ => Some page;
     clock := fun _ => py "20240101_000000";
     makedirs_error := fun _ => None;
     stdin := lines; stdout := [];
     llm := backend; llm_log := [] |}.

(** A backend that answers [final] to the request for the final answer
    (the one that ends with a user message) and [step] to the others. *)
Definition backend (step final : str) (messages : list Message)
  : ApiOutcome :=
  match rev messages with
  | m :: _ =>
      if Py.eqb (msg_role m) (py "user")
         && Py.startswith (py "请根据以上信息") (msg_content m)
      then ApiContent final
      else ApiContent step
  | [] => ApiContent step
  end.

(** A capability that returns [result], one that raises [e], and one
    that is cancelled while it is awaited. *)
Definition returning (result : value) : Tool :=
  {| func := fun _ => ret (ToolReturn result);
     description := py "returns a fixed result"; parameters := [] |}.

Definition raising (e : str) : Tool :=
  {| func := fun _ => ret (ToolRaise e);
     description := py "always fails"; parameters := [] |}.

Definition cancelled : Tool :=
  {| func := fun _ => ret (ToolInterrupt []);
     description := py "is cancelled"; parameters := [] |}.

(** The handoff capability as [_register_tools] registers it: the
    plain function [request_human_intervention], which takes the
    keyword argument [reason] and only shows it in f-strings. *)
Definition handoff (p : Platform) (m : Modules) : Tool :=
  {| func := fun kwargs =>
       match kwargs with
       | PyDict [(k, reason)] =>
           if Py.eqb k (py "reason") then
             plain p
               (human_handoff.request_human_intervention p m
                  (py_str p reason))
           else ret (ToolRaise (bad_call p handoff_name kwargs))
       | _ => ret (ToolRaise (bad_call p handoff_name kwargs))
       end;
     description :=
       py "请求人工介入处理，当遇到无法自动处理的情况（如登录、验证码）时使用";
     parameters :=
       [(py "reason", py "字符串，说明需要人工介入的原因和需要完成的操作")] |}.

(** Every module holds the browser, as after the four
    [set_browser_instance] calls. *)
Definition modules : Modules :=
  human_handoff.set_browser_instance chrome_driver
    (screenshot.set_browser_instance chrome_driver
       (interaction.set_browser_instance chrome_driver
          (navigation.set_browser_instance chrome_driver
             modules_at_import))).

(** An agent for [task_] whose executor holds [ts] and which makes at
    most [n] passes. *)
Definition agent_with (task_ : str) (ts : list (str * Tool)) (n : nat)
  : MainAgent :=
  let executor :=
    fold_left
      (fun ex '(name, t) =>
         register_tool ex name (func t) (description t) (parameters t))
      ts {| tools := [] |} in
  {| state := new_state task_;
     llm_client :=
       client.register_tools {| client.tools := [] |}
         (get_tool_definitions executor);
     tool_executor := executor;
     max_iterations := n |}.

Definition handoff_request : str :=
  Py.lit_dq "<tool_call>{'name': 'request_human_intervention', 'parameters': {'reason': 'login required'}}</tool_call>".

(** The invocation that reply decodes to. *)
Definition handoff_call : dict :=
  [(py "name", PyStr handoff_name);
   (py "parameters", PyDict [(py "reason", PyStr (py "login required"))])].

End sample.

(* ================================================================== *)
(** * Notions the statements use *)
(* ================================================================== *)

Module reply.

Import client.

(** The text [parse_reply] hands to [json.loads]: what lies between the
    end of the first open marker and the first close marker. *)
Definition delimited_block (reply : str) : str :=
  Py.strip
    (Py.slice reply (Py.find open_marker reply + Py.len open_marker)
       (Py.find close_marker reply)).

(** The text [parse_reply] keeps when the block is decoded: the reply
    without the block and its markers. *)
Definition remaining_text (reply : str) : str :=
  Py.strip
    (Py.slice_to reply
       (Py.find open_marker reply + Py.len open_marker
        - Py.len open_marker)
     ++ Py.slice_from reply
          (Py.find close_marker reply + Py.len close_marker)).

(** A reply with a block: [before], the open marker, [body], the close
    marker, [after]. *)
Definition with_block (before body after : str) : str :=
  before ++ open_marker ++ body ++ close_marker ++ after.

(** An invocation object that names a tool. *)
Definition names_a_tool (d : dict) : bool := dict_mem (py "name") d.

End reply.

Module orchestrator.

Import agent.

(** The state a pass of the loop leaves. *)
Definition state_of (s : Step) : AgentState :=
  match s with
  | Next st => st
  | Stop st _ => st
  end.

(** The states a run of [n] passes goes through: the state it starts
    from, then the state each pass leaves. *)
Fixpoint states (p : Platform) (self : MainAgent) (n : nat)
  (st : AgentState) (w : World) : list AgentState :=
  st :: match n with
        | O => []
        | S n' =>
            match iteration p self st w with
            | (Next st', w') => states p self n' st' w'
            | (Stop st' _, _) => [st']
            end
        end.

(** [new] is [old] with entries appended. *)
Definition extends (old new : list Message) : Prop :=
  exists added, new = old ++ added.


(** The request [run] makes of the backend with the context [st]. *)
Definition request (p : Platform) (self : MainAgent) (st : AgentState)
  (is_final : bool) : list Message :=
  client.build_messages p (llm_client self) (task st) (context st) is_final.

End orchestrator.

Module guard.

(** The failure a capability reports when its module has no browser:
    [success] is false and the message says the browser is not
    initialized. *)
Definition not_initialized_failure (d : dict) : Prop :=
  dict_get (py "success") d = Some (PyBool false)
  /\ dict_get (py "message") d = Some (PyStr not_initialized).

(** A call returned such a failure and left the world (session,
    console, backend) as it was. *)
Definition refused (call : IO dict) (w : World) : Prop :=
  not_initialized_failure (fst (call w)) /\ snd (call w) = w.

End guard.

(* ================================================================== *)
(** * Replies, agents and worlds for examples *)
(* ================================================================== *)

Module examples.

Import agent.

Definition long_text : str := repeat 97%N 2001.

Definition echo_executor : ToolExecutor :=
  {| tools := [(py "echo", sample.returning (PyStr long_text))] |}.

(** An agent whose one capability is [echo], and a call of it. *)
Definition echo_agent : MainAgent :=
  sample.agent_with (py "copy the page")
    [(py "echo", sample.returning (PyStr long_text))] 50.

Definition echo_call : dict := [(py "name", PyStr (py "echo"))].

Definition broken_executor (e : str) : ToolExecutor :=
  {| tools := [(py "broken", sample.raising e)] |}.

Definition cancelled_executor : ToolExecutor :=
  {| tools := [(py "slow", sample.cancelled)] |}.

(** An [int] of 4301 digits, and a capability that returns it. *)
Definition long_int : Z := sample.digit_bound.

Definition count_executor : ToolExecutor :=
  {| tools := [(py "count", sample.returning (PyInt long_int))] |}.

(** A world with a silent backend and no operator. *)
Definition idle : World :=
  sample.world (fun _ => ApiContent []) [].

End examples.

Module replies.

Import client reply.

Definition go_to_url_call : str :=
  Py.lit_dq "{'name': 'go_to_url', 'parameters': {'url': 'https://example.com'}}".

Definition go_back_call : str := Py.lit_dq "{'name': 'go_back'}".

Definition go_to_url_dict : dict :=
  [(py "name", PyStr (py "go_to_url"));
   (py "parameters", PyDict [(py "url", PyStr (py "https://example.com"))])].

(** A call and the completion phrase in one reply. *)
Definition call_and_phrase : str :=
  with_block (py "好的。") go_to_url_call (py " 任务已完成").

(** A block that is not JSON, then a well-formed one, then the
    completion phrase. *)
Definition broken_then_call : str :=
  with_block [] (py "oops")
    (with_block [] go_to_url_call (py " 任务已完成")).



(** Two well-formed blocks. *)
Definition two_calls : str :=
  with_block [] go_to_url_call (with_block [] go_back_call []).

(** A close marker, then the same two blocks. *)
Definition stray_close : str := close_marker ++ two_calls.

End replies.

Module runs.

Import agent.

(** The agent [MainAgent(task)] with the handoff capability
    registered: 50 passes at most. *)
Definition handoff_agent : MainAgent :=
  sample.agent_with (py "log in")
    [(handoff_name, sample.handoff sample.platform sample.modules)] 50.

(** The planner asks for the handoff; the operator answers [abort]. *)
Definition abort_world : World :=
  sample.world (sample.backend sample.handoff_request (py "report"))
    [py "abort"].

(** The same planner; the operator asks for help, then resumes. *)
Definition resume_world : World :=
  sample.world (sample.backend sample.handoff_request (py "report"))
    [py "help"; py "done"].

(** An agent without capabilities that makes [n] passes. *)
Definition plain_agent (n : nat) : MainAgent :=
  sample.agent_with (py "check the title") [] n.

(** A planner that writes prose and never says it is done. *)
Definition prose_world : World :=
  sample.world (sample.backend (py "让我想想") (py "报告")) [].

(** A planner that says at once that the task is completed. *)
Definition done_world : World :=
  sample.world (sample.backend (py "任务已完成") (py "报告")) [].



End runs.

(* ================================================================== *)
(** * [browser_tools/extraction.py]: [get_current_url] *)
(* ================================================================== *)

Module extraction.

(** The capability reads the module-level [browser] of
    [extraction.py], which is the argument [browser] here.  The handler
    of its [try] is never entered: the driver method contains its own
    failures. *)
Definition get_current_url (browser : option Browser) : IO dict :=
  match browser with
  | None =>
      ret [(py "success", PyBool false);
           (py "message", PyStr not_initialized);
           (py "url", PyNone)]
  | Some _ =>
      current_url <- ChromeDriver.get_current_url ;;
      ret [(py "success", PyBool true);
           (py "url", of_opt current_url);
           (py "message", PyStr (py "已获取当前页面URL"))]
  end.

End extraction.

(* ================================================================== *)
(** * Further notions the statements use *)
(* ================================================================== *)

Module registry.

Import agent.

(** The keys of [self.tools], in the order of the dictionary. *)
Definition names (self : ToolExecutor) : list str := map fst (tools self).

(** One call of [register_tool] with the fields of [t]. *)
Definition register (self : ToolExecutor) (r : str * Tool) : ToolExecutor :=
  register_tool self (fst r) (func (snd r)) (description (snd r))
    (parameters (snd r)).

(** A new executor after the registrations [rs], made in that order. *)
Definition registrations (rs : list (str * Tool)) : ToolExecutor :=
  fold_left register rs {| tools := [] |}.

(** The last registration of [rs] made under [name]. *)
Definition last_registered (name : str) (rs : list (str * Tool))
  : option Tool :=
  option_map snd (find (fun r => Py.eqb name (fst r)) (rev rs)).

End registry.

Module listing.

Import client.

(** The text [_format_tools_for_prompt] starts with, the line it writes
    for one parameter, and the lines it writes for one tool. *)
Definition header : str := py "可用工具列表：" ++ nl.

Definition param_line (param : str * str) : str :=
  py "    " ++ fst param ++ py ": " ++ snd param ++ nl.

Definition tool_head (tool : ToolDefinition) : str :=
  py "- " ++ name tool ++ py ": " ++ description tool ++ nl.

Definition tool_block (tool : ToolDefinition) : str :=
  tool_head tool ++ py "  参数：" ++ nl
  ++ concat (map param_line (parameters tool)).

(** The system message of a request: the content of its first
    message. *)
Definition system_message (messages : list Message) : str :=
  match messages with
  | m :: _ => msg_content m
  | [] => []
  end.

End listing.

Module effects.

(** The requests that only read the session: the URL, a screenshot of
    the page. *)
Definition observing (c : SeleniumCall) : bool :=
  match c with
  | SCurrentUrl | SSaveScreenshot _ => true
  | _ => false
  end.

(** A computation whose session requests, from the world [w], are
    [added], and which leaves the backend and the requests sent to it
    as they were. *)
Definition adds {A : Type} (c : IO A) (w : World)
  (added : list SeleniumCall) : Prop :=
  session_log (snd (c w)) = session_log w ++ added
  /\ session (snd (c w)) = session w
  /\ llm (snd (c w)) = llm w
  /\ llm_log (snd (c w)) = llm_log w.

(** A computation that only looks at the page and does not talk to the
    backend. *)
Definition looks_only {A : Type} (c : IO A) : Prop :=
  forall w, exists added,
    adds c w added /\ forallb observing added = true.

(** From the world [w], the capability [c] makes the requests [before],
    then the request [action], then reads the URL, and no other
    request; its result is successful exactly when the session answered
    [action], and its [current_url] is what the session answered to
    the last read. *)
Definition acts_once (c : IO dict) (w : World)
  (before : list SeleniumCall) (action : SeleniumCall) : Prop :=
  let h := session_log w ++ before ++ [action] in
  session_log (snd (c w)) = h ++ [SCurrentUrl]
  /\ dict_get (py "success") (fst (c w))
     = Some (PyBool (ChromeDriver.succeeded (session w h)))
  /\ dict_get (py "current_url") (fst (c w))
     = Some (of_opt (option_map reply_text (session w (h ++ [SCurrentUrl])))).

End effects.

Module operator.

(** The line is [done] or [abort], in any case and with any blanks
    around it. *)
Definition decides (line : str) : bool :=
  human_handoff.is_decision (Py.strip line).

(** The decision the operator's lines come to: the first line that
    decides, stripped. *)
Definition decision (lines : list str) : option str :=
  option_map Py.strip (find decides lines).

(** The lines left after the first deciding one. *)
Fixpoint unread (lines : list str) : list str :=
  match lines with
  | [] => []
  | line :: rest => if decides line then rest else unread rest
  end.

End operator.

Module failures.

(** A backend that fails at every request. *)
Definition down (e : str) : list Message -> ApiOutcome :=
  fun _ => ApiError e.

Definition down_world : World :=
  sample.world (down (py "connection refused")) [].

(** A reply whose block names a tool by a list. *)
Definition list_name_reply : str :=
  Py.lit_dq "<tool_call>{'name': ['go_back']}</tool_call>".

Definition list_name_world : World :=
  sample.world (sample.backend list_name_reply (py "报告")) [].

(** A reply whose block is an invocation without a name. *)
Definition nameless_call : dict :=
  [(py "parameters", PyDict [(py "url", PyStr (py "https://example.com"))])].

End failures.

Module finals.

(** The backend answers the request for the final answer with a report
    that ends in a block. *)
Definition report_with_block : str :=
  reply.with_block (py "报告 ") replies.go_back_call [].

Definition block_world : World :=
  sample.world (sample.backend (py "任务已完成") report_with_block) [].

(** A reply that denies completion in the words of the completion
    phrase. *)
Definition denial : str := py "尚不能说任务已完成，还需要登录。".

Definition denial_world : World :=
  sample.world (sample.backend denial (py "报告")) [].

(** A reply that is an empty invocation and nothing else. *)
Definition empty_call_reply : str := reply.with_block [] (py "{}") [].

End finals.

Module console.

(** A computation that neither reads the operator's lines nor
    prints. *)
Definition silent {A : Type} (c : IO A) : Prop :=
  forall w, stdin (snd (c w)) = stdin w /\ stdout (snd (c w)) = stdout w.

(** From a world whose unread lines are [i], the computation [c] ends
    with a result and unread lines that satisfy [Q]. *)
Definition yields_from {A : Type} (i : list str) (c : IO A)
  (Q : A -> list str -> Prop) : Prop :=
  forall w, stdin w = i -> Q (fst (c w)) (stdin (snd (c w))).

End console.

Module results.

(** The directory the screenshots go to. *)
Definition screenshot_dir (p : Platform) : str :=
  path_join p (DATA_DIR p) (py "screenshots").

End results.

(* ================================================================== *)
(** * Properties of the string operations *)
(* ================================================================== *)

Section Strings.

Local Open Scope Z_scope.

Lemma eqb_eq (a b : str) : Py.eqb a b = true <-> a = b.
Proof.
  revert b; induction a as [|x a IH]; intros [|y b]; simpl;
    try (split; [discriminate | congruence]); try tauto.
  rewrite andb_true_iff, N.eqb_eq, IH.
  split; [intros [-> ->]; reflexivity | intros E; inversion E; auto].
Qed.

Lemma eqb_refl (a : str) : Py.eqb a a = true.
Proof. apply eqb_eq; reflexivity. Qed.

Lemma len_app (a b : str) : Py.len (a ++ b) = Py.len a + Py.len b.
Proof. unfold Py.len; rewrite length_app; lia. Qed.

Lemma len_nonneg (a : str) : 0 <= Py.len a.
Proof. unfold Py.len; lia. Qed.

Lemma startswith_app (sub r : str) : Py.startswith sub (sub ++ r) = true.
Proof.
  induction sub as [|x sub IH]; simpl; [reflexivity|].
  rewrite N.eqb_refl; exact IH.
Qed.

(** An occurrence of [sub] at the head of [y ++ z] lies within [y], or
    runs over its end into [z]. *)
Lemma startswith_over (sub y z : str) :
  Py.startswith sub (y ++ z) = true ->
  Py.startswith sub y = true
  \/ exists u, sub = y ++ u /\ u <> [] /\ Py.startswith u z = true.
Proof.
  revert y; induction sub as [|x sub IH]; intros y H.
  - left; reflexivity.
  - destruct y as [|a y].
    + right; exists (x :: sub); repeat split; [discriminate | exact H].
    + simpl in H; apply andb_true_iff in H; destruct H as [Hx H].
      apply N.eqb_eq in Hx; subst a.
      destruct (IH _ H) as [Hy | (u & -> & Hu & Hz)].
      * left; simpl; rewrite N.eqb_refl; exact Hy.
      * right; exists u; repeat split; assumption.
Qed.

Lemma find_from_shift (sub s : str) (i : nat) :
  Py.find_from sub s i
  = option_map (fun k => (i + k)%nat) (Py.find_from sub s 0).
Proof.
  revert i; induction s as [|a s IH]; intros i; simpl.
  - destruct (Py.startswith sub []); simpl; [f_equal; lia | reflexivity].
  - destruct (Py.startswith sub (a :: s)); simpl; [f_equal; lia|].
    rewrite (IH (S i)), (IH 1%nat).
    destruct (Py.find_from sub s 0); simpl; [f_equal; lia | reflexivity].
Qed.

Lemma contains_cons (sub : str) (a : N) (s : str) :
  Py.contains sub (a :: s) = false ->
  Py.startswith sub (a :: s) = false /\ Py.contains sub s = false.
Proof.
  unfold Py.contains; simpl.
  destruct (Py.startswith sub (a :: s)); [discriminate|].
  rewrite find_from_shift.
  destruct (Py.find_from sub s 0); simpl; [discriminate | auto].
Qed.

(** A marker whose first character occurs nowhere else in it is found,
    in [x ++ marker ++ r], right after [x] when [x] does not contain
    it: no occurrence can start in [x] and run into the marker. *)
Lemma find_after (c : N) (t x r : str) :
  ~ In c t ->
  Py.contains (c :: t) x = false ->
  Py.find_from (c :: t) (x ++ (c :: t) ++ r) 0 = Some (List.length x).
Proof.
  intros Hc; induction x as [|a x IH]; intros Hx.
  - change ([] ++ (c :: t) ++ r) with ((c :: t) ++ r).
    unfold Py.find_from at 1.
    destruct ((c :: t) ++ r) eqn:E; [discriminate|].
    rewrite <- E, startswith_app; reflexivity.
  - destruct (contains_cons _ _ _ Hx) as [Hs Hx'].
    change ((a :: x) ++ (c :: t) ++ r) with (a :: (x ++ (c :: t) ++ r)).
    cbn [Py.find_from].
    destruct (Py.startswith (c :: t) (a :: x ++ (c :: t) ++ r)) eqn:E.
    + exfalso.
      change (a :: x ++ (c :: t) ++ r) with ((a :: x) ++ (c :: t) ++ r) in E.
      destruct (startswith_over _ _ _ E) as [H | (u & Hu & Hne & Hz)].
      * discriminate (eq_trans (eq_sym H) Hs).
      * destruct u as [|u0 u]; [congruence|].
        simpl in Hz; apply andb_true_iff in Hz; destruct Hz as [Hz _].
        apply N.eqb_eq in Hz; subst u0.
        simpl in Hu; inversion Hu; subst.
        apply Hc, in_or_app; right; left; reflexivity.
    + rewrite find_from_shift, (IH Hx'); simpl; reflexivity.
Qed.

Lemma find_marker (c : N) (t x r : str) :
  ~ In c t ->
  Py.contains (c :: t) x = false ->
  Py.find (c :: t) (x ++ (c :: t) ++ r) = Py.len x
  /\ Py.contains (c :: t) (x ++ (c :: t) ++ r) = true.
Proof.
  intros Hc Hx; unfold Py.find, Py.contains.
  rewrite (find_after c t x r Hc Hx); split; reflexivity.
Qed.

Lemma clamp_in (n i : Z) : 0 <= i <= n -> Py.clamp n i = i.
Proof.
  intros H; unfold Py.clamp.
  destruct (Z.ltb_spec i 0); lia.
Qed.

Lemma slice_middle (a b c : str) :
  Py.slice (a ++ b ++ c) (Py.len a) (Py.len a + Py.len b) = b.
Proof.
  unfold Py.slice.
  pose proof (len_nonneg a); pose proof (len_nonneg b);
    pose proof (len_nonneg c).
  rewrite !clamp_in by (rewrite !len_app; lia).
  replace (Py.len a + Py.len b - Py.len a) with (Py.len b) by lia.
  unfold Py.len; rewrite !Nat2Z.id.
  rewrite skipn_app, skipn_all, Nat.sub_diag; simpl.
  rewrite firstn_app, firstn_all, Nat.sub_diag; simpl.
  apply app_nil_r.
Qed.

Lemma slice_to_app (a b : str) : Py.slice_to (a ++ b) (Py.len a) = a.
Proof.
  pose proof (slice_middle [] a b) as H; simpl in H.
  unfold Py.slice_to; exact H.
Qed.

Lemma slice_from_app (a b : str) : Py.slice_from (a ++ b) (Py.len a) = b.
Proof.
  pose proof (slice_middle a b []) as H.
  rewrite app_nil_r in H.
  unfold Py.slice_from; rewrite len_app; exact H.
Qed.

Lemma slice_to_long (s : str) (n : nat) :
  (n <= List.length s)%nat ->
  Py.slice_to s (Z.of_nat n) = firstn n s.
Proof.
  intros H; unfold Py.slice_to, Py.slice.
  rewrite !clamp_in by (unfold Py.len; lia).
  rewrite Z.sub_0_r, Nat2Z.id; reflexivity.
Qed.

End Strings.

(* ================================================================== *)
(** * The decoder and its fuel *)
(* ================================================================== *)

Section Decoder.

Import Json.

Lemma skip_ws_length (s : str) : List.length (skip_ws s) <= List.length s.
Proof.
  induction s as [|c s IH]; cbn; [lia|].
  destruct (is_ws c); cbn; lia.
Qed.

Lemma after_length (c : N) (s r : str) :
  after c s = Some r -> List.length s = S (List.length r).
Proof.
  destruct s as [|x s]; cbn; [discriminate|].
  destruct (x =? c)%N; [|discriminate].
  intros H; inversion H; reflexivity.
Qed.

Lemma span_digits_length (s : str) :
  List.length (snd (span_digits s)) <= List.length s.
Proof.
  induction s as [|c s IH]; cbn; [lia|].
  destruct (is_digit c); cbn; [|lia].
  destruct (span_digits s); cbn in *; lia.
Qed.

Lemma scan_string_length (s acc k r : str) :
  scan_string s acc = Some (k, r) -> List.length r < List.length s.
Proof.
  revert acc.
  induction s as [s IH] using (induction_ltof1 _ (@List.length N)).
  unfold ltof in IH; intros acc.
  destruct s as [|c s]; cbn [scan_string]; [discriminate|].
  destruct (c =? 34)%N; [intros H; inversion H; subst; cbn; lia|].
  destruct (c <? 32)%N; [discriminate|].
  destruct (c =? 92)%N.
  - destruct s as [|e s1]; [discriminate|].
    destruct (e =? 117)%N.
    + destruct s1 as [|h1 [|h2 [|h3 [|h4 s2]]]]; try discriminate.
      destruct (hex4 h1 h2 h3 h4) as [u1|]; [|discriminate].
      destruct (is_high_surrogate u1).
      * destruct s2 as [|b [|u s3]];
          try (intros H; apply IH in H; cbn in *; lia).
        destruct ((b =? 92) && (u =? 117))%N.
        -- destruct s3 as [|g1 [|g2 [|g3 [|g4 s4]]]]; try discriminate.
           destruct (hex4 g1 g2 g3 g4) as [u2|]; [|discriminate].
           destruct (is_low_surrogate u2);
             intros H; apply IH in H; cbn in *; lia.
        -- intros H; apply IH in H; cbn in *; lia.
      * intros H; apply IH in H; cbn in *; lia.
    + destruct (simple_escape e); [|discriminate].
      intros H; apply IH in H; cbn in *; lia.
  - intros H; apply IH in H; cbn in *; lia.
Qed.

Lemma scan_number_length (s : str) (v : value) (r : str) :
  scan_number s = Some (v, r) -> List.length r < List.length s.
Proof.
  unfold scan_number.
  assert (Hm : List.length (snd (scan_minus s)) <= List.length s).
  { destruct s as [|c s]; cbn; [lia|]. destruct (c =? 45)%N; cbn; lia. }
  destruct (scan_minus s) as [neg s1]; cbn [snd] in Hm.
  assert (Hi : forall ip s2, scan_int_part s1 = Some (ip, s2) ->
                             List.length s2 < List.length s1).
  { intros ip s2; unfold scan_int_part.
    destruct s1 as [|c s1]; [discriminate|].
    destruct (c =? 48)%N; [intros H; inversion H; subst; cbn; lia|].
    destruct (is_digit c) eqn:D; [|discriminate].
    intros H; inversion H as [E]; clear H.
    cbn [span_digits] in E; rewrite D in E.
    pose proof (span_digits_length s1) as L.
    destruct (span_digits s1); cbn in *; inversion E; subst; lia. }
  destruct (scan_int_part s1) as [[ip s2]|]; [|discriminate].
  specialize (Hi ip s2 eq_refl).
  assert (Hf : List.length (snd (scan_frac s2)) <= List.length s2).
  { destruct s2 as [|c s2]; cbn; [lia|].
    destruct (c =? 46)%N; cbn; [|lia].
    pose proof (span_digits_length s2) as L.
    destruct (span_digits s2) as [[|d ds] r']; cbn in *; lia. }
  destruct (scan_frac s2) as [frac s3]; cbn [snd] in Hf.
  assert (He : List.length (snd (scan_exp s3)) <= List.length s3).
  { destruct s3 as [|c s3]; cbn; [lia|].
    destruct ((c =? 101) || (c =? 69))%N; cbn; [|lia].
    assert (Hs : List.length (snd (scan_sign s3)) <= List.length s3).
    { destruct s3 as [|x s3]; cbn; [lia|].
      destruct (x =? 45)%N; cbn; [lia|].
      destruct (x =? 43)%N; cbn; lia. }
    destruct (scan_sign s3) as [sg r1]; cbn [snd] in Hs.
    pose proof (span_digits_length r1) as L.
    destruct (span_digits r1) as [[|d ds] r2]; cbn in *; lia. }
  destruct (scan_exp s3) as [ex s4]; cbn [snd] in He.
  destruct frac, ex; intros H; inversion H; subst; lia.
Qed.

Lemma startswith_length (sub s : str) :
  Py.startswith sub s = true -> List.length sub <= List.length s.
Proof.
  revert s; induction sub as [|x sub IH]; intros [|y s]; cbn;
    try lia; try discriminate.
  intros H; apply andb_true_iff in H; destruct H as [_ H].
  apply IH in H; lia.
Qed.

Ltac literal_case s r :=
  match goal with
  | |- context [if Py.startswith ?lit s then _ else _] =>
      let E := fresh "E" in
      let H := fresh "H" in
      destruct (Py.startswith lit s) eqn:E;
      [ apply startswith_length in E;
        (let n := eval vm_compute in (List.length lit) in
         change (List.length lit) with n in E);
        intros H;
        match type of H with
        | Some (_, ?x) = _ =>
            assert (Hr : x = r) by congruence;
            rewrite <- Hr, length_skipn; lia
        end | ]
  end.

Lemma scan_constant_length (s : str) (v : value) (r : str) :
  scan_constant s = Some (v, r) -> List.length r < List.length s.
Proof.
  unfold scan_constant.
  literal_case s r.
  literal_case s r. literal_case s r.
  destruct (scan_number s) as [[v0 r0]|] eqn:E2.
  - intros H; inversion H; subst; exact (scan_number_length _ _ _ E2).
  - literal_case s r. literal_case s r. literal_case s r.
    intros H; discriminate H.
Qed.

Lemma parse_length (f : nat) :
  (forall s v r,
      parse_value f s = Some (v, r) -> List.length r < List.length s)
  /\ (forall s acc v r,
         parse_elements f s acc = Some (v, r) ->
         List.length r < List.length s)
  /\ (forall s acc v r,
         parse_members f s acc = Some (v, r) ->
         List.length r < List.length s).
Proof.
  induction f as [|f (IHv & IHe & IHm)];
    [repeat split; intros; discriminate|].
  repeat split.
  - intros s v r; cbn [parse_value].
    destruct (after quote s) as [r0|] eqn:A1.
    { apply after_length in A1.
      destruct (scan_string r0 []) as [[k r1]|] eqn:E; [|discriminate].
      apply scan_string_length in E.
      intros H; assert (r1 = r) by congruence; subst; lia. }
    destruct (after open_brace s) as [r0|] eqn:A2.
    { apply after_length in A2.
      pose proof (skip_ws_length r0) as L.
      destruct (after close_brace (skip_ws r0)) as [r1|] eqn:A3.
      - apply after_length in A3.
        intros H; assert (r1 = r) by congruence; subst; lia.
      - intros H; apply IHm in H; lia. }
    destruct (after open_bracket s) as [r0|] eqn:A3.
    { apply after_length in A3.
      pose proof (skip_ws_length r0) as L.
      destruct (after close_bracket (skip_ws r0)) as [r1|] eqn:A4.
      - apply after_length in A4.
        intros H; assert (r1 = r) by congruence; subst; lia.
      - intros H; apply IHe in H; lia. }
    apply scan_constant_length.
  - intros s acc v r; cbn [parse_elements].
    destruct (parse_value f s) as [[v0 r0]|] eqn:E; [|discriminate].
    apply IHv in E.
    pose proof (skip_ws_length r0) as L.
    destruct (after close_bracket (skip_ws r0)) as [r1|] eqn:A1.
    { apply after_length in A1.
      intros H; assert (r1 = r) by congruence; subst; lia. }
    destruct (after comma (skip_ws r0)) as [r1|] eqn:A2; [|discriminate].
    apply after_length in A2.
    pose proof (skip_ws_length r1) as L1.
    intros H; apply IHe in H; lia.
  - intros s acc v r; cbn [parse_members].
    destruct (after quote s) as [r0|] eqn:A1; [|discriminate].
    apply after_length in A1.
    destruct (scan_string r0 []) as [[k r1]|] eqn:E; [|discriminate].
    apply scan_string_length in E.
    pose proof (skip_ws_length r1) as L1.
    destruct (after colon (skip_ws r1)) as [r2|] eqn:A2; [|discriminate].
    apply after_length in A2.
    pose proof (skip_ws_length r2) as L2.
    destruct (parse_value f (skip_ws r2)) as [[v0 r3]|] eqn:E3;
      [|discriminate].
    apply IHv in E3.
    pose proof (skip_ws_length r3) as L3.
    cbv zeta.
    destruct (after close_brace (skip_ws r3)) as [r4|] eqn:A4.
    { apply after_length in A4.
      intros H; assert (r4 = r) by congruence; subst; lia. }
    destruct (after comma (skip_ws r3)) as [r4|] eqn:A5; [|discriminate].
    apply after_length in A5.
    pose proof (skip_ws_length r4) as L4.
    intros H; apply IHm in H; lia.
Qed.

(** Fuel beyond twice the length of the text changes nothing. *)
Lemma fuel_enough (n : nat) :
  forall s, List.length s <= n ->
  (forall f1 f2,
      2 * List.length s + 1 <= f1 -> 2 * List.length s + 1 <= f2 ->
      parse_value f1 s = parse_value f2 s)
  /\ (forall f1 f2 acc,
         2 * List.length s + 2 <= f1 -> 2 * List.length s + 2 <= f2 ->
         parse_elements f1 s acc = parse_elements f2 s acc)
  /\ (forall f1 f2 acc,
         2 * List.length s + 2 <= f1 -> 2 * List.length s + 2 <= f2 ->
         parse_members f1 s acc = parse_members f2 s acc).
Proof.
  induction n as [n IH] using lt_wf_ind.
  intros s Hs.
  assert (Hv : forall f1 f2,
             2 * List.length s + 1 <= f1 -> 2 * List.length s + 1 <= f2 ->
             parse_value f1 s = parse_value f2 s).
  { intros [|g1] [|g2] H1 H2; try lia.
    cbn [parse_value].
    destruct (after quote s) as [r0|] eqn:A1; [reflexivity|].
    destruct (after open_brace s) as [r0|] eqn:A2.
    { apply after_length in A2.
      pose proof (skip_ws_length r0) as L.
      destruct (after close_brace (skip_ws r0)); [reflexivity|].
      apply (IH (List.length (skip_ws r0))); lia. }
    destruct (after open_bracket s) as [r0|] eqn:A3; [|reflexivity].
    apply after_length in A3.
    pose proof (skip_ws_length r0) as L.
    destruct (after close_bracket (skip_ws r0)); [reflexivity|].
    apply (IH (List.length (skip_ws r0))); lia. }
  split; [exact Hv|]; split.
  - intros [|g1] [|g2] acc H1 H2; try lia.
    cbn [parse_elements].
    rewrite (Hv g1 g2) by lia.
    destruct (parse_value g2 s) as [[v0 r0]|] eqn:E; [|reflexivity].
    apply (proj1 (parse_length g2)) in E.
    pose proof (skip_ws_length r0) as L.
    destruct (after close_bracket (skip_ws r0)); [reflexivity|].
    destruct (after comma (skip_ws r0)) as [r1|] eqn:A2; [|reflexivity].
    apply after_length in A2.
    pose proof (skip_ws_length r1) as L1.
    apply (IH (List.length (skip_ws r1))); lia.
  - intros [|g1] [|g2] acc H1 H2; try lia.
    cbn [parse_members].
    destruct (after quote s) as [r0|] eqn:A1; [|reflexivity].
    apply after_length in A1.
    destruct (scan_string r0 []) as [[k r1]|] eqn:E; [|reflexivity].
    apply scan_string_length in E.
    pose proof (skip_ws_length r1) as L1.
    destruct (after colon (skip_ws r1)) as [r2|] eqn:A2; [|reflexivity].
    apply after_length in A2.
    pose proof (skip_ws_length r2) as L2.
    rewrite (proj1 (IH (List.length (skip_ws r2)) ltac:(lia)
                      (skip_ws r2) (le_n _)) g1 g2) by lia.
    destruct (parse_value g2 (skip_ws r2)) as [[v0 r3]|] eqn:E3;
      [|reflexivity].
    apply (proj1 (parse_length g2)) in E3.
    pose proof (skip_ws_length r3) as L3.
    cbv zeta.
    destruct (after close_brace (skip_ws r3)); [reflexivity|].
    destruct (after comma (skip_ws r3)) as [r4|] eqn:A5; [|reflexivity].
    apply after_length in A5.
    pose proof (skip_ws_length r4) as L4.
    apply (IH (List.length (skip_ws r4))); lia.
Qed.

(** [loads] gives the decoder all the fuel it can use: with more, the
    result is the same. *)
Lemma loads_fuel (s : str) (f : nat) :
  2 * List.length s + 2 <= f ->
  parse_value f (skip_ws s)
  = parse_value (2 * List.length s + 2) (skip_ws s).
Proof.
  intros H.
  pose proof (skip_ws_length s) as L.
  apply (fuel_enough (List.length (skip_ws s)) (skip_ws s) (le_n _)); lia.
Qed.

End Decoder.

(* ================================================================== *)
(** * The dispatcher: [ToolExecutor.execute] *)
(* ================================================================== *)

Section Dispatcher.

Import agent.

Variable p : Platform.

(** [execute] on a name that is a string, by cases. *)
Lemma execute_cases (self : ToolExecutor) (name : str) (kwargs : value)
  (w : World) :
  execute p self (PyStr name) kwargs w
  = match lookup name (tools self) with
    | None => (inr (py "错误：未知工具 '" ++ name ++ py "'"), w)
    | Some tool =>
        match func tool kwargs w with
        | (ToolReturn result, w') =>
            (match str_error p (shown_result result) with
             | None =>
                 inr (py "工具 '" ++ name ++ py "' 执行成功: "
                      ++ py_str p (shown_result result))
             | Some e => inr (py "工具 '" ++ name ++ py "' 执行失败: " ++ e)
             end, w')
        | (ToolRaise e, w') =>
            (inr (py "工具 '" ++ name ++ py "' 执行失败: " ++ e), w')
        | (ToolInterrupt e, w') => (inl (Interrupted e), w')
        end
    end.
Proof.
  unfold execute, registered, bind, ret; cbn [hashable negb py_str].
  destruct (lookup name (tools self)) as [tool|]; [|reflexivity].
  destruct (func tool kwargs w) as [[result|e|e] w']; try reflexivity.
  destruct (str_error p (shown_result result)); reflexivity.
Qed.

(** The [str] of what is shown of a string result returns. *)
Lemma shown_string (s : str) : str_error p (shown_result (PyStr s)) = None.
Proof.
  unfold shown_result.
  destruct (Py.len s >? 2000)%Z; apply str_error_str.
Qed.

End Dispatcher.


Section DispatcherClaims.

Import agent.

(** C3, as stated, fails: the dispatcher does not return the first 2000
    characters and the marker alone.  For a capability that returns 2001
    characters the result starts with the label that names the tool. *)
Lemma execute_long_result_counterexample :
  fst (execute sample.platform examples.echo_executor (PyStr (py "echo"))
         (PyDict []) examples.idle)
  <> inr (firstn 2000 examples.long_text ++ truncation_marker).
Proof.
  intros H.
  apply (f_equal (fun r : Fault + str =>
                    match r with inr (c :: _) => c | _ => 0%N end)) in H.
  vm_compute in H; discriminate.
Qed.

(** C3 (amended): when a registered capability returns a string of more
    than 2000 characters, [execute] returns the label naming the tool
    and saying it succeeded, then the first 2000 characters of the
    string (there are exactly 2000), then the truncation marker, and
    nothing else; the entry [run] appends to the context for the call
    is that text after the words that introduce a tool result. *)
Theorem execute_truncates_long_result (p : Platform) (self : MainAgent)
  (st : AgentState) (call : dict) (name : str) (tool : Tool)
  (w w' : World) (s : str) :
  call <> [] ->
  get_or call (py "name") PyNone = PyStr name ->
  lookup name (tools (tool_executor self)) = Some tool ->
  func tool (get_or call (py "parameters") (PyDict [])) w
  = (ToolReturn (PyStr s), w') ->
  (2000 < Py.len s)%Z ->
  let result :=
    py "工具 '" ++ name ++ py "' 执行成功: "
    ++ (firstn 2000 s ++ truncation_marker) in
  execute p (tool_executor self) (PyStr name)
    (get_or call (py "parameters") (PyDict [])) w
  = (inr result, w')
  /\ List.length (firstn 2000 s) = 2000
  /\ context (orchestrator.state_of
                (fst (dispatch p self st (Some call) w)))
     = context st ++ [message (py "system") (py "工具调用结果: " ++ result)].
Proof.
  intros Hne Hname Hl Hf Hlen result.
  assert (Hn : 2000 <= List.length s) by (unfold Py.len in Hlen; lia).
  assert (He : execute p (tool_executor self) (PyStr name)
                 (get_or call (py "parameters") (PyDict [])) w
               = (inr result, w')).
  { rewrite execute_cases, Hl, Hf, shown_string; unfold shown_result.
    destruct (Z.gtb_spec (Py.len s) 2000) as [_|]; [|lia].
    cbn [py_str].
    change 2000%Z with (Z.of_nat 2000).
    rewrite slice_to_long by exact Hn; reflexivity. }
  split; [exact He|].
  split; [apply firstn_length_le; exact Hn|].
  destruct call as [|kv call]; [congruence|].
  unfold dispatch, bind; rewrite Hname, He; cbn [ret fst].
  destruct (Py.eqb name handoff_name); reflexivity.
Qed.

Lemma execute_truncates_long_result_witness :
  execute sample.platform (tool_executor examples.echo_agent)
    (PyStr (py "echo")) (PyDict []) examples.idle
  = (inr (py "工具 '" ++ py "echo" ++ py "' 执行成功: "
          ++ (firstn 2000 examples.long_text ++ truncation_marker)),
     examples.idle)
  /\ List.length (firstn 2000 examples.long_text) = 2000
  /\ context (orchestrator.state_of
                (fst (dispatch sample.platform examples.echo_agent
                        (state examples.echo_agent)
                        (Some examples.echo_call) examples.idle)))
     = context (state examples.echo_agent)
       ++ [message (py "system")
             (py "工具调用结果: "
              ++ (py "工具 '" ++ py "echo" ++ py "' 执行成功: "
                  ++ (firstn 2000 examples.long_text
                      ++ truncation_marker)))].
Proof.
  apply (execute_truncates_long_result sample.platform examples.echo_agent
           (state examples.echo_agent) examples.echo_call (py "echo")
           (sample.returning (PyStr examples.long_text))
           examples.idle examples.idle examples.long_text).
  - discriminate.
  - reflexivity.
  - reflexivity.
  - reflexivity.
  - vm_compute; reflexivity.
Defined.

(** C6, as stated, fails, in two ways.  The failure string is not of
    bounded length: whatever the bound, a capability that raises with a
    longer message gets a longer failure string.  And [execute] does
    raise to its caller: a capability that is cancelled while it is
    awaited raises an exception that is no [Exception], which the
    handler of [execute] lets through. *)
Lemma execute_failures_counterexample :
  (~ exists bound : nat, forall e : str,
       match fst (execute sample.platform (examples.broken_executor e)
                    (PyStr (py "broken")) (PyDict []) examples.idle) with
       | inr r => List.length r <= bound
       | inl _ => False
       end)
  /\ fst (execute sample.platform examples.cancelled_executor
            (PyStr (py "slow")) (PyDict []) examples.idle)
     = inl (Interrupted []).
Proof.
  split; [|reflexivity].
  intros [bound H].
  specialize (H (repeat 97%N (S bound))).
  rewrite execute_cases in H.
  cbn [examples.broken_executor tools] in H.
  change (lookup (py "broken") [(py "broken",
            sample.raising (repeat 97%N (S bound)))])
    with (Some (sample.raising (repeat 97%N (S bound)))) in H.
  cbn [sample.raising func ret fst] in H.
  rewrite !length_app, repeat_length in H; lia.
Qed.

(** C6 (amended): on a name that is a string [execute] returns a string
    in every case but one.  For a name that is not registered it
    returns a failure string that contains the name and leaves the
    world as it was; when the capability raises an [Exception], it
    returns the label naming the tool and saying it failed, followed by
    the whole message of the exception, however long; when the
    capability returns, it returns a string as well.  The one case: an
    exception of the capability that is no [Exception] (a cancellation,
    an interrupt, an exit) is not caught and reaches the caller. *)
Theorem execute_contains_failures (p : Platform) (self : ToolExecutor)
  (name : str) (kwargs : value) (w : World) :
  match lookup name (tools self) with
  | None =>
      execute p self (PyStr name) kwargs w
      = (inr (py "错误：未知工具 '" ++ name ++ py "'"), w)
  | Some tool =>
      match func tool kwargs w with
      | (ToolRaise e, w') =>
          execute p self (PyStr name) kwargs w
          = (inr (py "工具 '" ++ name ++ py "' 执行失败: " ++ e), w')
      | (ToolReturn _, w') =>
          exists r, execute p self (PyStr name) kwargs w = (inr r, w')
      | (ToolInterrupt e, w') =>
          execute p self (PyStr name) kwargs w = (inl (Interrupted e), w')
      end
  end.
Proof.
  rewrite execute_cases.
  destruct (lookup name (tools self)) as [tool|]; [|reflexivity].
  destruct (func tool kwargs w) as [[result|e|e] w']; try reflexivity.
  destruct (str_error p (shown_result result)); eexists; reflexivity.
Qed.

End DispatcherClaims.

(* ================================================================== *)
(** * The interpreter: [LLMClient.generate_response] *)
(* ================================================================== *)


Section Interpreter.

Import client reply.

Variable p : Platform.

Lemma open_marker_head : open_marker = 60%N :: tl open_marker.
Proof. reflexivity. Qed.

Lemma close_marker_head : close_marker = 60%N :: tl close_marker.
Proof. reflexivity. Qed.

Lemma open_marker_tail : ~ In 60%N (tl open_marker).
Proof. vm_compute; intuition discriminate. Qed.

Lemma close_marker_tail : ~ In 60%N (tl close_marker).
Proof. vm_compute; intuition discriminate. Qed.


(** A reply whose block decodes to a dictionary. *)
Lemma parse_reply_decoded (reply : str) (is_final : bool) (d : dict) :
  Py.contains open_marker reply = true ->
  Py.contains close_marker reply = true ->
  Json.loads (delimited_block reply) = Some (PyDict d) ->
  parse_reply p reply is_final
  = {| content := Some (remaining_text reply); tool_call := Some d;
       is_finished :=
         is_final
         || (Py.contains completion_phrase (remaining_text reply)
             && negb (truthy (PyDict d))) |}.
Proof.
  intros Ho Hc Hl; unfold parse_reply.
  rewrite Ho, Hc; cbn [andb].
  fold (delimited_block reply); rewrite Hl.
  fold (remaining_text reply).
  unfold make_response; rewrite dict_validator_dict; reflexivity.
Qed.

(** The tool call of a reply with both markers depends on the text
    between them alone. *)
Lemma parse_reply_tool_call (reply : str) (is_final : bool) :
  Py.contains open_marker reply = true ->
  Py.contains close_marker reply = true ->
  tool_call (parse_reply p reply is_final)
  = match Json.loads (delimited_block reply) with
    | None | Some PyNone => None
    | Some v =>
        match dict_validator p v with
        | inl d => Some d
        | inr _ => None
        end
    end.
Proof.
  intros Ho Hc; unfold parse_reply.
  rewrite Ho, Hc; cbn [andb].
  fold (delimited_block reply).
  destruct (Json.loads (delimited_block reply)) as [v|]; [|reflexivity].
  unfold make_response.
  destruct v; try reflexivity;
    match goal with
    | |- context [dict_validator p ?v] =>
        destruct (dict_validator p v); reflexivity
    end.
Qed.

(** Where the markers of a reply with a block are found, when no open
    marker comes before the block and no close marker before its
    end. *)
Lemma with_block_found (before body after : str) :
  Py.contains open_marker before = false ->
  Py.contains close_marker (before ++ open_marker ++ body) = false ->
  let reply := with_block before body after in
  Py.contains open_marker reply = true
  /\ Py.contains close_marker reply = true
  /\ delimited_block reply = Py.strip body
  /\ remaining_text reply = Py.strip (before ++ after).
Proof.
  intros Hb Hc reply.
  assert (Eo : reply = before ++ open_marker
                       ++ (body ++ close_marker ++ after))
    by reflexivity.
  assert (Ec : reply = (before ++ open_marker ++ body) ++ close_marker
                       ++ after).
  { unfold reply, with_block; rewrite <- !app_assoc; reflexivity. }
  destruct (find_marker 60%N (tl open_marker) before
              (body ++ close_marker ++ after) open_marker_tail)
    as [Fo Co]; [rewrite <- open_marker_head; exact Hb|].
  rewrite <- open_marker_head, <- Eo in Fo, Co.
  destruct (find_marker 60%N (tl close_marker)
              (before ++ open_marker ++ body) after close_marker_tail)
    as [Fc Cc]; [rewrite <- close_marker_head; exact Hc|].
  rewrite <- close_marker_head, <- Ec in Fc, Cc.
  repeat split; [exact Co | exact Cc | |].
  - unfold delimited_block; rewrite Fo, Fc; f_equal.
    assert (Em : reply = (before ++ open_marker) ++ body
                         ++ (close_marker ++ after)).
    { unfold reply, with_block; rewrite <- !app_assoc; reflexivity. }
    rewrite Em.
    replace (Py.len before + Py.len open_marker)%Z
      with (Py.len (before ++ open_marker)) by apply len_app.
    replace (Py.len (before ++ open_marker ++ body))
      with (Py.len (before ++ open_marker) + Py.len body)%Z
      by (rewrite !len_app; lia).
    apply slice_middle.
  - unfold remaining_text; rewrite Fo, Fc; f_equal.
    replace (Py.len before + Py.len open_marker - Py.len open_marker)%Z
      with (Py.len before) by lia.
    rewrite Eo at 1; rewrite slice_to_app; f_equal.
    replace (Py.len (before ++ open_marker ++ body) + Py.len close_marker)%Z
      with (Py.len ((before ++ open_marker ++ body) ++ close_marker))
      by (rewrite (len_app _ close_marker); reflexivity).
    replace reply
      with (((before ++ open_marker ++ body) ++ close_marker) ++ after).
    + apply slice_from_app.
    + unfold reply, with_block; rewrite <- !app_assoc; reflexivity.
Qed.

(** What follows the first block, further blocks included, has no part
    in the tool call. *)
Lemma later_blocks_ignored (before body after after' : str)
  (is_final : bool) :
  Py.contains open_marker before = false ->
  Py.contains close_marker (before ++ open_marker ++ body) = false ->
  tool_call (parse_reply p (with_block before body after) is_final)
  = tool_call (parse_reply p (with_block before body after') is_final).
Proof.
  intros Hb Hc.
  destruct (with_block_found before body after Hb Hc)
    as (Ho & Hcl & Hd & _).
  destruct (with_block_found before body after' Hb Hc)
    as (Ho' & Hcl' & Hd' & _).
  rewrite !parse_reply_tool_call by assumption.
  rewrite Hd, Hd'; reflexivity.
Qed.

End Interpreter.


Section InterpreterClaims.

Import client reply.

(** C4, as stated, fails in two ways.  A reply to the request for the
    final answer is finished whatever it contains; and a well-formed
    block that is not the first one of the reply is not read, so the
    completion phrase decides. *)
Lemma completion_phrase_counterexample :
  (Py.contains completion_phrase replies.call_and_phrase = true
   /\ Json.loads replies.go_to_url_call
      = Some (PyDict replies.go_to_url_dict)
   /\ is_finished (parse_reply sample.platform replies.call_and_phrase true)
      = true)
  /\ (Py.contains completion_phrase replies.broken_then_call = true
      /\ is_finished
           (parse_reply sample.platform replies.broken_then_call false)
         = true
      /\ tool_call
           (parse_reply sample.platform replies.broken_then_call false)
         = None).
Proof. vm_compute; repeat split; reflexivity. Qed.

(** C4 (amended): take a reply to a request for the next step (not for
    the final answer) in which the first open marker is followed by
    the first close marker, and the text between them decodes to an
    invocation object that names a tool.  Then [is_finished] is false
    and [tool_call] is that object, whether or not the completion
    phrase occurs in the reply; the text kept is the reply without the
    block. *)
Theorem tool_call_takes_priority (p : Platform)
  (before body after : str) (d : dict) :
  Py.contains open_marker before = false ->
  Py.contains close_marker (before ++ open_marker ++ body) = false ->
  Json.loads (Py.strip body) = Some (PyDict d) ->
  names_a_tool d = true ->
  parse_reply p (with_block before body after) false
  = {| content := Some (Py.strip (before ++ after));
       tool_call := Some d;
       is_finished := false |}.
Proof.
  intros Hb Hc Hl Hn.
  destruct (with_block_found before body after Hb Hc)
    as (Ho & Hcl & Hd & Hr).
  rewrite (parse_reply_decoded p _ false d Ho Hcl)
    by (rewrite Hd; exact Hl).
  rewrite Hr.
  destruct d as [|kv d]; [discriminate Hn|].
  cbn [truthy negb orb]; rewrite andb_false_r; reflexivity.
Qed.

Lemma tool_call_takes_priority_witness :
  Py.contains completion_phrase replies.call_and_phrase = true
  /\ parse_reply sample.platform replies.call_and_phrase false
     = {| content := Some (Py.strip (py "好的。" ++ py " 任务已完成"));
          tool_call := Some replies.go_to_url_dict;
          is_finished := false |}.
Proof.
  split; [reflexivity|].
  apply (tool_call_takes_priority sample.platform (py "好的。")
           replies.go_to_url_call (py " 任务已完成")
           replies.go_to_url_dict);
    reflexivity.
Defined.

(** C7, at a reply the code gets wrong: two well-formed blocks after a
    stray close marker.  The close marker is searched from the start of
    the reply, not from the open marker, so the text handed to the
    decoder is empty: no block is honored, the first one included,
    although without the stray marker the first block is. *)
Theorem stray_close_marker_hides_first_block :
  parse_reply sample.platform replies.stray_close false
  = {| content := Some replies.stray_close;
       tool_call := None;
       is_finished := false |}
  /\ delimited_block replies.stray_close = []
  /\ tool_call (parse_reply sample.platform replies.two_calls false)
     = Some replies.go_to_url_dict.
Proof. vm_compute; repeat split; reflexivity. Qed.

End InterpreterClaims.

(* ================================================================== *)
(** * The orchestrator: [MainAgent.run] *)
(* ================================================================== *)


Section Orchestrator.

Import agent orchestrator.

Variable p : Platform.
Variable self : MainAgent.

(** The observation reads the URL and raises on awaiting it. *)
Lemma observation_raises (st : AgentState) (w : World) :
  _get_current_observation st w
  = (inl (NotAwaitable
            (of_opt (option_map reply_text
                       (session w (session_log w ++ [SCurrentUrl]))))),
     with_session_log w (session_log w ++ [SCurrentUrl])).
Proof. reflexivity. Qed.

(** A pass of the loop ends at its first statement. *)
Lemma iteration_raises (st : AgentState) (w : World) :
  iteration p self st w
  = (Stop st
       (Raised
          (NotAwaitable
             (of_opt (option_map reply_text
                        (session w (session_log w ++ [SCurrentUrl])))))),
     with_session_log w (session_log w ++ [SCurrentUrl])).
Proof. reflexivity. Qed.

Lemma record_reply_spec (st : AgentState) (r : client.LLMResponse) :
  (exists added,
      context (record_reply st r) = context st ++ added
      /\ List.length added <= 1)
  /\ is_human_in_control (record_reply st r) = is_human_in_control st
  /\ task (record_reply st r) = task st.
Proof.
  unfold record_reply.
  destruct (client.content r) as [[|c text]|]; cbn.
  - split; [exists []; rewrite app_nil_r; auto | auto].
  - split; [eexists; split; [reflexivity | cbn; lia] | auto].
  - split; [exists []; rewrite app_nil_r; auto | auto].
Qed.

Lemma generate_response_spec (c : client.LLMClient) (t : str)
  (ctx : list Message) (is_final : bool) (w : World) :
  client.generate_response p c t ctx is_final w
  = (match llm w (client.build_messages p c t ctx is_final) with
     | ApiContent reply => client.parse_reply p reply is_final
     | ApiError e => client.error_response e
     end,
     with_llm_log w
       (llm_log w ++ [client.build_messages p c t ctx is_final])).
Proof. reflexivity. Qed.


(** Whatever the capability does, a tool call ends the pass and not the
    run, unless an exception leaves [execute]. *)
Lemma dispatch_spec (st : AgentState) (call : option dict) (w : World) :
  (exists st' entry,
      fst (dispatch p self st call w) = Next st'
      /\ context st' = context st ++ [entry]
      /\ task st' = task st
      /\ (is_human_in_control st' = is_human_in_control st
          \/ is_human_in_control st' = false))
  \/ (exists f, fst (dispatch p self st call w) = Stop st (Raised f)).
Proof.
  unfold dispatch.
  destruct call as [[|kv d]|].
  - left; eexists; eexists; cbn; repeat split; auto.
  - unfold bind.
    destruct (execute p (tool_executor self)
                (get_or (kv :: d) (py "name") PyNone)
                (get_or (kv :: d) (py "parameters") (PyDict [])) w)
      as [[f|tool_result] w'] eqn:E.
    + right; exists f; reflexivity.
    + left; cbn [ret fst].
      destruct (get_or (kv :: d) (py "name") PyNone);
        try (eexists; eexists; repeat split; cbn; auto; fail).
      destruct (Py.eqb s handoff_name);
        eexists; eexists; repeat split; cbn; auto.
  - left; eexists; eexists; cbn; repeat split; auto.
Qed.

Lemma dispatch_llm (st : AgentState) (call : option dict) (w : World) :
  forall s w', dispatch p self st call w = (s, w') ->
  match s with
  | Stop _ (Returned _ _) => False
  | _ => True
  end.
Proof.
  intros s w' E.
  destruct (dispatch_spec st call w) as [(st' & entry & H & _) | (f & H)];
    rewrite E in H; cbn in H; subst s; exact I.
Qed.

(** What the loop body does with a reply, by cases. *)
Lemma handle_response_cases (st : AgentState) (r : client.LLMResponse)
  (w : World) :
  handle_response p self st r w
  = if client.is_finished r then
      (Stop (record_reply st r)
         (Returned Completed
            (fst (final_answer p self (record_reply st r)
                    completed_notice w))),
       snd (final_answer p self (record_reply st r) completed_notice w))
    else dispatch p self (record_reply st r) (client.tool_call r) w.
Proof.
  unfold handle_response; destruct (client.is_finished r); reflexivity.
Qed.

(** The statements that follow a reply append to the context: the
    reply, if it has a text, then the result of the tool or the prompt
    for an action. *)
Lemma handle_response_extends (st : AgentState) (r : client.LLMResponse)
  (w : World) :
  exists recorded added,
    context (record_reply st r) = context st ++ recorded
    /\ context (state_of (fst (handle_response p self st r w)))
       = context st ++ recorded ++ added
    /\ List.length recorded <= 1 /\ List.length added <= 1.
Proof.
  rewrite handle_response_cases.
  destruct (record_reply_spec st r) as ((recorded & Hr & Hlen) & _).
  exists recorded.
  destruct (client.is_finished r).
  - exists []; cbn [fst state_of]; rewrite app_nil_r; cbn; auto.
  - destruct (dispatch_spec (record_reply st r) (client.tool_call r) w)
      as [(st' & e & H & Hctx & _) | (f & H)]; rewrite H; cbn [state_of].
    + exists [e]; rewrite Hctx, Hr, <- app_assoc; cbn; auto.
    + exists []; rewrite app_nil_r; cbn; auto.
Qed.


End Orchestrator.

Section Passes.

Import agent orchestrator.

Variable p : Platform.
Variable self : MainAgent.

(** The statements after the loop. *)
Lemma loop_zero (st : AgentState) (w : World) :
  loop p self 0 st w
  = (Returned Exhausted
       (fst (final_answer p self st (exhausted_notice self) w)),
     st, snd (final_answer p self st (exhausted_notice self) w)).
Proof. reflexivity. Qed.

(** A run that enters the loop leaves it at the first observation. *)
Lemma loop_raises (n : nat) (st : AgentState) (w : World) :
  loop p self (S n) st w
  = (Raised
       (NotAwaitable
          (of_opt (option_map reply_text
                     (session w (session_log w ++ [SCurrentUrl]))))),
     st, with_session_log w (session_log w ++ [SCurrentUrl])).
Proof. reflexivity. Qed.

Lemma loop_state (n : nat) (st : AgentState) (w : World) :
  snd (fst (loop p self n st w)) = st.
Proof. destruct n; reflexivity. Qed.

(** The trace of a run: the state it starts from, and that state again
    when the first pass has raised. *)
Lemma states_cases (n : nat) (st : AgentState) (w : World) :
  states p self n st w = match n with O => [st] | S _ => [st; st] end.
Proof. destruct n; reflexivity. Qed.

Lemma states_constant (n : nat) (st : AgentState) (w : World) (i : nat)
  (a : AgentState) :
  nth_error (states p self n st w) i = Some a -> a = st.
Proof.
  rewrite states_cases; destruct n; destruct i as [|[|i]]; cbn;
    try discriminate; try congruence.
  destruct i; discriminate.
Qed.

End Passes.


Section OrchestratorClaims.

Import agent orchestrator.

(** C9: the context is append-only.  Along the states a run goes
    through, which end in the state the run ends with, between any two
    points the length of the context does not decrease and every entry
    stays what and where it was.  And whatever the reply, the
    statements of the loop body that follow it leave the context they
    found, followed by the reply when it has a text, followed by at
    most one more entry. *)
Theorem context_is_append_only (p : Platform) (self : MainAgent)
  (n : nat) (st : AgentState) (w : World) :
  let trace := states p self n st w in
  last trace st = snd (fst (loop p self n st w))
  /\ (forall i j a b,
         i <= j ->
         nth_error trace i = Some a -> nth_error trace j = Some b ->
         extends (context a) (context b)
         /\ List.length (context a) <= List.length (context b)
         /\ (forall k m,
                nth_error (context a) k = Some m ->
                nth_error (context b) k = Some m))
  /\ (forall st1 r w1,
         exists recorded added,
           context (record_reply st1 r) = context st1 ++ recorded
           /\ context (state_of (fst (handle_response p self st1 r w1)))
              = context st1 ++ recorded ++ added
           /\ List.length recorded <= 1 /\ List.length added <= 1).
Proof.
  intros trace; split; [|split].
  - unfold trace; rewrite states_cases, loop_state.
    destruct n; reflexivity.
  - intros i j a b _ Ha Hb.
    apply states_constant in Ha; apply states_constant in Hb; subst a b.
    split; [exists []; rewrite app_nil_r; reflexivity|].
    split; [lia | auto].
  - intros st1 r w1; apply handle_response_extends.
Qed.



(** C1, at a turn the code gets wrong.  The reply asks for the handoff,
    the operator answers [abort], and the handoff returns its aborted
    outcome; the loop body does not look at it: awaiting the dictionary
    raises inside [execute], the failure is appended as the result of
    the tool, and the pass ends for the next one to start.  No tool
    call, whatever the tool does, makes the loop body return a result.
    [run] itself does not get that far: it ends with the exception of
    its first observation, the operator not asked. *)
Theorem abort_does_not_end_run :
  dict_get (py "aborted")
    (fst (human_handoff.request_human_intervention sample.platform
            sample.modules (py "login required") runs.abort_world))
  = Some (PyBool true)
  /\ client.tool_call
       (client.parse_reply sample.platform sample.handoff_request false)
     = Some sample.handoff_call
  /\ (exists w',
         handle_response sample.platform runs.handoff_agent
           (state runs.handoff_agent)
           (client.parse_reply sample.platform sample.handoff_request false)
           runs.abort_world
         = (Next
              (append (state runs.handoff_agent)
                 (message (py "system")
                    (py "工具调用结果: 工具 'request_human_intervention' 执行失败: object dict can't be used in 'await' expression"))),
            w')
         /\ stdin runs.abort_world = [py "abort"] /\ stdin w' = [])
  /\ (forall p self st call w,
         match fst (dispatch p self st call w) with
         | Stop _ (Returned _ _) => False
         | _ => True
         end)
  /\ run sample.platform runs.handoff_agent runs.abort_world
     = (Raised (NotAwaitable (PyStr (py "https://example.com/login"))),
        state runs.handoff_agent,
        with_session_log runs.abort_world [SCurrentUrl]).
Proof.
  split; [vm_compute; reflexivity|].
  split; [vm_compute; reflexivity|].
  split; [eexists; split; [vm_compute; reflexivity | split; reflexivity]|].
  split.
  - intros p self st call w.
    destruct (dispatch p self st call w) as [s w'] eqn:E.
    exact (dispatch_llm p self st call w s w' E).
  - vm_compute; reflexivity.
Qed.



End OrchestratorClaims.

Section UndecodedBlock.

Import agent orchestrator client reply.




End UndecodedBlock.

(* ================================================================== *)
(** * The capabilities without a browser *)
(* ================================================================== *)


Section Capabilities.

Import guard.

(** C10: a capability whose module-level [browser] is still [None]
    returns a dictionary with [success] false and the message that the
    browser is not initialized; it does not raise and it leaves the
    world, the browser session included, as it was.  This holds for the
    capabilities of [navigation], [interaction], [screenshot] and
    [human_handoff], each with the variable of its own module. *)
Theorem capability_without_browser (p : Platform) (m : Modules)
  (w : World) :
  (navigation_browser m = None ->
   (forall url, refused (navigation.go_to_url m url) w)
   /\ refused (navigation.go_back m) w
   /\ refused (navigation.go_forward m) w)
  /\ (interaction_browser m = None ->
      (forall selector selector_type,
          refused (interaction.click_element m selector selector_type) w)
      /\ (forall selector text selector_type,
             refused (interaction.type_text m selector text selector_type)
               w)
      /\ (forall direction pixels,
             refused (interaction.scroll_page m direction pixels) w))
  /\ (screenshot_browser m = None ->
      forall description,
        refused (screenshot.take_screenshot p m description) w)
  /\ (human_handoff_browser m = None ->
      forall reason,
        refused (human_handoff.request_human_intervention p m reason) w).
Proof.
  repeat split; intros;
    unfold navigation.go_to_url, navigation.go_back, navigation.go_forward,
      interaction.click_element, interaction.type_text,
      interaction.scroll_page, screenshot.take_screenshot,
      human_handoff.request_human_intervention;
    match goal with H : _ = None |- _ => rewrite H end;
    reflexivity.
Qed.

Lemma capability_without_browser_witness :
  ((forall url, refused (navigation.go_to_url modules_at_import url)
                  examples.idle)
   /\ refused (navigation.go_back modules_at_import) examples.idle
   /\ refused (navigation.go_forward modules_at_import) examples.idle)
  /\ refused (interaction.click_element modules_at_import
                (py "#login") (py "css")) examples.idle
  /\ refused (screenshot.take_screenshot sample.platform
                modules_at_import (py "home")) examples.idle
  /\ refused (human_handoff.request_human_intervention sample.platform
                modules_at_import (py "login required")) examples.idle.
Proof.
  destruct (capability_without_browser sample.platform modules_at_import
              examples.idle) as (Hn & Hi & Hs & Hh).
  split; [apply Hn; reflexivity|].
  split; [apply Hi; reflexivity|].
  split; [apply Hs; reflexivity | apply Hh; reflexivity].
Defined.

End Capabilities.

(* ================================================================== *)
(** * The registry of the dispatcher *)
(* ================================================================== *)

Section Registry.

Import agent registry.

Lemma eqb_neq (a b : str) : Py.eqb a b = false <-> a <> b.
Proof.
  split.
  - intros H E; apply eqb_eq in E; congruence.
  - intros H; destruct (Py.eqb a b) eqn:E; [|reflexivity].
    apply eqb_eq in E; contradiction.
Qed.

Lemma lookup_store_same (k : str) (t : Tool) (ts : list (str * Tool)) :
  lookup k (store k t ts) = Some t.
Proof.
  induction ts as [|[k' t'] ts IH]; cbn [store lookup].
  - rewrite eqb_refl; reflexivity.
  - destruct (Py.eqb k k') eqn:E; cbn [lookup].
    + rewrite eqb_refl; reflexivity.
    + rewrite E; exact IH.
Qed.

Lemma lookup_store_other (k k' : str) (t : Tool) (ts : list (str * Tool)) :
  k' <> k -> lookup k' (store k t ts) = lookup k' ts.
Proof.
  intros Hne; apply eqb_neq in Hne.
  induction ts as [|[k0 t0] ts IH]; cbn [store lookup].
  - rewrite Hne; reflexivity.
  - destruct (Py.eqb k k0) eqn:E; cbn [lookup].
    + apply eqb_eq in E; subst k0; rewrite Hne; reflexivity.
    + rewrite IH; reflexivity.
Qed.

Lemma store_keys (k : str) (t : Tool) (ts : list (str * Tool)) :
  map fst (store k t ts)
  = if existsb (Py.eqb k) (map fst ts) then map fst ts
    else map fst ts ++ [k].
Proof.
  induction ts as [|[k' t'] ts IH]; cbn [store map fst existsb app];
    [reflexivity|].
  destruct (Py.eqb k k') eqn:E; cbn [orb map fst].
  - apply eqb_eq in E; subst k'; reflexivity.
  - rewrite IH; destruct (existsb (Py.eqb k) (map fst ts)); reflexivity.
Qed.

Lemma existsb_eqb (k : str) (l : list str) :
  existsb (Py.eqb k) l = true <-> In k l.
Proof.
  rewrite existsb_exists; split.
  - intros (x & Hx & E); apply eqb_eq in E; subst; exact Hx.
  - intros H; exists k; split; [exact H | apply eqb_refl].
Qed.

Lemma store_keys_in (k : str) (t : Tool) (ts : list (str * Tool)) (x : str) :
  In x (map fst (store k t ts)) <-> x = k \/ In x (map fst ts).
Proof.
  rewrite store_keys.
  destruct (existsb (Py.eqb k) (map fst ts)) eqn:E.
  - apply existsb_eqb in E; split; [auto | intros [-> | H]; assumption].
  - rewrite in_app_iff; cbn [In]; split.
    + intros [H | [H | []]]; auto.
    + intros [-> | H]; auto.
Qed.

Lemma store_keys_NoDup (k : str) (t : Tool) (ts : list (str * Tool)) :
  NoDup (map fst ts) -> NoDup (map fst (store k t ts)).
Proof.
  intros H; rewrite store_keys.
  destruct (existsb (Py.eqb k) (map fst ts)) eqn:E; [exact H|].
  assert (Hk : ~ In k (map fst ts)).
  { intros Hin; apply existsb_eqb in Hin; congruence. }
  clear E; induction (map fst ts) as [|a l IH]; cbn [app].
  - constructor; [intros [] | constructor].
  - inversion H as [|? ? Ha Hl]; subst; constructor.
    + rewrite in_app_iff; cbn [In]; intros [Hin | [-> | []]];
        [exact (Ha Hin) | apply Hk; left; reflexivity].
    + apply IH; [exact Hl | intros Hin; apply Hk; right; exact Hin].
Qed.

Lemma tool_eta (t : Tool) :
  {| func := func t; description := description t;
     parameters := parameters t |} = t.
Proof. destruct t; reflexivity. Qed.

Lemma find_over_app (A : Type) (f : A -> bool) (l l' : list A) :
  find f (l ++ l')
  = match find f l with Some x => Some x | None => find f l' end.
Proof.
  induction l as [|a l IH]; cbn [app find]; [reflexivity|].
  destruct (f a); [reflexivity | exact IH].
Qed.

Lemma registrations_lookup (rs : list (str * Tool)) (ex : ToolExecutor)
  (k : str) :
  lookup k (tools (fold_left register rs ex))
  = match last_registered k rs with
    | Some t => Some t
    | None => lookup k (tools ex)
    end.
Proof.
  revert ex; induction rs as [|[k' t'] rs IH]; intros ex;
    [reflexivity|].
  cbn [fold_left]; rewrite IH.
  unfold last_registered; cbn [rev]; rewrite find_over_app.
  destruct (find (fun r => Py.eqb k (fst r)) (rev rs)) as [r|];
    cbn [option_map]; [reflexivity|].
  cbn [find fst snd]; unfold register, register_tool;
    cbn [tools fst snd]; rewrite tool_eta.
  destruct (Py.eqb k k') eqn:E; cbn [option_map snd].
  - apply eqb_eq in E; subst k'; apply lookup_store_same.
  - apply lookup_store_other, eqb_neq; exact E.
Qed.

Lemma registrations_keys (rs : list (str * Tool)) (ex : ToolExecutor) :
  (NoDup (names ex) -> NoDup (names (fold_left register rs ex)))
  /\ (forall x, In x (names (fold_left register rs ex))
                <-> In x (names ex) \/ In x (map fst rs)).
Proof.
  revert ex; induction rs as [|[k t] rs IH]; intros ex; cbn [fold_left].
  - split; [auto | intros x; cbn; tauto].
  - destruct (IH (register ex (k, t))) as [Hn Hi]; split.
    + intros H; apply Hn; unfold names, register, register_tool;
        cbn [tools fst snd]; apply store_keys_NoDup; exact H.
    + intros x; rewrite Hi; unfold names at 1, register, register_tool;
        cbn [tools fst snd map]; rewrite store_keys_in; cbn [In];
        unfold names; intuition congruence.
Qed.

(** X1: a tool registered under a name is the one [execute] runs for
    that name, with the arguments it is given and from the world as it
    is, and what [execute] gives is what that tool comes to: the
    success text with its result, the failure text with its exception
    (or with the exception of showing its result), or the exception
    itself when it is no [Exception].  The registration changes nothing
    for any other name. *)
Theorem register_then_execute (p : Platform) (self : ToolExecutor)
  (name : str) (f : value -> IO ToolOutcome) (description_ : str)
  (parameters_ : list (str * str)) (kwargs : value) (w : World) :
  execute p (register_tool self name f description_ parameters_)
    (PyStr name) kwargs w
  = (match fst (f kwargs w) with
     | ToolReturn result =>
         match str_error p (shown_result result) with
         | None =>
             inr (py "工具 '" ++ name ++ py "' 执行成功: "
                  ++ py_str p (shown_result result))
         | Some e => inr (py "工具 '" ++ name ++ py "' 执行失败: " ++ e)
         end
     | ToolRaise e => inr (py "工具 '" ++ name ++ py "' 执行失败: " ++ e)
     | ToolInterrupt e => inl (Interrupted e)
     end,
     snd (f kwargs w))
  /\ forall other,
       other <> name ->
       execute p (register_tool self name f description_ parameters_)
         (PyStr other) kwargs w
       = execute p self (PyStr other) kwargs w.
Proof.
  split.
  - rewrite execute_cases; unfold register_tool; cbn [tools].
    rewrite lookup_store_same; cbn [func].
    destruct (f kwargs w) as [[result|e|e] w']; reflexivity.
  - intros other Hne; rewrite !execute_cases.
    unfold register_tool; cbn [tools].
    rewrite lookup_store_other by exact Hne; reflexivity.
Qed.

(** X2: whatever registrations are made on a new executor, under names
    used once or several times, the names of the registry are pairwise
    distinct and are exactly the names registered; the definitions
    handed to the client carry these names, in the same order. *)
Theorem registry_names_distinct (rs : list (str * Tool)) :
  NoDup (names (registrations rs))
  /\ (forall x, In x (names (registrations rs)) <-> In x (map fst rs))
  /\ map client.name (get_tool_definitions (registrations rs))
     = names (registrations rs).
Proof.
  destruct (registrations_keys rs {| tools := [] |}) as [Hn Hi].
  split; [apply Hn; constructor|]; split.
  - intros x; rewrite (Hi x); cbn; tauto.
  - unfold get_tool_definitions, names; rewrite map_map.
    apply map_ext; intros [k t]; reflexivity.
Qed.

(** X3: registering a name again replaces its tool: after any
    registrations on a new executor, the tool found under a name is the
    one of the last registration made under it, and a name never
    registered is not found. *)
Theorem last_registration_wins (rs : list (str * Tool)) (name : str) :
  lookup name (tools (registrations rs)) = last_registered name rs
  /\ (lookup name (tools (registrations rs)) = None
      <-> ~ In name (map fst rs)).
Proof.
  assert (H : lookup name (tools (registrations rs))
              = last_registered name rs).
  { unfold registrations; rewrite registrations_lookup.
    destruct (last_registered name rs); reflexivity. }
  split; [exact H|].
  rewrite H; unfold last_registered.
  destruct (find (fun r => Py.eqb name (fst r)) (rev rs)) as [r|] eqn:E;
    cbn [option_map].
  - apply find_some in E; destruct E as [Hin E].
    apply eqb_eq in E; apply in_rev in Hin.
    split; [discriminate|].
    intros Hn; exfalso; apply Hn; rewrite E; apply in_map; exact Hin.
  - split; [|reflexivity].
    intros _ Hin; apply in_map_iff in Hin; destruct Hin as (r & Hr & Hin).
    apply in_rev in Hin.
    pose proof (find_none _ _ E r Hin) as Hf; cbn in Hf.
    rewrite Hr, eqb_refl in Hf; discriminate.
Qed.

End Registry.

(* ================================================================== *)
(** * What the dispatcher shows of a result *)
(* ================================================================== *)

Section Results.

Import agent.

Lemma truncation_marker_len : Py.len truncation_marker = 11%Z.
Proof. reflexivity. Qed.

(** X4: the text [execute] shows of a result, after the label that
    names the tool.  For a string it has at most 2011 characters (2000
    of the result and the marker), and a string of up to 2000
    characters is shown whole; the guard is on strings only, so any
    other result (the dictionaries the capabilities return) is shown
    whole when its [str] returns.  When its [str] raises, as for an
    [int] beyond the interpreter's limit on digits, the result is not
    shown: [execute] reports that the tool failed, with the text of
    that exception.  Either way [execute] adds no effect to those of
    the tool. *)
Theorem execute_result_is_bounded (p : Platform) (self : ToolExecutor)
  (name : str) (tool : Tool) (kwargs : value) (w : World)
  (result : value) :
  lookup name (tools self) = Some tool ->
  fst (func tool kwargs w) = ToolReturn result ->
  match str_error p (shown_result result) with
  | None =>
      exists body,
        execute p self (PyStr name) kwargs w
        = (inr (py "工具 '" ++ name ++ py "' 执行成功: " ++ body),
           snd (func tool kwargs w))
        /\ (forall s, result = PyStr s ->
                      (Py.len body <= 2011)%Z
                      /\ ((Py.len s <= 2000)%Z -> body = s))
        /\ ((forall s, result <> PyStr s) -> body = py_str p result)
  | Some e =>
      (forall s, result <> PyStr s)
      /\ execute p self (PyStr name) kwargs w
         = (inr (py "工具 '" ++ name ++ py "' 执行失败: " ++ e),
            snd (func tool kwargs w))
  end.
Proof.
  intros Hl Hf.
  assert (He : execute p self (PyStr name) kwargs w
               = (match str_error p (shown_result result) with
                  | None =>
                      inr (py "工具 '" ++ name ++ py "' 执行成功: "
                           ++ py_str p (shown_result result))
                  | Some e =>
                      inr (py "工具 '" ++ name ++ py "' 执行失败: " ++ e)
                  end, snd (func tool kwargs w))).
  { rewrite execute_cases, Hl.
    destruct (func tool kwargs w) as [[r|e|e] w']; cbn [fst snd] in *;
      try discriminate.
    injection Hf as ->; reflexivity. }
  destruct (str_error p (shown_result result)) as [e|] eqn:E.
  - split; [|exact He].
    intros s ->; rewrite shown_string in E; discriminate.
  - exists (py_str p (shown_result result)).
    split; [exact He|]; split.
    + intros s ->; unfold shown_result.
      destruct (Z.gtb_spec (Py.len s) 2000) as [Hlong|Hshort];
        cbn [py_str].
      * split; [|lia].
        rewrite len_app, truncation_marker_len.
        change 2000%Z with (Z.of_nat 2000).
        rewrite slice_to_long by (unfold Py.len in Hlong; lia).
        unfold Py.len; rewrite length_firstn; lia.
      * split; [lia | reflexivity].
    + intros Hn; destruct result; try reflexivity.
      exfalso; exact (Hn s eq_refl).
Qed.

Lemma execute_result_is_bounded_witness :
  match str_error sample.platform
          (shown_result (PyInt examples.long_int)) with
  | None =>
      exists body,
        execute sample.platform examples.count_executor
          (PyStr (py "count")) (PyDict []) examples.idle
        = (inr (py "工具 '" ++ py "count" ++ py "' 执行成功: " ++ body),
           snd (func (sample.returning (PyInt examples.long_int))
                  (PyDict []) examples.idle))
        /\ (forall s, PyInt examples.long_int = PyStr s ->
                      (Py.len body <= 2011)%Z
                      /\ ((Py.len s <= 2000)%Z -> body = s))
        /\ ((forall s, PyInt examples.long_int <> PyStr s) ->
            body = py_str sample.platform (PyInt examples.long_int))
  | Some e =>
      (forall s, PyInt examples.long_int <> PyStr s)
      /\ execute sample.platform examples.count_executor
           (PyStr (py "count")) (PyDict []) examples.idle
         = (inr (py "工具 '" ++ py "count" ++ py "' 执行失败: " ++ e),
            snd (func (sample.returning (PyInt examples.long_int))
                   (PyDict []) examples.idle))
  end
  /\ exists body,
       execute sample.platform examples.echo_executor (PyStr (py "echo"))
         (PyDict []) examples.idle
       = (inr (py "工具 '" ++ py "echo" ++ py "' 执行成功: " ++ body),
          snd (func (sample.returning (PyStr examples.long_text))
                 (PyDict []) examples.idle))
       /\ (forall s, PyStr examples.long_text = PyStr s ->
                     (Py.len body <= 2011)%Z
                     /\ ((Py.len s <= 2000)%Z -> body = s))
       /\ ((forall s, PyStr examples.long_text <> PyStr s) ->
           body = py_str sample.platform (PyStr examples.long_text)).
Proof.
  split.
  - apply (execute_result_is_bounded sample.platform
             examples.count_executor (py "count")
             (sample.returning (PyInt examples.long_int))
             (PyDict []) examples.idle (PyInt examples.long_int));
      reflexivity.
  - apply (execute_result_is_bounded sample.platform examples.echo_executor
             (py "echo") (sample.returning (PyStr examples.long_text))
             (PyDict []) examples.idle (PyStr examples.long_text));
      reflexivity.
Defined.

(** On the example platform an [int] of 4301 digits is such a result:
    the tool returned, and [execute] reports a failure. *)
Lemma execute_long_int :
  fst (execute sample.platform examples.count_executor
         (PyStr (py "count")) (PyDict []) examples.idle)
  = inr (py "工具 'count' 执行失败: Exceeds the limit (4300 digits) for integer string conversion; use sys.set_int_max_str_digits() to increase the limit").
Proof. vm_compute; reflexivity. Qed.

End Results.

(* ================================================================== *)
(** * Calls the dispatcher cannot serve *)
(* ================================================================== *)

Section Unserved.

Import agent orchestrator.

(** X5: a call whose name is not registered (a string that is no key of
    the registry, a number, or no name at all, which is looked up as
    [None]) does not end the pass: [execute] reports the unknown tool,
    the report is appended to the context as a tool result, and the
    world is as it was: nothing is run. *)
Theorem unknown_tool_is_reported (p : Platform) (self : MainAgent)
  (st : AgentState) (call : dict) (w : World) :
  call <> [] ->
  (hashable (get_or call (py "name") PyNone) = true ->
   registered (tool_executor self) (get_or call (py "name") PyNone) = None ->
   exists st',
     dispatch p self st (Some call) w = (Next st', w)
     /\ context st'
        = context st
          ++ [message (py "system")
                (py "工具调用结果: "
                 ++ (py "错误：未知工具 '"
                     ++ py_str p (get_or call (py "name") PyNone)
                     ++ py "'"))])
  /\ (dict_get (py "name") call = None ->
      exists st',
        dispatch p self st (Some call) w = (Next st', w)
        /\ context st'
           = context st
             ++ [message (py "system")
                   (py "工具调用结果: 错误：未知工具 'None'")]).
Proof.
  intros Hne.
  assert (H : hashable (get_or call (py "name") PyNone) = true ->
              registered (tool_executor self)
                (get_or call (py "name") PyNone) = None ->
              exists st',
                dispatch p self st (Some call) w = (Next st', w)
                /\ context st'
                   = context st
                     ++ [message (py "system")
                           (py "工具调用结果: "
                            ++ (py "错误：未知工具 '"
                                ++ py_str p (get_or call (py "name") PyNone)
                                ++ py "'"))]).
  { intros Hh Hr.
    destruct call as [|kv call]; [congruence|].
    unfold dispatch, bind, execute; rewrite Hh, Hr; cbn [negb ret].
    destruct (get_or (kv :: call) (py "name") PyNone);
      try (eexists; split; reflexivity).
    destruct (Py.eqb s handoff_name); eexists; split; reflexivity. }
  split; [exact H|].
  intros Hn.
  assert (E : get_or call (py "name") PyNone = PyNone)
    by (unfold get_or; rewrite Hn; reflexivity).
  rewrite E in H; apply H; reflexivity.
Qed.

Lemma unknown_tool_is_reported_witness :
  (exists st',
      dispatch sample.platform examples.echo_agent
        (state examples.echo_agent) (Some replies.go_to_url_dict)
        examples.idle
      = (Next st', examples.idle)
      /\ context st'
         = context (state examples.echo_agent)
           ++ [message (py "system")
                 (py "工具调用结果: "
                  ++ (py "错误：未知工具 '"
                      ++ py_str sample.platform
                           (get_or replies.go_to_url_dict (py "name") PyNone)
                      ++ py "'"))])
  /\ (exists st',
         dispatch sample.platform examples.echo_agent
           (state examples.echo_agent) (Some failures.nameless_call)
           examples.idle
         = (Next st', examples.idle)
         /\ context st'
            = context (state examples.echo_agent)
              ++ [message (py "system")
                    (py "工具调用结果: 错误：未知工具 'None'")]).
Proof.
  split.
  - apply (unknown_tool_is_reported sample.platform examples.echo_agent
             (state examples.echo_agent) replies.go_to_url_dict
             examples.idle);
      [discriminate | reflexivity | reflexivity].
  - apply (unknown_tool_is_reported sample.platform examples.echo_agent
             (state examples.echo_agent) failures.nameless_call
             examples.idle);
      [discriminate | reflexivity].
Defined.

(** X6: a call whose name is a list or a dictionary is not reported as
    an unknown tool: the membership test of [execute] raises, the loop
    body does not catch it, and the pass ends with that exception right
    there: the reply is in the context, no tool result is, nothing was
    run and no request for a final answer is made. *)
Theorem unhashable_name_ends_run (p : Platform) (self : MainAgent)
  (st : AgentState) (w : World) (r : client.LLMResponse) (d : dict)
  (v : value) :
  client.tool_call r = Some d ->
  client.is_finished r = false ->
  dict_get (py "name") d = Some v ->
  hashable v = false ->
  handle_response p self st r w
  = (Stop (record_reply st r) (Raised (Unhashable v)), w).
Proof.
  intros Hc Hf Hn Hh.
  rewrite handle_response_cases, Hf, Hc.
  destruct d as [|kv d]; [discriminate Hn|].
  unfold dispatch, bind, execute, get_or; rewrite Hn, Hh; reflexivity.
Qed.

Lemma unhashable_name_ends_run_witness :
  handle_response sample.platform (runs.plain_agent 50)
    (state (runs.plain_agent 50))
    (client.parse_reply sample.platform failures.list_name_reply false)
    failures.list_name_world
  = (Stop
       (record_reply (state (runs.plain_agent 50))
          (client.parse_reply sample.platform failures.list_name_reply
             false))
       (Raised (Unhashable (PyList [PyStr (py "go_back")]))),
     failures.list_name_world).
Proof.
  apply (unhashable_name_ends_run sample.platform (runs.plain_agent 50)
           (state (runs.plain_agent 50)) failures.list_name_world
           (client.parse_reply sample.platform failures.list_name_reply
              false)
           [(py "name", PyList [PyStr (py "go_back")])]
           (PyList [PyStr (py "go_back")]));
    vm_compute; reflexivity.
Defined.

End Unserved.

(* ================================================================== *)
(** * Replies without a tool call *)
(* ================================================================== *)

Section Prose.

Import agent orchestrator client reply.

Variable p : Platform.
Variable self : MainAgent.

Lemma find_from_startswith (sub s : str) (i : nat) :
  Py.startswith sub s = true -> Py.find_from sub s i = Some i.
Proof. intros H; destruct s; cbn [Py.find_from]; rewrite H; reflexivity. Qed.

(** A text that holds [sub] contains it. *)
Lemma contains_app (sub x r : str) : Py.contains sub (x ++ sub ++ r) = true.
Proof.
  assert (H : forall i, Py.find_from sub (x ++ sub ++ r) i <> None).
  { induction x as [|a x IH]; intros i.
    - cbn [app]; rewrite find_from_startswith by apply startswith_app.
      discriminate.
    - cbn [app Py.find_from].
      destruct (Py.startswith sub (a :: x ++ sub ++ r));
        [discriminate | apply IH]. }
  unfold Py.contains; specialize (H 0).
  destruct (Py.find_from sub (x ++ sub ++ r) 0); congruence.
Qed.

(** A reply that lacks one of the markers is kept as it is. *)
Lemma parse_reply_plain (reply : str) (is_final : bool) :
  Py.contains open_marker reply && Py.contains close_marker reply = false ->
  parse_reply p reply is_final
  = {| content := Some reply; tool_call := None;
       is_finished := is_final || Py.contains completion_phrase reply |}.
Proof.
  intros H; unfold parse_reply; rewrite H.
  cbn [make_response truthy negb]; rewrite andb_true_r; reflexivity.
Qed.

Lemma error_text_nonempty (e : str) : py "调用LLM时发生错误: " ++ e <> [].
Proof.
  intros H; apply (f_equal (@List.length N)) in H.
  rewrite length_app in H.
  change (List.length (py "调用LLM时发生错误: ")) with 12 in H.
  cbn in H; lia.
Qed.

(** A reply that could not be had: the error text is recorded as the
    reply of the assistant, and the prompt for an action follows. *)
Lemma failed_reply (st : AgentState) (w : World) (e : str) :
  handle_response p self st (error_response e) w
  = (Next (append
             (append st
                (message (py "assistant") (py "调用LLM时发生错误: " ++ e)))
             reprompt), w).
Proof.
  rewrite handle_response_cases.
  unfold error_response, record_reply; cbn [is_finished content tool_call].
  pose proof (error_text_nonempty e) as Hne.
  destruct (py "调用LLM时发生错误: " ++ e) as [|c t]; [congruence|].
  reflexivity.
Qed.

Lemma failed_final_answer (st : AgentState) (default : str) (w : World)
  (e : str) :
  llm w (request p self st true) = ApiError e ->
  final_answer p self st default w
  = (py "调用LLM时发生错误: " ++ e,
     with_llm_log w (llm_log w ++ [request p self st true])).
Proof.
  intros H; unfold final_answer, bind, ret.
  rewrite generate_response_spec.
  fold (request p self st true); rewrite H.
  unfold error_response, content_or; cbn [content].
  pose proof (error_text_nonempty e) as Hne.
  destruct (py "调用LLM时发生错误: " ++ e) as [|c t]; [congruence|].
  reflexivity.
Qed.

End Prose.

Section Backend.

Import agent orchestrator client reply.

(** X7: a request that fails does not raise.  [generate_response]
    turns the failure into a reply whose content is the error text,
    without a tool call and not finished, also when the final answer
    was asked for; the request is sent all the same.  The statements of
    the loop body that follow such a reply record the error text as the
    reply of the assistant and append the prompt for an action, and
    touch nothing else. *)
Theorem failing_backend_is_recorded (p : Platform) (self : MainAgent)
  (st : AgentState) (w : World) (e : str) (is_final : bool) :
  llm w (request p self st is_final) = ApiError e ->
  generate_response p (llm_client self) (task st) (context st) is_final w
  = ({| content := Some (py "调用LLM时发生错误: " ++ e);
        tool_call := None; is_finished := false |},
     with_llm_log w (llm_log w ++ [request p self st is_final]))
  /\ forall st1 w1,
       handle_response p self st1
         (fst (generate_response p (llm_client self) (task st)
                 (context st) is_final w)) w1
       = (Next (append
                  (append st1
                     (message (py "assistant")
                        (py "调用LLM时发生错误: " ++ e)))
                  reprompt), w1).
Proof.
  intros H.
  assert (E : generate_response p (llm_client self) (task st) (context st)
                is_final w
              = (error_response e,
                 with_llm_log w (llm_log w ++ [request p self st is_final]))).
  { rewrite generate_response_spec.
    fold (request p self st is_final); rewrite H; reflexivity. }
  split; [exact E|].
  intros st1 w1; rewrite E; apply failed_reply.
Qed.

Lemma failing_backend_is_recorded_witness :
  generate_response sample.platform (llm_client (runs.plain_agent 50))
    (task (state (runs.plain_agent 50)))
    (context (state (runs.plain_agent 50))) false failures.down_world
  = ({| content :=
          Some (py "调用LLM时发生错误: " ++ py "connection refused");
        tool_call := None; is_finished := false |},
     with_llm_log failures.down_world
       (llm_log failures.down_world
        ++ [request sample.platform (runs.plain_agent 50)
              (state (runs.plain_agent 50)) false]))
  /\ forall st1 w1,
       handle_response sample.platform (runs.plain_agent 50) st1
         (fst (generate_response sample.platform
                 (llm_client (runs.plain_agent 50))
                 (task (state (runs.plain_agent 50)))
                 (context (state (runs.plain_agent 50))) false
                 failures.down_world)) w1
       = (Next (append
                  (append st1
                     (message (py "assistant")
                        (py "调用LLM时发生错误: "
                         ++ py "connection refused")))
                  reprompt), w1).
Proof.
  apply (failing_backend_is_recorded sample.platform (runs.plain_agent 50)
           (state (runs.plain_agent 50)) failures.down_world
           (py "connection refused") false).
  reflexivity.
Defined.

(** X8: the text [run] returns for the final answer.  When the request
    fails, it is the error text, not a notice; when the reply lacks one
    of the markers, it is the reply as it is, or the notice when the
    reply is empty; when the reply holds a block that decodes to an
    object, the block is cut out and what is left, stripped, is
    returned, or the notice when nothing is left. *)
Theorem final_answer_text (p : Platform) (self : MainAgent)
  (st : AgentState) (default : str) (w : World) :
  (forall e,
      llm w (request p self st true) = ApiError e ->
      fst (final_answer p self st default w)
      = py "调用LLM时发生错误: " ++ e)
  /\ (forall reply,
         llm w (request p self st true) = ApiContent reply ->
         Py.contains open_marker reply && Py.contains close_marker reply
         = false ->
         fst (final_answer p self st default w) = Py.or_else reply default)
  /\ (forall before body after d,
         llm w (request p self st true)
         = ApiContent (with_block before body after) ->
         Py.contains open_marker before = false ->
         Py.contains close_marker (before ++ open_marker ++ body) = false ->
         Json.loads (Py.strip body) = Some (PyDict d) ->
         fst (final_answer p self st default w)
         = Py.or_else (Py.strip (before ++ after)) default).
Proof.
  split; [|split].
  - intros e H; rewrite (failed_final_answer p self st default w e H).
    reflexivity.
  - intros reply H Hm; unfold final_answer, bind, ret.
    rewrite generate_response_spec.
    fold (request p self st true); rewrite H.
    rewrite (parse_reply_plain p reply true Hm); reflexivity.
  - intros before body after d H Hb Hc Hl.
    destruct (with_block_found before body after Hb Hc)
      as (Ho & Hcl & Hd & Hr).
    unfold final_answer, bind, ret.
    rewrite generate_response_spec.
    fold (request p self st true); rewrite H.
    rewrite (parse_reply_decoded p _ true d Ho Hcl)
      by (rewrite Hd; exact Hl).
    rewrite Hr; reflexivity.
Qed.

End Backend.

Section FinalAnswers.

Import agent orchestrator.

Lemma final_answer_text_witness :
  fst (final_answer sample.platform (runs.plain_agent 1)
         (state (runs.plain_agent 1)) completed_notice failures.down_world)
  = py "调用LLM时发生错误: " ++ py "connection refused"
  /\ fst (final_answer sample.platform (runs.plain_agent 1)
            (state (runs.plain_agent 1)) completed_notice runs.prose_world)
     = Py.or_else (py "报告") completed_notice
  /\ fst (final_answer sample.platform (runs.plain_agent 1)
            (state (runs.plain_agent 1)) completed_notice
            finals.block_world)
     = Py.or_else (Py.strip (py "报告 " ++ [])) completed_notice.
Proof.
  split; [|split].
  - apply (final_answer_text sample.platform (runs.plain_agent 1)
             (state (runs.plain_agent 1)) completed_notice
             failures.down_world).
    reflexivity.
  - apply (final_answer_text sample.platform (runs.plain_agent 1)
             (state (runs.plain_agent 1)) completed_notice
             runs.prose_world);
      vm_compute; reflexivity.
  - apply (proj2 (proj2 (final_answer_text sample.platform
                           (runs.plain_agent 1)
                           (state (runs.plain_agent 1)) completed_notice
                           finals.block_world))
             (py "报告 ") replies.go_back_call []
             [(py "name", PyStr (py "go_back"))]);
      vm_compute; reflexivity.
Defined.

End FinalAnswers.

(* ================================================================== *)
(** * What the loop body leaves of the state *)
(* ================================================================== *)

Section Fields.

Import agent orchestrator.

Variable p : Platform.
Variable self : MainAgent.

Lemma record_reply_fields (st : AgentState) (r : client.LLMResponse) :
  task (record_reply st r) = task st
  /\ last_action (record_reply st r) = last_action st
  /\ last_result (record_reply st r) = last_result st
  /\ current_url (record_reply st r) = current_url st.
Proof.
  unfold record_reply; destruct (client.content r) as [[|c t]|];
    repeat split.
Qed.

Lemma dispatch_fields (st : AgentState) (call : option dict) (w : World) :
  task (state_of (fst (dispatch p self st call w))) = task st
  /\ last_action (state_of (fst (dispatch p self st call w)))
     = last_action st
  /\ last_result (state_of (fst (dispatch p self st call w)))
     = last_result st
  /\ current_url (state_of (fst (dispatch p self st call w)))
     = current_url st.
Proof.
  unfold dispatch; destruct call as [[|kv d]|]; [repeat split| |repeat split].
  unfold bind.
  destruct (execute p (tool_executor self)
              (get_or (kv :: d) (py "name") PyNone)
              (get_or (kv :: d) (py "parameters") (PyDict [])) w)
    as [[f|tool_result] w']; [repeat split|].
  cbn [ret fst state_of].
  destruct (get_or (kv :: d) (py "name") PyNone); try (repeat split; fail).
  destruct (Py.eqb s handoff_name); repeat split.
Qed.

Lemma handle_response_fields (st : AgentState) (r : client.LLMResponse)
  (w : World) :
  task (state_of (fst (handle_response p self st r w))) = task st
  /\ last_action (state_of (fst (handle_response p self st r w)))
     = last_action st
  /\ last_result (state_of (fst (handle_response p self st r w)))
     = last_result st
  /\ current_url (state_of (fst (handle_response p self st r w)))
     = current_url st.
Proof.
  rewrite handle_response_cases.
  destruct (record_reply_fields st r) as (Hr1 & Hr2 & Hr3 & Hr4).
  destruct (client.is_finished r).
  - cbn [fst state_of]; repeat split; assumption.
  - destruct (dispatch_fields (record_reply st r) (client.tool_call r) w)
      as (Hd1 & Hd2 & Hd3 & Hd4).
    repeat split; congruence.
Qed.

End Fields.

Section FieldsOfRun.

Import agent orchestrator.

(** X9: no statement writes the task, [last_action] or [last_result].
    The state [run] ends with has them as the agent had them when it
    started (for an agent as it is built: the task it was given, and
    [None] twice), however the run ends, its exception included; and
    whatever the reply and whatever the tools do, the statements of the
    loop body that follow a reply leave them as they were. *)
Theorem run_keeps_task (p : Platform) (self : MainAgent) (w : World) :
  (task (snd (fst (run p self w))) = task (state self)
   /\ last_action (snd (fst (run p self w))) = last_action (state self)
   /\ last_result (snd (fst (run p self w))) = last_result (state self))
  /\ (forall st r w1,
         task (state_of (fst (handle_response p self st r w1))) = task st
         /\ last_action (state_of (fst (handle_response p self st r w1)))
            = last_action st
         /\ last_result (state_of (fst (handle_response p self st r w1)))
            = last_result st)
  /\ (forall task_,
         task (state (new_agent task_)) = task_
         /\ last_action (state (new_agent task_)) = None
         /\ last_result (state (new_agent task_)) = None).
Proof.
  split; [|split].
  - unfold run; rewrite loop_state; repeat split.
  - intros st r w1.
    destruct (handle_response_fields p self st r w1) as (H1 & H2 & H3 & _).
    repeat split; assumption.
  - intros task_; repeat split.
Qed.

(** X10: the URL kept in the state is never the URL of the page.  A
    run that enters the loop asks the session for the URL, once, but
    the assignment of [current_url] comes after the statement that
    raises and is not reached; no other statement writes the field,
    the statements that follow a reply included.  So [current_url] is
    after a run what it was before: the empty string for an agent as
    it is built. *)
Theorem current_url_is_never_set (p : Platform) (self : MainAgent)
  (w : World) :
  current_url (snd (fst (run p self w))) = current_url (state self)
  /\ (0 < max_iterations self ->
      session_log (snd (run p self w)) = session_log w ++ [SCurrentUrl])
  /\ (forall st r w1,
         current_url (state_of (fst (handle_response p self st r w1)))
         = current_url st)
  /\ (forall task_, current_url (state (new_agent task_)) = Some []).
Proof.
  split; [|split; [|split]].
  - unfold run; rewrite loop_state; reflexivity.
  - unfold run; destruct (max_iterations self) as [|n]; [lia|].
    intros _; rewrite loop_raises; reflexivity.
  - intros st r w1.
    destruct (handle_response_fields p self st r w1) as (_ & _ & _ & H).
    exact H.
  - reflexivity.
Qed.

End FieldsOfRun.

Section Completion.

Import agent orchestrator client reply.

(** X11: completion is a matter of a substring.  A reply to a request
    for the next step that has no block (one of the markers is missing)
    and contains the completion phrase anywhere, be it in a sentence
    that denies completion, is finished; the statements of the loop
    body that follow it record the reply, request the final answer and
    return it. *)
Theorem phrase_anywhere_finishes (p : Platform) (self : MainAgent)
  (st : AgentState) (w : World) (text : str) :
  Py.contains open_marker text && Py.contains close_marker text = false ->
  Py.contains completion_phrase text = true ->
  let r := parse_reply p text false in
  let st2 := append st (message (py "assistant") text) in
  is_finished r = true
  /\ tool_call r = None
  /\ handle_response p self st r w
     = (Stop st2
          (Returned Completed
             (fst (final_answer p self st2 completed_notice w))),
        snd (final_answer p self st2 completed_notice w)).
Proof.
  intros Hm Hc r st2; unfold r.
  rewrite handle_response_cases, (parse_reply_plain p text false Hm), Hc.
  cbn [orb is_finished tool_call].
  split; [reflexivity|]; split; [reflexivity|].
  unfold record_reply; cbn [content].
  destruct text as [|c t]; [discriminate Hc|].
  reflexivity.
Qed.

Lemma phrase_anywhere_finishes_witness :
  is_finished (parse_reply sample.platform finals.denial false) = true
  /\ tool_call (parse_reply sample.platform finals.denial false) = None
  /\ handle_response sample.platform (runs.plain_agent 50)
       (state (runs.plain_agent 50))
       (parse_reply sample.platform finals.denial false)
       finals.denial_world
     = (Stop
          (append (state (runs.plain_agent 50))
             (message (py "assistant") finals.denial))
          (Returned Completed
             (fst (final_answer sample.platform (runs.plain_agent 50)
                     (append (state (runs.plain_agent 50))
                        (message (py "assistant") finals.denial))
                     completed_notice finals.denial_world))),
        snd (final_answer sample.platform (runs.plain_agent 50)
               (append (state (runs.plain_agent 50))
                  (message (py "assistant") finals.denial))
               completed_notice finals.denial_world)).
Proof.
  apply (phrase_anywhere_finishes sample.platform (runs.plain_agent 50)
           (state (runs.plain_agent 50)) finals.denial_world finals.denial);
    vm_compute; reflexivity.
Defined.

(** X12: a block that decodes to an empty object or to [null] is no
    call.  The block is still cut out of the text, the completion
    phrase in what is left decides whether the reply is finished, and
    the dispatcher is not entered: the pass ends with the prompt for
    an action, the world as it was. *)
Theorem empty_call_is_no_call (p : Platform) (self : MainAgent)
  (before body after : str) :
  Py.contains open_marker before = false ->
  Py.contains close_marker (before ++ open_marker ++ body) = false ->
  Json.loads (Py.strip body) = Some (PyDict [])
  \/ Json.loads (Py.strip body) = Some PyNone ->
  let r := parse_reply p (with_block before body after) false in
  content r = Some (Py.strip (before ++ after))
  /\ is_finished r
     = Py.contains completion_phrase (Py.strip (before ++ after))
  /\ forall st w,
       dispatch p self st (tool_call r) w = (Next (append st reprompt), w).
Proof.
  intros Hb Hc Hl r.
  destruct (with_block_found before body after Hb Hc)
    as (Ho & Hcl & Hd & Hr).
  assert (E : r = {| content := Some (Py.strip (before ++ after));
                     tool_call := tool_call r;
                     is_finished :=
                       Py.contains completion_phrase
                         (Py.strip (before ++ after)) |}
              /\ (tool_call r = Some [] \/ tool_call r = None)).
  { destruct Hl as [Hl | Hl].
    - unfold r; rewrite (parse_reply_decoded p _ false [] Ho Hcl)
        by (rewrite Hd; exact Hl).
      rewrite Hr; cbn [truthy negb orb tool_call]; rewrite andb_true_r.
      split; [reflexivity | left; reflexivity].
    - unfold r, parse_reply; rewrite Ho, Hcl; cbn [andb].
      fold (delimited_block (with_block before body after)).
      rewrite Hd, Hl.
      fold (remaining_text (with_block before body after)); rewrite Hr.
      cbn [make_response truthy negb orb tool_call]; rewrite andb_true_r.
      split; [reflexivity | right; reflexivity]. }
  destruct E as [E Ht]; split; [rewrite E; reflexivity|].
  split; [rewrite E; reflexivity|].
  intros st w; destruct Ht as [-> | ->]; reflexivity.
Qed.

Lemma empty_call_is_no_call_witness :
  content (parse_reply sample.platform finals.empty_call_reply false)
  = Some (Py.strip ([] ++ []))
  /\ is_finished (parse_reply sample.platform finals.empty_call_reply false)
     = Py.contains completion_phrase (Py.strip ([] ++ []))
  /\ forall st w,
       dispatch sample.platform examples.echo_agent st
         (tool_call (parse_reply sample.platform finals.empty_call_reply
                       false)) w
       = (Next (append st reprompt), w).
Proof.
  apply (empty_call_is_no_call sample.platform examples.echo_agent
           [] (py "{}") []);
    [reflexivity | reflexivity | left; reflexivity].
Defined.

End Completion.

(* ================================================================== *)
(** * How a run ends *)
(* ================================================================== *)

Section RunEnds.

Import agent orchestrator.

(** X13: a run that enters the loop ends at its first statement.  The
    observation calls [get_current_url], a plain method, and awaits
    the string (or [None]) it returns; so, whatever the task, the
    tools, the backend and the operator, [run] on an agent that may
    make a pass (any agent as it is built: 50 passes) asks the session
    for the URL once and raises the [TypeError] of that [await]: no
    request is sent to the backend, nothing is read or printed, the
    state is as it was.  Only an agent set to make no pass returns:
    the final answer of the statements after the loop. *)
Theorem run_ends_at_first_observation (p : Platform) (self : MainAgent)
  (w : World) :
  (0 < max_iterations self ->
   run p self w
   = (Raised
        (NotAwaitable
           (of_opt (option_map reply_text
                      (session w (session_log w ++ [SCurrentUrl]))))),
      state self, with_session_log w (session_log w ++ [SCurrentUrl]))
   /\ llm_log (snd (run p self w)) = llm_log w
   /\ stdin (snd (run p self w)) = stdin w
   /\ stdout (snd (run p self w)) = stdout w)
  /\ (max_iterations self = 0 ->
      run p self w
      = (Returned Exhausted
           (fst (final_answer p self (state self) (exhausted_notice self)
                   w)),
         state self,
         snd (final_answer p self (state self) (exhausted_notice self) w)))
  /\ (forall task_, max_iterations (new_agent task_) = 50).
Proof.
  split; [|split].
  - unfold run; destruct (max_iterations self) as [|n]; [lia|].
    intros _; rewrite loop_raises; repeat split.
  - unfold run; intros ->; apply loop_zero.
  - reflexivity.
Qed.

Lemma run_ends_at_first_observation_witness :
  run sample.platform (new_agent (py "check the title")) runs.done_world
  = (Raised
       (NotAwaitable
          (of_opt (option_map reply_text
                     (session runs.done_world
                        (session_log runs.done_world ++ [SCurrentUrl]))))),
     state (new_agent (py "check the title")),
     with_session_log runs.done_world
       (session_log runs.done_world ++ [SCurrentUrl]))
  /\ llm_log (snd (run sample.platform (new_agent (py "check the title"))
                     runs.done_world))
     = llm_log runs.done_world
  /\ stdin (snd (run sample.platform (new_agent (py "check the title"))
                   runs.done_world))
     = stdin runs.done_world
  /\ stdout (snd (run sample.platform (new_agent (py "check the title"))
                    runs.done_world))
     = stdout runs.done_world.
Proof.
  apply (proj1 (run_ends_at_first_observation sample.platform
                  (new_agent (py "check the title")) runs.done_world)).
  cbn [max_iterations new_agent]; lia.
Defined.

End RunEnds.

Section PlainTools.

Import agent.

(** X24: a plain function registered as a tool runs and is reported as
    failed.  [execute] calls it with the arguments, so it does all it
    does (the handoff asks the operator, a navigation moves the page),
    and then awaits the dictionary it returned, which raises inside the
    [try]: whatever the dictionary says, success included, the text
    [execute] returns is the failure label with the text of that
    [TypeError], and the world is as the function left it. *)
Theorem plain_tool_runs_and_fails (p : Platform) (self : ToolExecutor)
  (name : str) (tool : Tool) (f : IO dict) (kwargs : value) (w : World) :
  lookup name (tools self) = Some tool ->
  func tool kwargs = plain p f ->
  execute p self (PyStr name) kwargs w
  = (inr (py "工具 '" ++ name ++ py "' 执行失败: "
          ++ await_error p (PyDict (fst (f w)))),
     snd (f w)).
Proof.
  intros Hl Hf; rewrite execute_cases, Hl, Hf.
  unfold plain, bind, ret; destruct (f w); reflexivity.
Qed.

Lemma plain_tool_runs_and_fails_witness :
  execute sample.platform (tool_executor runs.handoff_agent)
    (PyStr handoff_name)
    (PyDict [(py "reason", PyStr (py "login required"))]) runs.resume_world
  = (inr (py "工具 '" ++ handoff_name ++ py "' 执行失败: "
          ++ await_error sample.platform
               (PyDict
                  (fst (human_handoff.request_human_intervention
                          sample.platform sample.modules
                          (py "login required") runs.resume_world)))),
     snd (human_handoff.request_human_intervention sample.platform
            sample.modules (py "login required") runs.resume_world)).
Proof.
  apply (plain_tool_runs_and_fails sample.platform
           (tool_executor runs.handoff_agent) handoff_name
           (sample.handoff sample.platform sample.modules)
           (human_handoff.request_human_intervention sample.platform
              sample.modules (py "login required"))
           (PyDict [(py "reason", PyStr (py "login required"))])
           runs.resume_world);
    reflexivity.
Defined.

End PlainTools.

(* ================================================================== *)
(** * The list of tools in a request *)
(* ================================================================== *)

Section Listing.

Import client listing.

Lemma fold_params (ps : list (str * str)) (acc : str) :
  fold_left
    (fun acc param =>
       acc ++ py "    " ++ fst param ++ py ": " ++ snd param ++ nl)
    ps acc
  = acc ++ concat (map param_line ps).
Proof.
  revert acc; induction ps as [|param ps IH]; intros acc;
    cbn [fold_left map concat].
  - rewrite app_nil_r; reflexivity.
  - rewrite IH; unfold param_line; rewrite <- !app_assoc; reflexivity.
Qed.

Lemma fold_tools (ts : list ToolDefinition) (acc : str) :
  fold_left
    (fun tools_str tool =>
       fold_left
         (fun acc param =>
            acc ++ py "    " ++ fst param ++ py ": " ++ snd param ++ nl)
         (parameters tool)
         (tools_str ++ py "- " ++ name tool ++ py ": "
          ++ description tool ++ nl ++ py "  参数：" ++ nl))
    ts acc
  = acc ++ concat (map tool_block ts).
Proof.
  revert acc; induction ts as [|tool ts IH]; intros acc;
    cbn [fold_left map concat].
  - rewrite app_nil_r; reflexivity.
  - rewrite IH, fold_params; unfold tool_block, tool_head.
    rewrite <- !app_assoc; reflexivity.
Qed.

(** X14: the list of tools written for the prompt is the header line
    followed by one block for each tool, in the order of registration:
    the line with the name and the description, the line that
    introduces the parameters, and one line for each parameter in the
    order of the dictionary; without tools it is the fixed text saying
    so. *)
Theorem tool_listing_layout (self : LLMClient) :
  _format_tools_for_prompt self
  = match tools self with
    | [] => py "没有可用工具"
    | _ :: _ => header ++ concat (map tool_block (tools self))
    end.
Proof.
  unfold _format_tools_for_prompt.
  destruct (tools self) as [|tool ts]; [reflexivity|].
  apply fold_tools.
Qed.

Lemma concat_split (ds l1 l2 : list ToolDefinition) (d : ToolDefinition) :
  ds = l1 ++ d :: l2 ->
  concat (map tool_block ds)
  = concat (map tool_block l1) ++ tool_head d
    ++ (py "  参数：" ++ nl ++ concat (map param_line (parameters d)))
    ++ concat (map tool_block l2).
Proof.
  intros ->; rewrite map_app, concat_app; cbn [map concat].
  unfold tool_block at 2; rewrite <- !app_assoc; reflexivity.
Qed.

(** X15: every registered tool is announced in every request for a next
    step, and none in the request for the final answer.  When the
    client holds the definitions of the executor, the system message of
    a request for the next step contains, for each tool of the
    registry, the line with its name and its description; the system
    message of the request for the final answer is the system prompt
    alone. *)
Theorem tools_are_announced (p : Platform) (ex : agent.ToolExecutor)
  (user_task : str) (context : list Message) (k : str)
  (tool : agent.Tool) :
  let self :=
    register_tools {| tools := [] |} (agent.get_tool_definitions ex) in
  In (k, tool) (agent.tools ex) ->
  Py.contains (py "- " ++ k ++ py ": " ++ agent.description tool ++ nl)
    (system_message (build_messages p self user_task context false))
  = true
  /\ system_message (build_messages p self user_task context true)
     = SYSTEM_PROMPT p.
Proof.
  intros self Hin.
  set (d := {| name := k; description := agent.description tool;
               parameters := agent.parameters tool |}).
  assert (Hd : In d (tools self)).
  { unfold self, register_tools, agent.get_tool_definitions; cbn [tools].
    apply in_map_iff; exists (k, tool); split; [reflexivity | exact Hin]. }
  split.
  - unfold build_messages, system_message.
    rewrite tool_listing_layout.
    destruct (tools self) as [|t0 ts] eqn:E; [destruct Hd|].
    cbn [negb app msg_content message].
    rewrite <- E in *.
    destruct (in_split _ _ Hd) as (l1 & l2 & Hs).
    rewrite (concat_split _ l1 l2 d Hs).
    change (py "- " ++ k ++ py ": " ++ agent.description tool ++ nl)
      with (tool_head d).
    match goal with
    | |- Py.contains ?s (?a ++ ?b ++ ?c ++ (?h ++ ?x ++ ?s ++ ?y) ++ ?z) = _ =>
        replace (a ++ b ++ c ++ (h ++ x ++ s ++ y) ++ z)
          with ((a ++ b ++ c ++ h ++ x) ++ s ++ (y ++ z))
          by (rewrite <- !app_assoc; reflexivity)
    end.
    apply contains_app.
  - unfold build_messages, system_message.
    destruct (tools self); reflexivity.
Qed.

Lemma tools_are_announced_witness :
  Py.contains
    (py "- " ++ py "echo" ++ py ": "
     ++ agent.description (sample.returning (PyStr examples.long_text))
     ++ nl)
    (system_message
       (build_messages sample.platform
          (register_tools {| tools := [] |}
             (agent.get_tool_definitions examples.echo_executor))
          (py "copy the page") [] false))
  = true
  /\ system_message
       (build_messages sample.platform
          (register_tools {| tools := [] |}
             (agent.get_tool_definitions examples.echo_executor))
          (py "copy the page") [] true)
     = SYSTEM_PROMPT sample.platform.
Proof.
  apply (tools_are_announced sample.platform examples.echo_executor
           (py "copy the page") [] (py "echo")
           (sample.returning (PyStr examples.long_text))).
  left; reflexivity.
Defined.

End Listing.

Section Operator.

Import human_handoff operator console results.

Lemma help_has_no_prompt : filter (Py.eqb prompt) help_text = [].
Proof. vm_compute; reflexivity. Qed.

Lemma prompts_app (a b : list str) :
  List.length (filter (Py.eqb prompt) (a ++ b))
  = List.length (filter (Py.eqb prompt) a)
    + List.length (filter (Py.eqb prompt) b).
Proof. rewrite filter_app, length_app; reflexivity. Qed.

Lemma unread_length (lines : list str) :
  List.length (unread lines) <= List.length lines.
Proof.
  induction lines as [|line rest IH]; cbn [unread List.length]; [lia|].
  destruct (decides line); lia.
Qed.

Lemma await_operator_spec (lines out : list str) :
  exists printed,
    await_operator lines out = (decision lines, unread lines, out ++ printed)
    /\ List.length (filter (Py.eqb prompt) printed)
       = List.length lines - List.length (unread lines)
         + match decision lines with Some _ => 0 | None => 1 end.
Proof.
  revert out; induction lines as [|line rest IH]; intros out.
  - exists [prompt]; split; reflexivity.
  - cbn [await_operator]; unfold decision; cbn [find unread].
    fold (decides line).
    set (out2 := if Py.eqb (Py.lower (Py.strip line)) (py "help")
                 then (out ++ [prompt]) ++ help_text else out ++ [prompt]).
    assert (Ho : exists shown,
               out2 = out ++ shown
               /\ List.length (filter (Py.eqb prompt) shown) = 1).
    { unfold out2; destruct (Py.eqb (Py.lower (Py.strip line)) (py "help")).
      - exists ([prompt] ++ help_text); rewrite app_assoc; split;
          [reflexivity|].
        rewrite prompts_app, help_has_no_prompt; reflexivity.
      - exists [prompt]; split; reflexivity. }
    destruct Ho as (shown & Ho & Hs).
    destruct (decides line) eqn:D.
    + exists shown; rewrite Ho; split; [reflexivity|].
      rewrite Hs; cbn [option_map List.length]; lia.
    + destruct (IH out2) as (printed & Hp & Hn).
      exists (shown ++ printed); rewrite Hp, Ho, <- app_assoc.
      split; [reflexivity|].
      rewrite prompts_app, Hs, Hn; fold (decision rest).
      pose proof (unread_length rest); cbn [List.length]; lia.
Qed.

(** X16: the operator's lines are read up to the first one that is
    [done] or [abort] once stripped and lowered: that line, stripped,
    is the decision, the lines before it have no effect but the help
    text a [help] prints, and the lines after it stay unread.  Without
    such a line every line is read and the wait ends with the end of
    the input.  One prompt is printed for each line read, and one more
    when the input ends; nothing printed before is lost. *)
Theorem operator_is_awaited (lines out : list str) :
  exists printed,
    await_operator lines out = (decision lines, unread lines, out ++ printed)
    /\ List.length (filter (Py.eqb prompt) printed)
       = List.length lines - List.length (unread lines)
         + match decision lines with Some _ => 0 | None => 1 end.
Proof. apply await_operator_spec. Qed.

End Operator.

Section Screenshots.

Import effects console results.

Variable p : Platform.

Lemma ret_adds (A : Type) (a : A) (w : World) : adds (ret a) w [].
Proof. unfold adds, ret; cbn [snd]; rewrite app_nil_r; repeat split. Qed.

Lemma bind_adds (A B : Type) (c : IO A) (k : A -> IO B) (w : World)
  (a1 a2 : list SeleniumCall) :
  adds c w a1 -> adds (k (fst (c w))) (snd (c w)) a2 ->
  adds (bind c k) w (a1 ++ a2).
Proof.
  unfold adds, bind; destruct (c w) as [a w1]; cbn [fst snd].
  intros (H1 & H2 & H3 & H4) (K1 & K2 & K3 & K4).
  rewrite K1, K2, K3, K4, H1, H2, H3, H4, app_assoc; repeat split.
Qed.

Lemma selenium_adds (c : SeleniumCall) (w : World) :
  adds (selenium c) w [c].
Proof. repeat split. Qed.

Lemma print_adds (s : str) (w : World) : adds (print s) w [].
Proof. unfold adds, print; cbn; rewrite app_nil_r; repeat split. Qed.

Lemma looks_only_ret (A : Type) (a : A) : looks_only (ret a).
Proof. intros w; exists []; split; [apply ret_adds | reflexivity]. Qed.

Lemma looks_only_bind (A B : Type) (c : IO A) (k : A -> IO B) :
  looks_only c -> (forall a, looks_only (k a)) -> looks_only (bind c k).
Proof.
  intros Hc Hk w.
  destruct (Hc w) as (a1 & H1 & F1).
  destruct (Hk (fst (c w)) (snd (c w))) as (a2 & H2 & F2).
  exists (a1 ++ a2); split; [apply bind_adds; assumption|].
  rewrite forallb_app, F1, F2; reflexivity.
Qed.

Lemma looks_only_selenium (c : SeleniumCall) :
  observing c = true -> looks_only (selenium c).
Proof.
  intros H w; exists [c]; split; [apply selenium_adds|].
  cbn [forallb]; rewrite H; reflexivity.
Qed.

Lemma looks_only_print (s : str) : looks_only (print s).
Proof. intros w; exists []; split; [apply print_adds | reflexivity]. Qed.

Lemma looks_only_get_current_url : looks_only ChromeDriver.get_current_url.
Proof.
  apply looks_only_bind; [apply looks_only_selenium; reflexivity|].
  intros r; apply looks_only_ret.
Qed.

Lemma looks_only_driver_screenshot (file_path : str) :
  looks_only (ChromeDriver.take_screenshot file_path).
Proof.
  apply looks_only_bind; [apply looks_only_selenium; reflexivity|].
  intros r; apply looks_only_ret.
Qed.

Lemma looks_at (A : Type) (c c' : IO A) (w : World) :
  c w = c' w -> looks_only c' ->
  exists added, adds c w added /\ forallb observing added = true.
Proof.
  intros E H; destruct (H w) as (a & Ha & F).
  exists a; split; [|exact F].
  unfold adds in *; rewrite E; exact Ha.
Qed.

Lemma looks_only_take_screenshot (m : Modules) (description : str) :
  looks_only (screenshot.take_screenshot p m description).
Proof.
  unfold screenshot.take_screenshot.
  destruct (screenshot_browser m); [|apply looks_only_ret].
  intros w.
  destruct (makedirs_error w (path_join p (DATA_DIR p) (py "screenshots")))
    as [e|] eqn:E.
  - eapply looks_at; [cbv beta zeta; rewrite E; reflexivity|].
    apply looks_only_bind; [apply looks_only_get_current_url|].
    intros u; apply looks_only_ret.
  - eapply looks_at; [cbv beta zeta; rewrite E; reflexivity|].
    apply looks_only_bind; [apply looks_only_driver_screenshot|].
    intros success.
    apply looks_only_bind; [apply looks_only_get_current_url|].
    intros u; apply looks_only_ret.
Qed.

Lemma looks_only_wait_for_operator :
  looks_only human_handoff.wait_for_operator.
Proof.
  intros w; exists []; split; [|reflexivity].
  unfold adds, human_handoff.wait_for_operator.
  destruct (human_handoff.await_operator (stdin w) (stdout w))
    as [[decision rest] out].
  cbn; rewrite app_nil_r; repeat split.
Qed.

Ltac looks :=
  repeat first
    [ apply looks_only_ret
    | apply looks_only_print
    | apply looks_only_get_current_url
    | apply looks_only_take_screenshot
    | apply looks_only_wait_for_operator
    | apply looks_only_bind; [|intros ?]
    | match goal with
      | |- looks_only (match ?x with _ => _ end) => destruct x
      | |- looks_only (if ?x then _ else _) => destruct x
      end ].

Lemma looks_only_attempt (m : Modules) (reason : str) :
  looks_only (human_handoff.attempt p m reason).
Proof. unfold human_handoff.attempt; looks. Qed.

Lemma looks_only_handoff (m : Modules) (reason : str) :
  looks_only (human_handoff.request_human_intervention p m reason).
Proof.
  unfold human_handoff.request_human_intervention.
  destruct (human_handoff_browser m); [|apply looks_only_ret].
  apply looks_only_bind; [apply looks_only_attempt|].
  intros r; looks.
Qed.

End Screenshots.

Section Handoff.

Import human_handoff operator console results effects.

Variable p : Platform.

Lemma silent_ret (A : Type) (a : A) : silent (ret a).
Proof. intros w; split; reflexivity. Qed.

Lemma silent_bind (A B : Type) (c : IO A) (k : A -> IO B) :
  silent c -> (forall a, silent (k a)) -> silent (bind c k).
Proof.
  intros Hc Hk w; unfold bind.
  destruct (Hc w) as [H1 H2].
  destruct (c w) as [a w1]; cbn [snd] in *.
  destruct (Hk a w1) as [K1 K2]; split; congruence.
Qed.

Lemma silent_selenium (c : SeleniumCall) : silent (selenium c).
Proof. intros w; split; reflexivity. Qed.

Lemma silent_get_current_url : silent ChromeDriver.get_current_url.
Proof.
  apply silent_bind; [apply silent_selenium | intros r; apply silent_ret].
Qed.

Lemma silent_take_screenshot (m : Modules) (description : str) :
  silent (screenshot.take_screenshot p m description).
Proof.
  unfold screenshot.take_screenshot.
  destruct (screenshot_browser m); [|apply silent_ret].
  intros w; cbv beta zeta.
  destruct (makedirs_error w (path_join p (DATA_DIR p) (py "screenshots")));
    split; reflexivity.
Qed.

(** The keys the handoff reads from the result of a screenshot. *)
Lemma take_screenshot_keys (m : Modules) (description : str) (w : World) :
  exists (b : bool) (path : str),
    dict_get (py "success")
      (fst (screenshot.take_screenshot p m description w))
    = Some (PyBool b)
    /\ dict_get (py "screenshot_path")
         (fst (screenshot.take_screenshot p m description w))
       = Some (if b then PyStr path else PyNone).
Proof.
  unfold screenshot.take_screenshot.
  destruct (screenshot_browser m);
    [|exists false, []; split; reflexivity].
  cbv beta zeta.
  destruct (makedirs_error w (path_join p (DATA_DIR p) (py "screenshots"))).
  - exists false, []; split; reflexivity.
  - cbv beta iota zeta
      delta [bind ChromeDriver.take_screenshot ChromeDriver.get_current_url
             selenium ret fst snd].
    destruct (session w _) as [x|]; [destruct (reply_flag x)|].
    + eexists true, _; split; reflexivity.
    + exists false, []; split; reflexivity.
    + exists false, []; split; reflexivity.
Qed.

Lemma yields_ret (A : Type) (i : list str) (a : A)
  (Q : A -> list str -> Prop) :
  Q a i -> yields_from i (ret a) Q.
Proof. intros H w Hw; cbn; rewrite Hw; exact H. Qed.

Lemma yields_bind (A B : Type) (i : list str) (c : IO A) (k : A -> IO B)
  (Q : B -> list str -> Prop) :
  yields_from i c (fun a j => yields_from j (k a) Q) ->
  yields_from i (bind c k) Q.
Proof.
  intros H w Hw; specialize (H w Hw); unfold bind.
  destruct (c w) as [a w1]; cbn [fst snd] in H.
  exact (H w1 eq_refl).
Qed.

Lemma yields_print (i : list str) (s : str)
  (Q : unit -> list str -> Prop) :
  Q tt i -> yields_from i (print s) Q.
Proof. intros H w Hw; cbn; rewrite Hw; exact H. Qed.

Lemma yields_get_current_url (i : list str)
  (Q : option str -> list str -> Prop) :
  (forall u, Q u i) -> yields_from i ChromeDriver.get_current_url Q.
Proof.
  intros H w Hw.
  destruct (silent_get_current_url w) as [Hs _]; rewrite Hs, Hw; apply H.
Qed.

Lemma yields_take_screenshot (i : list str) (m : Modules)
  (description : str) (Q : dict -> list str -> Prop) :
  (forall (d : dict) (flag : bool) (path : str),
      dict_get (py "success") d = Some (PyBool flag) ->
      dict_get (py "screenshot_path") d
      = Some (if flag then PyStr path else PyNone) ->
      Q d i) ->
  yields_from i (screenshot.take_screenshot p m description) Q.
Proof.
  intros H w Hw.
  destruct (silent_take_screenshot m description w) as [Hs _].
  destruct (take_screenshot_keys m description w) as (flag & path & Ks & Kp).
  rewrite Hs, Hw; exact (H _ flag path Ks Kp).
Qed.

Lemma yields_wait (i : list str) (Q : option str -> list str -> Prop) :
  Q (decision i) (unread i) -> yields_from i wait_for_operator Q.
Proof.
  intros H w Hw; unfold wait_for_operator.
  destruct (await_operator_spec (stdin w) (stdout w)) as (printed & Ha & _).
  rewrite Ha, Hw; exact H.
Qed.

Ltac run :=
  repeat (cbv beta;
          first [ apply yields_print
                | apply yields_get_current_url; intros ?
                | apply yields_wait
                | apply yields_ret
                | apply yields_bind ]).

(** The outcome of a handoff, by the decision of the operator. *)
Lemma handoff_yields (m : Modules) (reason : str) (i : list str) :
  human_handoff_browser m <> None ->
  yields_from i (request_human_intervention p m reason)
    (fun d j =>
       j = unread i
       /\ match decision i with
          | None =>
              dict_get (py "success") d = Some (PyBool false)
              /\ dict_get (py "aborted") d = None
              /\ dict_get (py "message") d
                 = Some (PyStr (py "人工介入失败: "
                                ++ py "EOF when reading a line"))
          | Some user_input =>
              if Py.eqb (Py.lower user_input) (py "abort") then
                dict_get (py "success") d = Some (PyBool false)
                /\ dict_get (py "aborted") d = Some (PyBool true)
                /\ dict_get (py "message") d
                   = Some (PyStr (py "任务已被用户终止"))
              else
                dict_get (py "success") d = Some (PyBool true)
                /\ dict_get (py "aborted") d = Some (PyBool false)
                /\ exists text, dict_get (py "message") d = Some (PyStr text)
          end).
Proof.
  intros Hb; unfold request_human_intervention.
  destruct (human_handoff_browser m); [clear Hb | congruence].
  unfold attempt; run.
  apply yields_take_screenshot; intros d flag path Ks Kp.
  run; unfold subscript; rewrite Ks.
  assert (Hw : forall (c : IO (option str)) (k : option str -> IO (str + dict))
                      (Q : str + dict -> list str -> Prop),
             yields_from i c (fun shown j => shown = None /\ j = i) ->
             yields_from i (k None) Q -> yields_from i (bind c k) Q).
  { intros c k Q Hc Hk; apply yields_bind.
    intros w Hw; destruct (Hc w Hw) as [-> ->]; exact Hk. }
  apply Hw.
  - destruct flag; cbn [truthy]; [rewrite Kp|]; run; split; reflexivity.
  - run.
    destruct (decision i) as [user_input|]; cbv beta iota;
      [destruct (Py.eqb (Py.lower user_input) (py "abort"))|]; run.
    + repeat split.
    + apply yields_take_screenshot; intros d2 flag2 path2 _ _; run.
      split; [reflexivity|].
      split; [reflexivity|]; split; [reflexivity|].
      eexists; reflexivity.
    + repeat split.
Qed.

Lemma handoff_cases (m : Modules) (reason : str) (w : World) :
  human_handoff_browser m <> None ->
  let r := request_human_intervention p m reason w in
  stdin (snd r) = unread (stdin w)
  /\ match decision (stdin w) with
     | None =>
         dict_get (py "success") (fst r) = Some (PyBool false)
         /\ dict_get (py "aborted") (fst r) = None
         /\ dict_get (py "message") (fst r)
            = Some (PyStr (py "人工介入失败: "
                           ++ py "EOF when reading a line"))
     | Some user_input =>
         if Py.eqb (Py.lower user_input) (py "abort") then
           dict_get (py "success") (fst r) = Some (PyBool false)
           /\ dict_get (py "aborted") (fst r) = Some (PyBool true)
           /\ dict_get (py "message") (fst r)
              = Some (PyStr (py "任务已被用户终止"))
         else
           dict_get (py "success") (fst r) = Some (PyBool true)
           /\ dict_get (py "aborted") (fst r) = Some (PyBool false)
           /\ exists text, dict_get (py "message") (fst r) = Some (PyStr text)
     end.
Proof.
  intros Hb r; exact (handoff_yields m reason (stdin w) Hb w eq_refl).
Qed.

End Handoff.

Section HandoffOutcome.

Import human_handoff operator console results effects.

(** X17: the outcome of a handoff is the operator's decision and
    nothing else.  With a browser in the module, whatever the session
    answers and whether or not the screenshots can be taken, [abort]
    gives a result that is aborted and not successful, any other
    decision ([done]) gives a result that is successful and not
    aborted, and the end of the input before any decision gives the
    failure of the handler, with the message of the end of input and
    no [aborted] key.  The lines after the decision stay unread. *)
Theorem handoff_follows_operator (p : Platform) (m : Modules)
  (reason : str) (w : World) :
  human_handoff_browser m <> None ->
  let r := request_human_intervention p m reason w in
  stdin (snd r) = unread (stdin w)
  /\ match decision (stdin w) with
     | None =>
         dict_get (py "success") (fst r) = Some (PyBool false)
         /\ dict_get (py "aborted") (fst r) = None
         /\ dict_get (py "message") (fst r)
            = Some (PyStr (py "人工介入失败: "
                           ++ py "EOF when reading a line"))
     | Some user_input =>
         if Py.eqb (Py.lower user_input) (py "abort") then
           dict_get (py "success") (fst r) = Some (PyBool false)
           /\ dict_get (py "aborted") (fst r) = Some (PyBool true)
           /\ dict_get (py "message") (fst r)
              = Some (PyStr (py "任务已被用户终止"))
         else
           dict_get (py "success") (fst r) = Some (PyBool true)
           /\ dict_get (py "aborted") (fst r) = Some (PyBool false)
           /\ exists text, dict_get (py "message") (fst r) = Some (PyStr text)
     end.
Proof. apply handoff_cases. Qed.

Lemma handoff_follows_operator_witness :
  stdin (snd (request_human_intervention sample.platform sample.modules
                (py "login required") runs.resume_world))
  = unread (stdin runs.resume_world)
  /\ match decision (stdin runs.resume_world) with
     | None =>
         dict_get (py "success")
           (fst (request_human_intervention sample.platform sample.modules
                   (py "login required") runs.resume_world))
         = Some (PyBool false)
         /\ dict_get (py "aborted")
              (fst (request_human_intervention sample.platform
                      sample.modules (py "login required")
                      runs.resume_world))
            = None
         /\ dict_get (py "message")
              (fst (request_human_intervention sample.platform
                      sample.modules (py "login required")
                      runs.resume_world))
            = Some (PyStr (py "人工介入失败: "
                           ++ py "EOF when reading a line"))
     | Some user_input =>
         if Py.eqb (Py.lower user_input) (py "abort") then
           dict_get (py "success")
             (fst (request_human_intervention sample.platform
                     sample.modules (py "login required")
                     runs.resume_world))
           = Some (PyBool false)
           /\ dict_get (py "aborted")
                (fst (request_human_intervention sample.platform
                        sample.modules (py "login required")
                        runs.resume_world))
              = Some (PyBool true)
           /\ dict_get (py "message")
                (fst (request_human_intervention sample.platform
                        sample.modules (py "login required")
                        runs.resume_world))
              = Some (PyStr (py "任务已被用户终止"))
         else
           dict_get (py "success")
             (fst (request_human_intervention sample.platform
                     sample.modules (py "login required")
                     runs.resume_world))
           = Some (PyBool true)
           /\ dict_get (py "aborted")
                (fst (request_human_intervention sample.platform
                        sample.modules (py "login required")
                        runs.resume_world))
              = Some (PyBool false)
           /\ exists text,
                dict_get (py "message")
                  (fst (request_human_intervention sample.platform
                          sample.modules (py "login required")
                          runs.resume_world))
                = Some (PyStr text)
     end.
Proof.
  apply (handoff_follows_operator sample.platform sample.modules
           (py "login required") runs.resume_world).
  discriminate.
Defined.

(** X18: the handoff, the screenshot capability and the URL capability
    only look at the page.  Whatever their arguments, the modules and
    the world, the requests they make of the session are appended to
    its history and are reads of the URL and screenshots only: none
    navigates, clicks, types or runs a script; and they send nothing to
    the backend. *)
Theorem looking_capabilities_only_look (p : Platform) (m : Modules)
  (browser : option Browser) (reason description : str) :
  looks_only (request_human_intervention p m reason)
  /\ looks_only (screenshot.take_screenshot p m description)
  /\ looks_only (extraction.get_current_url browser).
Proof.
  split; [apply looks_only_handoff|].
  split; [apply looks_only_take_screenshot|].
  unfold extraction.get_current_url.
  destruct browser; [|apply looks_only_ret].
  apply looks_only_bind; [apply looks_only_get_current_url|].
  intros u; apply looks_only_ret.
Qed.

End HandoffOutcome.

(* ================================================================== *)
(** * The file a screenshot goes to *)
(* ================================================================== *)

Section ScreenshotFile.

Import results.






End ScreenshotFile.

(* ================================================================== *)
(** * Arguments of the interaction capabilities *)
(* ================================================================== *)

Section Interaction.

Import interaction.

(** X20: a scroll is requested once, or not at all.  With a browser in
    the module, a direction that is [down] or [up] once lowered makes
    one script run in the page, then the URL is read, and the result
    is successful exactly when the session ran the script; for any
    other direction nothing is run, only the URL is read, and the
    result is a failure that quotes the direction as it was given. *)
Theorem scroll_page_scrolls_once (m : Modules) (direction : str)
  (pixels : option Z) (w : World) :
  interaction_browser m <> None ->
  let r := scroll_page m direction pixels w in
  if Py.eqb (Py.lower direction) (py "down")
     || Py.eqb (Py.lower direction) (py "up")
  then
    exists script,
      session_log (snd r)
      = session_log w ++ [SExecuteScript script; SCurrentUrl]
      /\ dict_get (py "success") (fst r)
         = Some (PyBool
                   (ChromeDriver.succeeded
                      (session w
                         (session_log w ++ [SExecuteScript script]))))
  else
    session_log (snd r) = session_log w ++ [SCurrentUrl]
    /\ dict_get (py "success") (fst r) = Some (PyBool false)
    /\ dict_get (py "message") (fst r)
       = Some (PyStr (py "无效的滚动方向: " ++ direction
                      ++ py "，必须是 'down' 或 'up'")).
Proof.
  intros Hb r; unfold r, scroll_page.
  destruct (interaction_browser m); [clear Hb | congruence].
  cbv zeta; unfold ChromeDriver.scroll.
  destruct (Py.eqb (Py.lower direction) (py "down")) eqn:Ed;
    [|destruct (Py.eqb (Py.lower direction) (py "up")) eqn:Eu];
    cbn [orb negb];
    cbv beta iota zeta
      delta [bind ChromeDriver.get_current_url selenium ret fst snd];
    cbn [session_log with_session_log]; rewrite <- ?app_assoc.
  - eexists; split; reflexivity.
  - eexists; split; reflexivity.
  - repeat split.
Qed.

Lemma scroll_page_scrolls_once_witness :
  if Py.eqb (Py.lower (py "sideways")) (py "down")
     || Py.eqb (Py.lower (py "sideways")) (py "up")
  then
    exists script,
      session_log
        (snd (scroll_page sample.modules (py "sideways") (Some 300%Z)
                examples.idle))
      = session_log examples.idle ++ [SExecuteScript script; SCurrentUrl]
      /\ dict_get (py "success")
           (fst (scroll_page sample.modules (py "sideways") (Some 300%Z)
                   examples.idle))
         = Some (PyBool
                   (ChromeDriver.succeeded
                      (session examples.idle
                         (session_log examples.idle
                          ++ [SExecuteScript script]))))
  else
    session_log
      (snd (scroll_page sample.modules (py "sideways") (Some 300%Z)
              examples.idle))
    = session_log examples.idle ++ [SCurrentUrl]
    /\ dict_get (py "success")
         (fst (scroll_page sample.modules (py "sideways") (Some 300%Z)
                 examples.idle))
       = Some (PyBool false)
    /\ dict_get (py "message")
         (fst (scroll_page sample.modules (py "sideways") (Some 300%Z)
                 examples.idle))
       = Some (PyStr (py "无效的滚动方向: " ++ py "sideways"
                      ++ py "，必须是 'down' 或 'up'")).
Proof.
  apply (scroll_page_scrolls_once sample.modules (py "sideways")
           (Some 300%Z) examples.idle).
  discriminate.
Defined.

Lemma some_pixels_zero : ChromeDriver.some_pixels (Some 0%Z) = None.
Proof. reflexivity. Qed.

Lemma some_pixels_none : ChromeDriver.some_pixels None = None.
Proof. reflexivity. Qed.

(** X21: a scroll by no pixels is a scroll to the end.  For every
    direction, every module state and every world, [scroll_page] with
    [pixels = 0] does what it does with no [pixels] at all; so with a
    browser in the module and a direction that lowers to [down], the
    script that is run is the one that scrolls to the bottom of the
    page, not one that scrolls by nothing. *)
Theorem scroll_by_zero_goes_to_the_end (m : Modules) (direction : str)
  (w : World) :
  scroll_page m direction (Some 0%Z) w = scroll_page m direction None w
  /\ (interaction_browser m <> None ->
      Py.lower direction = py "down" ->
      session_log (snd (scroll_page m direction (Some 0%Z) w))
      = session_log w
        ++ [SExecuteScript
              (py "window.scrollTo(0, document.body.scrollHeight);");
            SCurrentUrl]).
Proof.
  unfold scroll_page.
  destruct (interaction_browser m); [|split; [reflexivity | congruence]].
  cbv zeta; unfold ChromeDriver.scroll.
  rewrite some_pixels_zero, some_pixels_none.
  split; [reflexivity|].
  intros _ Hd.
  assert (Ed : Py.eqb (Py.lower direction) (py "down") = true)
    by (rewrite Hd; apply eqb_refl).
  rewrite Ed.
  cbn [orb negb].
  cbv beta iota zeta
    delta [bind ChromeDriver.get_current_url selenium ret fst snd].
  cbn [session_log with_session_log]; rewrite <- app_assoc.
  reflexivity.
Qed.

Lemma scroll_by_zero_goes_to_the_end_witness :
  scroll_page sample.modules (py "Up") (Some 0%Z) examples.idle
  = scroll_page sample.modules (py "Up") None examples.idle
  /\ session_log
       (snd (scroll_page sample.modules (py "Down") (Some 0%Z)
               examples.idle))
     = session_log examples.idle
       ++ [SExecuteScript
             (py "window.scrollTo(0, document.body.scrollHeight);");
           SCurrentUrl].
Proof.
  split.
  - apply (scroll_by_zero_goes_to_the_end sample.modules (py "Up")
             examples.idle).
  - apply (scroll_by_zero_goes_to_the_end sample.modules (py "Down")
             examples.idle);
      [discriminate | reflexivity].
Defined.

(** X22: a selector type that is not [css] means XPath.  Whatever the
    selector type, be it [id], [name] or a misspelling, when it is not
    [css] once lowered the element is looked up by XPath, as for
    [xpath]; [css] is taken in any case of the letters. *)
Theorem selector_type_defaults_to_xpath (m : Modules)
  (selector text selector_type : str) (w : World) :
  (Py.lower selector_type <> py "css" ->
   click_element m selector selector_type w
   = click_element m selector (py "xpath") w
   /\ type_text m selector text selector_type w
      = type_text m selector text (py "xpath") w)
  /\ (Py.lower selector_type = py "css" ->
      click_element m selector selector_type w
      = click_element m selector (py "css") w
      /\ type_text m selector text selector_type w
         = type_text m selector text (py "css") w).
Proof.
  split; intros H.
  - apply eqb_neq in H.
    unfold click_element, type_text, by_of; rewrite H.
    split; reflexivity.
  - unfold click_element, type_text, by_of; rewrite H.
    split; reflexivity.
Qed.

Lemma selector_type_defaults_to_xpath_witness :
  (click_element sample.modules (py "login") (py "id") examples.idle
   = click_element sample.modules (py "login") (py "xpath") examples.idle
   /\ type_text sample.modules (py "login") (py "me") (py "id")
        examples.idle
      = type_text sample.modules (py "login") (py "me") (py "xpath")
          examples.idle)
  /\ (click_element sample.modules (py "#login") (py "CSS") examples.idle
      = click_element sample.modules (py "#login") (py "css") examples.idle
      /\ type_text sample.modules (py "#login") (py "me") (py "CSS")
           examples.idle
         = type_text sample.modules (py "#login") (py "me") (py "css")
             examples.idle).
Proof.
  split.
  - apply (selector_type_defaults_to_xpath sample.modules (py "login")
             (py "me") (py "id") examples.idle).
    discriminate.
  - apply (selector_type_defaults_to_xpath sample.modules (py "#login")
             (py "me") (py "CSS") examples.idle).
    reflexivity.
Defined.

End Interaction.

(* ================================================================== *)
(** * The requests of the acting capabilities *)
(* ================================================================== *)

Section Actions.

Import effects.

Ltac acted :=
  cbv beta iota zeta
    delta [bind ChromeDriver.navigate ChromeDriver.go_back
           ChromeDriver.go_forward ChromeDriver.click_element
           ChromeDriver.type_text ChromeDriver.get_current_url
           selenium ret fst snd];
  cbn [session_log session with_session_log app];
  rewrite <- ?app_assoc; cbn [app];
  repeat split.

(** X23: an action is requested once and the URL is read after it.
    With a browser in the modules, each of [go_to_url], [go_back],
    [go_forward], [click_element] and [type_text] makes its one request
    of the session (the two that move in the history read the URL
    first), never repeats it when it fails, and reads the URL last;
    its result is successful exactly when the session answered that
    request, and the [current_url] of the result is the URL read after
    the action, also when the action failed. *)
Theorem action_is_requested_once (m : Modules)
  (url selector text selector_type : str) (w : World) :
  navigation_browser m <> None ->
  interaction_browser m <> None ->
  acts_once (navigation.go_to_url m url) w [] (SGet url)
  /\ acts_once (navigation.go_back m) w [SCurrentUrl] SBack
  /\ acts_once (navigation.go_forward m) w [SCurrentUrl] SForward
  /\ acts_once (interaction.click_element m selector selector_type) w []
       (SClick (interaction.by_of selector_type) selector)
  /\ acts_once (interaction.type_text m selector text selector_type) w []
       (SSendKeys (interaction.by_of selector_type) selector text).
Proof.
  intros Hn Hi; unfold acts_once.
  unfold navigation.go_to_url, navigation.go_back, navigation.go_forward,
    interaction.click_element, interaction.type_text.
  destruct (navigation_browser m); [clear Hn | congruence].
  destruct (interaction_browser m); [clear Hi | congruence].
  acted.
Qed.

Lemma action_is_requested_once_witness :
  acts_once (navigation.go_to_url sample.modules (py "https://example.com"))
    examples.idle [] (SGet (py "https://example.com"))
  /\ acts_once (navigation.go_back sample.modules) examples.idle
       [SCurrentUrl] SBack
  /\ acts_once (navigation.go_forward sample.modules) examples.idle
       [SCurrentUrl] SForward
  /\ acts_once
       (interaction.click_element sample.modules (py "#q") (py "css"))
       examples.idle []
       (SClick (interaction.by_of (py "css")) (py "#q"))
  /\ acts_once
       (interaction.type_text sample.modules (py "#q") (py "rocq")
          (py "css"))
       examples.idle []
       (SSendKeys (interaction.by_of (py "css")) (py "#q") (py "rocq")).
Proof.
  apply (action_is_requested_once sample.modules (py "https://example.com")
           (py "#q") (py "rocq") (py "css") examples.idle);
    discriminate.
Defined.

End Actions.
